(** * The GAN segmentation trainer of [train.py]

  A shallow embedding of [GANTrainer] (the per-batch adversarial step, the
  epoch loops, model selection, CSV logging and learning-rate scheduling)
  and the properties its specification states about it.

  The numerical library (tensors, modules, losses, Adam, the metrics
  object) is an interface, [Torch]: the trainer is glue code over it and
  every theorem holds for any implementation of that interface.  What the
  trainer itself decides is modelled concretely: Python floats are IEEE
  binary64 values ([PrimFloat.float]), autograd is a graph carried by each
  tensor handle, exceptions and mutation are a state-and-error monad, and
  everything the run writes (log records, CSV rows, checkpoints, progress
  bar postfixes) is a chronological trace. *)

From Stdlib Require Import ZArith QArith Qpower Floats Uint63 Lia Ascii String.
From stdpp Require Import gmap strings list.

Local Open Scope string_scope.
Local Open Scope list_scope.

(** ** Python floats *)

Module PyFloat.

Definition inf : float := PrimFloat.infinity.
Definition zero : float := PrimFloat.zero.

(** [math.isnan] / [torch.isnan] on a scalar. *)
Definition isnan (x : float) : bool := PrimFloat.is_nan x.

(** [x < y] on floats: false as soon as one side is NaN. *)
Definition lt (x y : float) : bool := PrimFloat.ltb x y.

(** An [int] count converted for a float division (exact below 2^53). *)
Definition of_nat (n : nat) : float :=
  PrimFloat.of_uint63 (Uint63.of_Z (Z.of_nat n)).

Definition add (x y : float) : float := PrimFloat.add x y.
Definition div (x y : float) : float := PrimFloat.div x y.

(** The soft real label of [train_discriminator], the double nearest 0.9. *)
Definition soft_real_label : float := 0x1.ccccccccccccdp-1%float.

End PyFloat.

(** ** Exceptions, and the state-and-error monad of the trainer *)

Inductive exn :=
| ValueError (msg : string)
| ZeroDivisionError
| KeyError (key : string)
| UnboundLocalError (var : string).

Inductive result (A : Type) :=
| Ok (a : A)
| Raise (e : exn).
Arguments Ok {A} a.
Arguments Raise {A} e.

Section Monad.
Context {S : Type}.

(** A computation returns a value or raises, and in both cases leaves the
    state it reached: a Python exception does not undo mutations. *)
Definition M (A : Type) : Type := S -> result A * S.

Definition ret {A} (a : A) : M A := fun s => (Ok a, s).
Definition raise {A} (e : exn) : M A := fun s => (Raise e, s).
Definition bind {A B} (m : M A) (k : A -> M B) : M B :=
  fun s => match m s with
           | (Ok a, s1) => k a s1
           | (Raise e, s1) => (Raise e, s1)
           end.
Definition gets {A} (f : S -> A) : M A := fun s => (Ok (f s), s).
Definition modify (f : S -> S) : M unit := fun s => (Ok tt, f s).

(** [for x in xs: acc = body(acc, x)] *)
Fixpoint for_each {A B} (body : B -> A -> M B) (xs : list A) (acc : B) : M B :=
  match xs with
  | [] => ret acc
  | x :: rest => bind (body acc x) (for_each body rest)
  end.
End Monad.

Declare Scope py_scope.
Delimit Scope py_scope with py.
Notation "x <- m ;; k" := (bind m (fun x => k))
(at level 100, m at next level, right associativity) : py_scope.
Notation "m ;;; k" := (bind m (fun _ => k))
(at level 100, right associativity) : py_scope.
Local Open Scope py_scope.

(** Python's [/] on a number and an [int]: division by zero raises. *)
Definition py_div {S} (x : float) (n : nat) : M (S:=S) float :=
if (n =? 0)%nat then raise ZeroDivisionError
else ret (PyFloat.div x (PyFloat.of_nat n)).

(** [d[key]] on a dict. *)
Definition py_getitem {S V} (d : gmap string V) (key : string) : M (S:=S) V :=
match d !! key with
| Some v => ret v
| None => raise (KeyError key)
end.

(** Modelled from the spec: [utils.check_loss_nan] is imported by train.py
  but is not among the sources.  The spec says a NaN loss is detected by
  inspecting the scalar right after it is computed, so the helper is the
  NaN test on the scalar (of a Python float, or of a 0-dim tensor through
  its [item]). *)
Definition check_loss_nan (loss : float) : bool := PyFloat.isnan loss.

(** ** The numerical library

  What train.py takes from torch, from the model classes and from the
  metrics object.  Tensors are opaque values; a module's forward pass is a
  function of its weights, of the library's ambient state (the global RNG
  stream that a fixed seed determines, and module buffers) and of its
  inputs, and it returns the new ambient state. *)

Class Torch := {
  tensor : Type;
  lib_state : Type;
  adam_slot : Type;                 (* Adam's per-parameter moments and step count *)
  metrics_state : Type;             (* SegmentationMetrics' accumulators *)
  item : tensor -> float;           (* [t.item()] *)
  to_float32 : tensor -> tensor;    (* [t.to(device).to(torch.float32)] *)
  ones_like : tensor -> tensor;
  zeros_like : tensor -> tensor;
  mul_scalar : tensor -> float -> tensor;
  tensor_add : tensor -> tensor -> tensor;
  generator_forward :
    bool -> list tensor -> lib_state -> tensor -> tensor * lib_state;
  discriminator_forward :
    bool -> list tensor -> lib_state -> tensor -> tensor -> tensor * lib_state;
  CombinedLoss : tensor -> tensor -> tensor;
  BCELoss : tensor -> tensor -> tensor;
  adam_update :
    float -> float * float -> option adam_slot -> tensor -> tensor ->
    tensor * adam_slot;
  metrics_update : metrics_state -> tensor -> tensor -> metrics_state;
  metrics_compute : metrics_state -> gmap string float;
  metrics_reset : metrics_state -> metrics_state;
}.

Section Autograd.
Context `{Torch}.

(** The computation graph behind a tensor.  A leaf with no history
    ([Detached]) is what the data loader yields, what [detach()] returns
    and what [ones_like]/[zeros_like] build; a forward pass records the
    parameters it read, by identity and value. *)
Inductive graph :=
| Detached (v : tensor)
| Generate (training : bool) (st : lib_state)
           (weights : list (nat * tensor)) (x : graph)
| Discriminate (training : bool) (st : lib_state)
               (weights : list (nat * tensor)) (x mask : graph)
| Criterion (name : string) (input target : graph)
| Plus (a b : graph).

(** The parameters a backward pass from this node reaches. *)
Fixpoint leaves (g : graph) : gset nat :=
  match g with
  | Detached _ => ∅
  | Generate _ _ ws x => list_to_set ws.*1 ∪ leaves x
  | Discriminate _ _ ws x m => list_to_set ws.*1 ∪ leaves x ∪ leaves m
  | Criterion _ a b => leaves a ∪ leaves b
  | Plus a b => leaves a ∪ leaves b
  end.

(** A tensor as the trainer holds it: its contents and its history. *)
Record handle := { value : tensor; grad_fn : graph }.

Definition constant (v : tensor) : handle :=
  {| value := v; grad_fn := Detached v |}.

(** [t.detach()]: same contents, no history. *)
Definition detach (t : handle) : handle := constant (value t).

(** A module parameter: [p.data] and [p.grad]. *)
Record param := { p_data : tensor; p_grad : option tensor }.

End Autograd.

(** Reverse-mode differentiation: the gradient that [backward()] from the
    root of a graph adds to a parameter it reaches. *)
Class Backward `{Torch} := { grad_of : graph -> nat -> tensor }.

(** ** The trainer's objects *)

(** The fields train.py reads from [GANTrainingConfig].  Learning rates,
    Adam's coefficients and the decay factor are Python floats. *)
Record GANTrainingConfig := {
  device : string;
  batch_size : nat;
  num_epochs : nat;
  lr_generator : float;
  lr_discriminator : float;
  beta1 : float;
  beta2 : float;
  lr_decay_step : nat;
  lr_decay_gamma : float;
  checkpoint_dir : string;
}.

(** [optim.lr_scheduler.StepLR]; the optimizer it drives is the one the
    trainer pairs it with. *)
Record StepLR := { step_size : nat; gamma : float; last_epoch : nat }.

Inductive level := INFO | ERROR.

Inductive message :=
| Text (text : string)
| EpochSummary (epoch of_epochs : nat) (train_g_loss train_d_loss val_loss : float)
               (mean_iou dice recall precision accuracy f2 : float).

Inductive cell :=
| CellStr (text : string)
| CellInt (n : nat)
| CellFloat (x : float).

Section Objects.
Context `{Backward}.

(** [optim.Adam] over one parameter list. *)
Record Adam := {
  param_ids : list nat;
  lr : float;
  betas : float * float;
  slots : gmap nat adam_slot;
}.

(** [GanModel]: two sub-modules given by their parameters, the parameter
    store, and the train/eval mode flag. *)
Record GanModel := {
  generator : list nat;
  discriminator : list nat;
  parameters : gmap nat param;
  training : bool;
}.

(** A [DataLoader]: what [len()] answers and what one pass over it yields
    (shuffling draws from the library's RNG). *)
Record DataLoader := {
  loader_len : nat;
  loader_iter : lib_state -> list (tensor * tensor) * lib_state;
}.

(** Everything the trainer does to the outside, in the order it happens. *)
Inductive event :=
| Log (lvl : level) (msg : message)
| Makedirs (path : string)
| CsvCreate (path : string) (header : list cell)
| CsvAppend (path : string) (row : list cell)
| SaveCheckpoint (path : string) (weights : gmap nat tensor)
| SaveBestCheckpoint (path : string) (weights : gmap nat tensor)
| SetPostfix (bar : string) (postfix : gmap string float).

(** The trainer object together with the ambient state it runs in: the
    library's RNG and buffers, the amounts the training progress bar's own
    iterator adds to its counter between batches (they depend on refresh
    timing), and the trace. *)
Record GANTrainer := {
  config : GANTrainingConfig;
  model : GanModel;
  train_loader : DataLoader;
  val_loader : DataLoader;
  best_val_loss : float;
  optimizer_G : Adam;
  optimizer_D : Adam;
  scheduler_G : StepLR;
  scheduler_D : StepLR;
  metrics : metrics_state;
  log_dir : option string;
  csv_file : string;
  weights_dir : option string;
  torch_state : lib_state;
  tqdm_flushes : list nat;
  trace : list event;
}.

(** Attribute assignment, one setter per mutable attribute. *)
Definition set_model (v : GanModel) (s : GANTrainer) : GANTrainer :=
  {| config := config s; model := v; train_loader := train_loader s;
     val_loader := val_loader s; best_val_loss := best_val_loss s;
     optimizer_G := optimizer_G s; optimizer_D := optimizer_D s;
     scheduler_G := scheduler_G s; scheduler_D := scheduler_D s;
     metrics := metrics s; log_dir := log_dir s; csv_file := csv_file s;
     weights_dir := weights_dir s; torch_state := torch_state s;
     tqdm_flushes := tqdm_flushes s; trace := trace s |}.
Definition set_best_val_loss (v : float) (s : GANTrainer) : GANTrainer :=
  {| config := config s; model := model s; train_loader := train_loader s;
     val_loader := val_loader s; best_val_loss := v;
     optimizer_G := optimizer_G s; optimizer_D := optimizer_D s;
     scheduler_G := scheduler_G s; scheduler_D := scheduler_D s;
     metrics := metrics s; log_dir := log_dir s; csv_file := csv_file s;
     weights_dir := weights_dir s; torch_state := torch_state s;
     tqdm_flushes := tqdm_flushes s; trace := trace s |}.
Definition set_optimizer_G (v : Adam) (s : GANTrainer) : GANTrainer :=
  {| config := config s; model := model s; train_loader := train_loader s;
     val_loader := val_loader s; best_val_loss := best_val_loss s;
     optimizer_G := v; optimizer_D := optimizer_D s;
     scheduler_G := scheduler_G s; scheduler_D := scheduler_D s;
     metrics := metrics s; log_dir := log_dir s; csv_file := csv_file s;
     weights_dir := weights_dir s; torch_state := torch_state s;
     tqdm_flushes := tqdm_flushes s; trace := trace s |}.
Definition set_optimizer_D (v : Adam) (s : GANTrainer) : GANTrainer :=
  {| config := config s; model := model s; train_loader := train_loader s;
     val_loader := val_loader s; best_val_loss := best_val_loss s;
     optimizer_G := optimizer_G s; optimizer_D := v;
     scheduler_G := scheduler_G s; scheduler_D := scheduler_D s;
     metrics := metrics s; log_dir := log_dir s; csv_file := csv_file s;
     weights_dir := weights_dir s; torch_state := torch_state s;
     tqdm_flushes := tqdm_flushes s; trace := trace s |}.
Definition set_scheduler_G (v : StepLR) (s : GANTrainer) : GANTrainer :=
  {| config := config s; model := model s; train_loader := train_loader s;
     val_loader := val_loader s; best_val_loss := best_val_loss s;
     optimizer_G := optimizer_G s; optimizer_D := optimizer_D s;
     scheduler_G := v; scheduler_D := scheduler_D s; metrics := metrics s;
     log_dir := log_dir s; csv_file := csv_file s;
     weights_dir := weights_dir s; torch_state := torch_state s;
     tqdm_flushes := tqdm_flushes s; trace := trace s |}.
Definition set_scheduler_D (v : StepLR) (s : GANTrainer) : GANTrainer :=
  {| config := config s; model := model s; train_loader := train_loader s;
     val_loader := val_loader s; best_val_loss := best_val_loss s;
     optimizer_G := optimizer_G s; optimizer_D := optimizer_D s;
     scheduler_G := scheduler_G s; scheduler_D := v; metrics := metrics s;
     log_dir := log_dir s; csv_file := csv_file s;
     weights_dir := weights_dir s; torch_state := torch_state s;
     tqdm_flushes := tqdm_flushes s; trace := trace s |}.
Definition set_metrics (v : metrics_state) (s : GANTrainer) : GANTrainer :=
  {| config := config s; model := model s; train_loader := train_loader s;
     val_loader := val_loader s; best_val_loss := best_val_loss s;
     optimizer_G := optimizer_G s; optimizer_D := optimizer_D s;
     scheduler_G := scheduler_G s; scheduler_D := scheduler_D s;
     metrics := v; log_dir := log_dir s; csv_file := csv_file s;
     weights_dir := weights_dir s; torch_state := torch_state s;
     tqdm_flushes := tqdm_flushes s; trace := trace s |}.
Definition set_weights_dir (v : option string) (s : GANTrainer) : GANTrainer :=
  {| config := config s; model := model s; train_loader := train_loader s;
     val_loader := val_loader s; best_val_loss := best_val_loss s;
     optimizer_G := optimizer_G s; optimizer_D := optimizer_D s;
     scheduler_G := scheduler_G s; scheduler_D := scheduler_D s;
     metrics := metrics s; log_dir := log_dir s; csv_file := csv_file s;
     weights_dir := v; torch_state := torch_state s;
     tqdm_flushes := tqdm_flushes s; trace := trace s |}.
Definition set_torch_state (v : lib_state) (s : GANTrainer) : GANTrainer :=
  {| config := config s; model := model s; train_loader := train_loader s;
     val_loader := val_loader s; best_val_loss := best_val_loss s;
     optimizer_G := optimizer_G s; optimizer_D := optimizer_D s;
     scheduler_G := scheduler_G s; scheduler_D := scheduler_D s;
     metrics := metrics s; log_dir := log_dir s; csv_file := csv_file s;
     weights_dir := weights_dir s; torch_state := v;
     tqdm_flushes := tqdm_flushes s; trace := trace s |}.
Definition set_tqdm_flushes (v : list nat) (s : GANTrainer) : GANTrainer :=
  {| config := config s; model := model s; train_loader := train_loader s;
     val_loader := val_loader s; best_val_loss := best_val_loss s;
     optimizer_G := optimizer_G s; optimizer_D := optimizer_D s;
     scheduler_G := scheduler_G s; scheduler_D := scheduler_D s;
     metrics := metrics s; log_dir := log_dir s; csv_file := csv_file s;
     weights_dir := weights_dir s; torch_state := torch_state s;
     tqdm_flushes := v; trace := trace s |}.
Definition set_trace (v : list event) (s : GANTrainer) : GANTrainer :=
  {| config := config s; model := model s; train_loader := train_loader s;
     val_loader := val_loader s; best_val_loss := best_val_loss s;
     optimizer_G := optimizer_G s; optimizer_D := optimizer_D s;
     scheduler_G := scheduler_G s; scheduler_D := scheduler_D s;
     metrics := metrics s; log_dir := log_dir s; csv_file := csv_file s;
     weights_dir := weights_dir s; torch_state := torch_state s;
     tqdm_flushes := tqdm_flushes s; trace := v |}.

End Objects.

(** ** Autograd and the optimizers *)

Section Optim.
Context `{Backward}.

Definition with_parameters (ps : gmap nat param) (m : GanModel) : GanModel :=
  {| generator := generator m; discriminator := discriminator m;
     parameters := ps; training := training m |}.

Definition with_training (b : bool) (m : GanModel) : GanModel :=
  {| generator := generator m; discriminator := discriminator m;
     parameters := parameters m; training := b |}.

(** The weights of a sub-module, in [module.parameters()] order. *)
Definition module_weights (ids : list nat) (ps : gmap nat param)
  : list (nat * tensor) :=
  omap (fun p => (fun x => (p, p_data x)) <$> ps !! p) ids.

(** What a checkpoint stores: every parameter's contents. *)
Definition weights (m : GanModel) : gmap nat tensor :=
  p_data <$> parameters m.

Definition clear_grad (x : param) : param :=
  {| p_data := p_data x; p_grad := None |}.

(** [optimizer.zero_grad()]: the gradients of the optimizer's own
    parameters are dropped ([set_to_none], torch's default). *)
Definition zero_grad (ids : list nat) (ps : gmap nat param) : gmap nat param :=
  foldl (fun m p => alter clear_grad p m) ps ids.

Definition accumulate (g : tensor) (x : param) : param :=
  {| p_data := p_data x;
     p_grad := Some (match p_grad x with
                     | None => g
                     | Some g0 => tensor_add g0 g
                     end) |}.

(** [loss.backward()]: every parameter the graph reaches gets the loss's
    gradient added to its [.grad]; no other parameter is touched. *)
Definition backward (root : graph) (ps : gmap nat param) : gmap nat param :=
  map_imap (fun p x =>
    Some (if decide (p ∈ leaves root) then accumulate (grad_of root p) x else x)) ps.

(** One parameter of [Adam.step()]: skipped when it has no gradient. *)
Definition adam_step_param (o : Adam)
    (acc : gmap nat adam_slot * gmap nat param) (p : nat)
  : gmap nat adam_slot * gmap nat param :=
  match acc.2 !! p with
  | Some x =>
      match p_grad x with
      | Some g =>
          let r := adam_update (lr o) (betas o) (acc.1 !! p) (p_data x) g in
          (<[p := r.2]> acc.1, <[p := {| p_data := r.1; p_grad := Some g |}]> acc.2)
      | None => acc
      end
  | None => acc
  end.

Definition adam_step (o : Adam) (ps : gmap nat param)
  : gmap nat adam_slot * gmap nat param :=
  foldl (adam_step_param o) (slots o, ps) (param_ids o).

Definition with_slots (sl : gmap nat adam_slot) (o : Adam) : Adam :=
  {| param_ids := param_ids o; lr := lr o; betas := betas o; slots := sl |}.

Definition with_lr (r : float) (o : Adam) : Adam :=
  {| param_ids := param_ids o; lr := r; betas := betas o; slots := slots o |}.

(** [self.last_epoch += 1], the first thing [StepLR.step()] does. *)
Definition StepLR_count (sch : StepLR) : StepLR :=
  {| step_size := step_size sch; gamma := gamma sch;
     last_epoch := S (last_epoch sch) |}.

(** [StepLR.step()]: count the epoch, and multiply the optimizer's learning
    rate by [gamma], in binary64, when the count is a multiple of
    [step_size].  The modulo raises for a zero step size, after the epoch
    has been counted: a caller that survives the exception finds the
    counted scheduler ([scheduler_step] keeps it) and the learning rate
    untouched. *)
Definition StepLR_step (sch : StepLR) (o : Adam) : result (StepLR * Adam) :=
  let sch' := StepLR_count sch in
  if (step_size sch =? 0)%nat then Raise ZeroDivisionError
  else if (last_epoch sch' mod step_size sch =? 0)%nat
       then Ok (sch', with_lr (lr o * gamma sch)%float o)
       else Ok (sch', o).

End Optim.

(** ** GANTrainer *)

(** [os.path.join] of two components (POSIX). *)
Definition ends_with_slash (a : string) : bool :=
  match rev (String.list_ascii_of_string a) with
  | c :: _ => bool_decide (c = "/"%char)
  | [] => false
  end.

Definition path_join (a b : string) : string :=
  match b with
  | String "/" _ => b
  | _ => if bool_decide (a = "") || ends_with_slash a then a +:+ b
         else a +:+ "/" +:+ b
  end.

Definition csv_fields : list string :=
  [ "epoch"; "train_g_loss"; "train_d_loss"; "val_loss"; "mean_iou"; "recall";
    "precision"; "accuracy"; "dice"; "f2"; "train_mean_iou"; "train_precision";
    "train_recall"; "train_f2"; "train_accuracy"; "train_dice" ].

(** The keys of the per-epoch [metrics] accumulator dict, in its order. *)
Definition metric_keys : list string :=
  [ "mean_iou"; "recall"; "precision"; "accuracy"; "dice"; "f2" ].

(** A dict literal: a repeated key keeps its last value. *)
Definition py_dict {V} (items : list (string * V)) : gmap string V :=
  foldl (fun d kv => <[kv.1 := kv.2]> d) ∅ items.

Inductive net := G | D.

Section Trainer.
Context `{Backward}.

Local Abbreviation Py := (M (S:=GANTrainer)).

Definition emit (e : event) : Py unit :=
  modify (fun s => set_trace (trace s ++ [e]) s).

Definition logger_info (msg : message) : Py unit := emit (Log INFO msg).
Definition logger_error (text : string) : Py unit := emit (Log ERROR (Text text)).

Definition optimizer (n : net) (s : GANTrainer) : Adam :=
  match n with G => optimizer_G s | D => optimizer_D s end.

Definition set_optimizer (n : net) (o : Adam) (s : GANTrainer) : GANTrainer :=
  match n with G => set_optimizer_G o s | D => set_optimizer_D o s end.

Definition scheduler (n : net) (s : GANTrainer) : StepLR :=
  match n with G => scheduler_G s | D => scheduler_D s end.

Definition set_scheduler (n : net) (sch : StepLR) (s : GANTrainer) : GANTrainer :=
  match n with G => set_scheduler_G sch s | D => set_scheduler_D sch s end.

Definition set_parameters (ps : gmap nat param) (s : GANTrainer) : GANTrainer :=
  set_model (with_parameters ps (model s)) s.

(** [self.optimizer_X.zero_grad()] *)
Definition optimizer_zero_grad (n : net) : Py unit :=
  modify (fun s =>
    set_parameters (zero_grad (param_ids (optimizer n s)) (parameters (model s))) s).

(** [loss.backward()] *)
Definition loss_backward (loss : handle) : Py unit :=
  modify (fun s => set_parameters (backward (grad_fn loss) (parameters (model s))) s).

(** [self.optimizer_X.step()] *)
Definition optimizer_step (n : net) : Py unit :=
  modify (fun s =>
    let r := adam_step (optimizer n s) (parameters (model s)) in
    set_parameters r.2 (set_optimizer n (with_slots r.1 (optimizer n s)) s)).

(** [self.scheduler_X.step()] *)
Definition scheduler_step (n : net) : Py unit :=
  fun s =>
    match StepLR_step (scheduler n s) (optimizer n s) with
    | Ok (sch, o) => (Ok tt, set_optimizer n o (set_scheduler n sch s))
    | Raise e => (Raise e, set_scheduler n (StepLR_count (scheduler n s)) s)
    end.

(** [self.model.train()] and [self.model.eval()] *)
Definition model_mode (b : bool) : Py unit :=
  modify (fun s => set_model (with_training b (model s)) s).

(** [self.model.generate(x)]: the generator's forward pass on its current
    weights.  Under [torch.no_grad()] the result carries no history. *)
Definition GanModel_generate (grad_enabled : bool) (x : tensor) : Py handle :=
  fun s =>
    let ws := module_weights (generator (model s)) (parameters (model s)) in
    let r := generator_forward (training (model s)) ws.*2 (torch_state s) x in
    (Ok {| value := r.1;
           grad_fn := if grad_enabled
                      then Generate (training (model s)) (torch_state s) ws (Detached x)
                      else Detached r.1 |},
     set_torch_state r.2 s).

(** [self.model.discriminator(x, mask)] *)
Definition GanModel_discriminator (x : tensor) (mask : handle) : Py handle :=
  fun s =>
    let ws := module_weights (discriminator (model s)) (parameters (model s)) in
    let r := discriminator_forward (training (model s)) ws.*2 (torch_state s)
               x (value mask) in
    (Ok {| value := r.1;
           grad_fn := Discriminate (training (model s)) (torch_state s) ws
                        (Detached x) (grad_fn mask) |},
     set_torch_state r.2 s).

(** [self.generator_loss = CombinedLoss()] *)
Definition generator_loss (grad_enabled : bool) (input target : handle) : handle :=
  let v := CombinedLoss (value input) (value target) in
  {| value := v;
     grad_fn := if grad_enabled
                then Criterion "CombinedLoss" (grad_fn input) (grad_fn target)
                else Detached v |}.

(** [self.discriminator_loss = nn.BCELoss()] *)
Definition discriminator_loss (input target : handle) : handle :=
  {| value := BCELoss (value input) (value target);
     grad_fn := Criterion "BCELoss" (grad_fn input) (grad_fn target) |}.

Definition handle_add (a b : handle) : handle :=
  {| value := tensor_add (value a) (value b);
     grad_fn := Plus (grad_fn a) (grad_fn b) |}.

Definition train_generator (data targets : tensor) : Py (float * handle) :=
  optimizer_zero_grad G ;;;
  fake_masks <- GanModel_generate true data ;;
  let g_seg_loss := generator_loss true fake_masks (constant targets) in
  if check_loss_nan (item (value g_seg_loss)) then
    logger_error "NaN detected in g_seg_loss" ;;;
    raise (ValueError "NaN in g_seg_loss")
  else
    loss_backward g_seg_loss ;;;
    optimizer_step G ;;;
    ret (item (value g_seg_loss), fake_masks).

Definition train_discriminator (data : tensor) (mask_fakes : handle)
    (targets : tensor) : Py float :=
  optimizer_zero_grad D ;;;
  let mask_fakes := detach mask_fakes in
  real_output <- GanModel_discriminator data (constant targets) ;;
  fake_output <- GanModel_discriminator data mask_fakes ;;
  let real_labels :=
    constant (mul_scalar (ones_like (value real_output)) PyFloat.soft_real_label) in
  let fake_labels := constant (zeros_like (value fake_output)) in
  let d_real_loss := discriminator_loss real_output real_labels in
  if check_loss_nan (item (value d_real_loss)) then
    logger_error "NaN detected in d_real_loss" ;;;
    raise (ValueError "NaN in d_real_loss")
  else
    let d_fake_loss := discriminator_loss fake_output fake_labels in
    if check_loss_nan (item (value d_fake_loss)) then
      logger_error "NaN detected in d_fake_loss" ;;;
      raise (ValueError "NaN in d_fake_loss")
    else
      let d_loss := handle_add d_real_loss d_fake_loss in
      loss_backward d_loss ;;;
      optimizer_step D ;;;
      ret (item (value d_loss)).

(** [self.metrics.update(pred, target)], [compute()], [reset()] *)
Definition metrics_step (pred : handle) (targets : tensor)
  : Py (gmap string float) :=
  modify (fun s => set_metrics (metrics_update (metrics s) (value pred) targets) s) ;;;
  metric <- gets (fun s => metrics_compute (metrics s)) ;;
  modify (fun s => set_metrics (metrics_reset (metrics s)) s) ;;;
  ret metric.

Definition zero_metrics : gmap string float :=
  py_dict ((fun k => (k, PyFloat.zero)) <$> metric_keys).

(** [for key in metrics: if key in metric: metrics[key] += metric[key]] *)
Definition add_metrics (metrics metric : gmap string float) : gmap string float :=
  map_imap (fun key v =>
    Some (match metric !! key with
          | Some x => PyFloat.add v x
          | None => v
          end)) metrics.

(** [{key: metrics[key] / n, ...}] over the given keys, left to right. *)
Definition averaged (metrics : gmap string float) (n : nat) (keys : list string)
    (logs : gmap string float) : Py (gmap string float) :=
  for_each (fun logs key =>
              v <- py_getitem metrics key ;;
              q <- py_div v n ;;
              ret (<[key := q]> logs)) keys logs.

(** The training bar is iterated ([for data, targets in pbar]) and also
    advanced by hand: when the loop comes back for the next batch, the
    bar's iterator may add its own pending count to [pbar.n]. *)
Definition tqdm_iter_flush : Py nat :=
  fun s =>
    match tqdm_flushes s with
    | [] => (Ok 0, s)
    | k :: rest => (Ok k, set_tqdm_flushes rest s)
    end.

(** The local variables of [train_one_epoch]; [logs] is unbound until the
    first batch has been processed. *)
Record train_locals := {
  total_g_loss : float;
  total_d_loss : float;
  tl_metrics : gmap string float;
  tl_pbar_n : nat;
  tl_logs : option (gmap string float);
}.

(** The body of the batch loop of [train_one_epoch]. *)
Definition train_batch (loc : train_locals) (batch : tensor * tensor)
  : Py train_locals :=
  let data := to_float32 batch.1 in
  let targets := to_float32 batch.2 in
  gen <- train_generator data targets ;;
  let g_loss := gen.1 in
  let fake_mask := gen.2 in
  if check_loss_nan g_loss then
    logger_error "NaN detected in generator loss. Stopping training." ;;;
    raise (ValueError "NaN in generator loss")
  else
    d_loss <- train_discriminator data fake_mask targets ;;
    if check_loss_nan d_loss then
      logger_error "NaN detected in discriminator loss. Stopping training." ;;;
      raise (ValueError "NaN in discriminator loss")
    else
      metric <- metrics_step fake_mask targets ;;
      let metrics := add_metrics (tl_metrics loc) metric in
      let n := S (tl_pbar_n loc) in
      logs <- averaged metrics n metric_keys ∅ ;;
      emit (SetPostfix "train"
              (<["g_loss" := g_loss]> (<["d_loss" := d_loss]> logs))) ;;;
      flushed <- tqdm_iter_flush ;;
      ret {| total_g_loss := PyFloat.add (total_g_loss loc) g_loss;
             total_d_loss := PyFloat.add (total_d_loss loc) d_loss;
             tl_metrics := metrics;
             tl_pbar_n := n + flushed;
             tl_logs := Some logs |}.

Definition train_locals_init : train_locals :=
  {| total_g_loss := PyFloat.zero; total_d_loss := PyFloat.zero;
     tl_metrics := zero_metrics; tl_pbar_n := 0; tl_logs := None |}.

(** One pass of a loader: the batches it yields. *)
Definition iterate (loader : GANTrainer -> DataLoader) : Py (list (tensor * tensor)) :=
  fun s =>
    let r := loader_iter (loader s) (torch_state s) in
    (Ok r.1, set_torch_state r.2 s).

Definition train_one_epoch : Py (float * float * gmap string float) :=
  model_mode true ;;;
  batches <- iterate train_loader ;;
  loc <- for_each train_batch batches train_locals_init ;;
  len <- gets (fun s => loader_len (train_loader s)) ;;
  avg_g_loss <- py_div (total_g_loss loc) len ;;
  avg_d_loss <- py_div (total_d_loss loc) len ;;
  match tl_logs loc with
  | Some logs => ret (avg_g_loss, avg_d_loss, logs)
  | None => raise (UnboundLocalError "logs")
  end.

(** The local variables of [validate]. *)
Record val_locals := {
  total_val_loss : float;
  vl_metrics : gmap string float;
  vl_pbar_n : nat;
}.

(** The body of the batch loop of [validate]; the bar is only advanced by
    hand here (the loop iterates the loader itself). *)
Definition validate_batch (loc : val_locals) (batch : tensor * tensor)
  : Py val_locals :=
  let data := to_float32 batch.1 in
  let targets := to_float32 batch.2 in
  outputs <- GanModel_generate false data ;;
  let combined_loss := generator_loss false outputs (constant targets) in
  if check_loss_nan (item (value combined_loss)) then
    logger_error "NaN detected in val_loss" ;;;
    raise (ValueError "NaN in val_loss")
  else
    let total := PyFloat.add (total_val_loss loc) (item (value combined_loss)) in
    metric <- metrics_step outputs targets ;;
    let metrics := add_metrics (vl_metrics loc) metric in
    let n := S (vl_pbar_n loc) in
    val_loss <- py_div (item (value combined_loss)) n ;;
    logs <- averaged metrics n metric_keys {["val_loss" := val_loss]} ;;
    emit (SetPostfix "Validating" logs) ;;;
    ret {| total_val_loss := total; vl_metrics := metrics; vl_pbar_n := n |}.

Definition val_locals_init : val_locals :=
  {| total_val_loss := PyFloat.zero; vl_metrics := zero_metrics; vl_pbar_n := 0 |}.

Definition validate : Py (float * gmap string float) :=
  model_mode false ;;;
  batches <- iterate val_loader ;;
  loc <- for_each validate_batch batches val_locals_init ;;
  len <- gets (fun s => loader_len (val_loader s)) ;;
  avg_val_loss <- py_div (total_val_loss loc) len ;;
  logs <- averaged (vl_metrics loc) len metric_keys ∅ ;;
  ret (avg_val_loss, <["val_loss" := avg_val_loss]> logs).

(** [csv.DictWriter(f, fieldnames).writerow(rowdict)]: a key outside the
    field names is an error, a missing one is written empty. *)
Definition DictWriter_row (fieldnames : list string) (rowdict : gmap string cell)
  : Py (list cell) :=
  if bool_decide (dom rowdict ⊆ list_to_set fieldnames) then
    ret ((fun k => default (CellStr "") (rowdict !! k)) <$> fieldnames)
  else raise (ValueError "dict contains fields not in fieldnames").

Definition _log_to_csv (epoch : nat) (train_g_loss train_d_loss val_loss : float)
    (logs train_logs : gmap string float) : Py unit :=
  t_iou <- py_getitem train_logs "mean_iou" ;;
  t_recall <- py_getitem train_logs "recall" ;;
  t_precision <- py_getitem train_logs "precision" ;;
  t_accuracy <- py_getitem train_logs "accuracy" ;;
  t_dice <- py_getitem train_logs "dice" ;;
  t_f2 <- py_getitem train_logs "f2" ;;
  v_iou <- py_getitem logs "mean_iou" ;;
  v_recall <- py_getitem logs "recall" ;;
  v_precision <- py_getitem logs "precision" ;;
  v_accuracy <- py_getitem logs "accuracy" ;;
  v_dice <- py_getitem logs "dice" ;;
  v_f2 <- py_getitem logs "f2" ;;
  let metrics := py_dict
    [ ("epoch", CellInt epoch);
      ("train_g_loss", CellFloat train_g_loss);
      ("train_d_loss", CellFloat train_d_loss);
      ("val_loss", CellFloat val_loss);
      ("train_mean_iou", CellFloat t_iou);
      ("train_recall", CellFloat t_recall);
      ("train_precision", CellFloat t_precision);
      ("train_accuracy", CellFloat t_accuracy);
      ("train_dice", CellFloat t_dice);
      ("train_f2", CellFloat t_f2);
      ("val_loss", CellFloat val_loss);
      ("mean_iou", CellFloat v_iou);
      ("recall", CellFloat v_recall);
      ("precision", CellFloat v_precision);
      ("accuracy", CellFloat v_accuracy);
      ("dice", CellFloat v_dice);
      ("f2", CellFloat v_f2) ] in
  row <- DictWriter_row csv_fields metrics ;;
  path <- gets csv_file ;;
  emit (CsvAppend path row).

Definition save_model (proj_name : option string) (is_best : bool) : Py unit :=
  s0 <- gets (fun s => s) ;;
  let weights_dir :=
    match log_dir s0 with
    | Some d => path_join d "weights"
    | None => checkpoint_dir (config s0)
    end in
  modify (set_weights_dir (Some weights_dir)) ;;;
  emit (Makedirs weights_dir) ;;;
  let last_model_path := weights_dir +:+ "/last_model.pth" in
  emit (SaveCheckpoint last_model_path (weights (model s0))) ;;;
  logger_info (Text ("Saved model checkpoint at " +:+ last_model_path)) ;;;
  if is_best then
    let best_model_path := weights_dir +:+ "/best_gan_model.pth" in
    emit (SaveBestCheckpoint best_model_path (weights (model s0))) ;;;
    logger_info (Text ("Saved best model checkpoint at " +:+ best_model_path))
  else ret tt.

(** The body of the epoch loop of [train]. *)
Definition train_epoch (_ : unit) (epoch : nat) : Py unit :=
  tr <- train_one_epoch ;;
  let train_g_loss := tr.1.1 in
  let train_d_loss := tr.1.2 in
  let train_log := tr.2 in
  va <- validate ;;
  let val_loss := va.1 in
  let logs := va.2 in
  n_epochs <- gets (fun s => num_epochs (config s)) ;;
  m_iou <- py_getitem logs "mean_iou" ;;
  m_dice <- py_getitem logs "dice" ;;
  m_recall <- py_getitem logs "recall" ;;
  m_precision <- py_getitem logs "precision" ;;
  m_accuracy <- py_getitem logs "accuracy" ;;
  m_f2 <- py_getitem logs "f2" ;;
  logger_info (EpochSummary (epoch + 1) n_epochs train_g_loss train_d_loss val_loss
                 m_iou m_dice m_recall m_precision m_accuracy m_f2) ;;;
  _log_to_csv (epoch + 1) train_g_loss train_d_loss val_loss logs train_log ;;;
  best <- gets best_val_loss ;;
  is_best <- (if PyFloat.lt val_loss best
              then modify (set_best_val_loss val_loss) ;;; ret true
              else ret false) ;;
  dir <- gets log_dir ;;
  save_model dir is_best ;;;
  scheduler_step G ;;;
  scheduler_step D.

Definition train : Py unit :=
  logger_info (Text "Starting training...") ;;;
  n_epochs <- gets (fun s => num_epochs (config s)) ;;
  for_each train_epoch (seq 0 n_epochs) tt.

(** [GANTrainer.__init__]: [_setup_training] (best loss, optimizers,
    schedulers, loss functions, metrics, loaders) then [_setup_logging] (the
    run's log directory, and the metrics file created with its header row).
    The configuration, the model, the two loaders, the fresh metrics object
    and the timestamp are given. *)
Definition GANTrainer_init (cfg : GANTrainingConfig) (mdl : GanModel)
    (data_train data_val : DataLoader) (names : option string) (now : string)
    (fresh_metrics : metrics_state) (lib : lib_state) (flushes : list nat)
  : GANTrainer :=
  let timestamp := match names with
                   | Some n => n +:+ "_" +:+ now
                   | None => now
                   end in
  let dir := path_join (checkpoint_dir cfg) ("logs_" +:+ timestamp) in
  let file := path_join dir "metrics.csv" in
  {| config := cfg;
     model := mdl;
     train_loader := data_train;
     val_loader := data_val;
     best_val_loss := PyFloat.inf;
     optimizer_G := {| param_ids := generator mdl; lr := lr_generator cfg;
                       betas := (beta1 cfg, beta2 cfg); slots := ∅ |};
     optimizer_D := {| param_ids := discriminator mdl; lr := lr_discriminator cfg;
                       betas := (beta1 cfg, beta2 cfg); slots := ∅ |};
     scheduler_G := {| step_size := lr_decay_step cfg; gamma := lr_decay_gamma cfg;
                       last_epoch := 0 |};
     scheduler_D := {| step_size := lr_decay_step cfg; gamma := lr_decay_gamma cfg;
                       last_epoch := 0 |};
     metrics := fresh_metrics;
     log_dir := Some dir;
     csv_file := file;
     weights_dir := None;
     torch_state := lib;
     tqdm_flushes := flushes;
     trace := [ Makedirs dir; CsvCreate file (CellStr <$> csv_fields) ] |}.

End Trainer.

(** ** Reasoning about computations *)

Section MonadFacts.
Context {S : Type}.
Implicit Types s : S.

Lemma bind_Ok_inv {A B} (m : M (S:=S) A) (k : A -> M B) s b s' :
  bind m k s = (Ok b, s') ->
  exists a s1, m s = (Ok a, s1) /\ k a s1 = (Ok b, s').
Proof.
  unfold bind. destruct (m s) as [[a|e] s1]; [eauto | discriminate].
Qed.

Lemma bind_Raise_inv {A B} (m : M (S:=S) A) (k : A -> M B) s e s' :
  bind m k s = (Raise e, s') ->
  m s = (Raise e, s') \/ exists a s1, m s = (Ok a, s1) /\ k a s1 = (Raise e, s').
Proof.
  unfold bind. destruct (m s) as [[a|e0] s1]; [eauto | intros [= -> ->]; auto].
Qed.

Lemma bind_Ok {A B} (m : M (S:=S) A) (k : A -> M B) s a s1 :
  m s = (Ok a, s1) -> bind m k s = k a s1.
Proof. unfold bind. intros ->. reflexivity. Qed.

Lemma bind_Raise {A B} (m : M (S:=S) A) (k : A -> M B) s e s1 :
  m s = (Raise e, s1) -> bind m k s = (Raise e, s1).
Proof. unfold bind. intros ->. reflexivity. Qed.

(** An exception raised by the body leaves the loop at once, with the state
    of the raise: the batches and epochs that follow are never run. *)
Lemma for_each_Raise {A B} (body : B -> A -> M (S:=S) B) done x rest acc s acc1 s1 e s2 :
  for_each body done acc s = (Ok acc1, s1) ->
  body acc1 x s1 = (Raise e, s2) ->
  for_each body (done ++ x :: rest) acc s = (Raise e, s2).
Proof.
  revert acc s. induction done as [|y done IH]; simpl; intros acc s.
  - intros [= -> ->] Hx. apply bind_Raise, Hx.
  - intros Hd Hx. apply bind_Ok_inv in Hd as (a & s0 & Hy & Hd).
    rewrite (bind_Ok _ _ _ _ _ Hy). eauto.
Qed.

Lemma for_each_app {A B} (body : B -> A -> M (S:=S) B) xs ys acc s :
  for_each body (xs ++ ys) acc s =
  bind (for_each body xs acc) (for_each body ys) s.
Proof.
  revert acc s. induction xs as [|x xs IH]; simpl; intros acc s; [reflexivity|].
  unfold bind in *. destruct (body acc x s) as [[a|e] s1]; [apply IH | reflexivity].
Qed.

End MonadFacts.

(** ** The parameter store under [zero_grad], [backward] and [step] *)

Section StoreFacts.
Context `{Backward}.
Implicit Types (ps : gmap nat param) (ids : list nat) (p : nat).

Lemma zero_grad_lookup ids ps p :
  zero_grad ids ps !! p =
  if decide (p ∈ ids) then clear_grad <$> ps !! p else ps !! p.
Proof.
  unfold zero_grad. revert ps.
  induction ids as [|q ids IH]; intros ps; cbn [foldl].
  - case_decide as Hin; [by apply elem_of_nil in Hin | done].
  - rewrite IH, lookup_alter.
    destruct (decide (q = p)) as [->|Hq].
    + rewrite (decide_True (P:=p ∈ p :: ids)) by apply list_elem_of_here.
      destruct (decide (p ∈ ids)); destruct (ps !! p) as [[]|]; done.
    + destruct (decide (p ∈ ids)) as [Hi|Hi].
      * rewrite decide_True by (by apply list_elem_of_further). done.
      * rewrite decide_False; [done|]. intros [?|?]%elem_of_cons; done.
Qed.

Lemma zero_grad_data ids ps p :
  p_data <$> zero_grad ids ps !! p = p_data <$> ps !! p.
Proof.
  rewrite zero_grad_lookup. case_decide; [|done].
  destruct (ps !! p) as [[]|]; done.
Qed.

Lemma zero_grad_frame ids ps p :
  p ∉ ids -> zero_grad ids ps !! p = ps !! p.
Proof. intros Hp. rewrite zero_grad_lookup. by rewrite decide_False. Qed.

Lemma backward_lookup root ps p :
  backward root ps !! p =
  (fun x => if decide (p ∈ leaves root)
            then accumulate (grad_of root p) x else x) <$> ps !! p.
Proof.
  unfold backward. rewrite map_lookup_imap.
  destruct (ps !! p); done.
Qed.

Lemma backward_data root ps p :
  p_data <$> backward root ps !! p = p_data <$> ps !! p.
Proof.
  rewrite backward_lookup. destruct (ps !! p) as [x|]; [|done].
  simpl. case_decide; done.
Qed.

Lemma backward_frame root ps p :
  p ∉ leaves root -> backward root ps !! p = ps !! p.
Proof.
  intros Hp. rewrite backward_lookup.
  destruct (ps !! p); [|done]. simpl. by rewrite decide_False.
Qed.

Lemma adam_step_param_frame o acc q p :
  p ≠ q ->
  (adam_step_param o acc q).1 !! p = acc.1 !! p /\
  (adam_step_param o acc q).2 !! p = acc.2 !! p.
Proof.
  intros Hne. unfold adam_step_param.
  destruct (acc.2 !! q) as [x|]; [|done].
  destruct (p_grad x); [|done].
  simpl. by rewrite !lookup_insert_ne.
Qed.

Lemma adam_fold_frame o ids acc p :
  p ∉ ids ->
  (foldl (adam_step_param o) acc ids).1 !! p = acc.1 !! p /\
  (foldl (adam_step_param o) acc ids).2 !! p = acc.2 !! p.
Proof.
  revert acc. induction ids as [|q ids IH]; intros acc Hp; simpl; [done|].
  apply not_elem_of_cons in Hp as [Hne Hp].
  destruct (IH (adam_step_param o acc q) Hp) as [-> ->].
  by apply adam_step_param_frame.
Qed.

Lemma adam_step_frame o ps p :
  p ∉ param_ids o ->
  (adam_step o ps).1 !! p = slots o !! p /\ (adam_step o ps).2 !! p = ps !! p.
Proof. intros Hp. apply (adam_fold_frame o (param_ids o) (slots o, ps) p Hp). Qed.


(** A module's weights depend on the stored contents only, not on
    gradients. *)
Lemma module_weights_ext ids ps1 ps2 :
  (forall p, p ∈ ids -> p_data <$> ps1 !! p = p_data <$> ps2 !! p) ->
  module_weights ids ps1 = module_weights ids ps2.
Proof.
  unfold module_weights, omap.
  induction ids as [|q ids IH]; intros Hext; [done|].
  simpl. rewrite IH by (intros; apply Hext; by apply list_elem_of_further).
  specialize (Hext q (list_elem_of_here _ _)).
  destruct (ps1 !! q) as [x1|], (ps2 !! q) as [x2|]; simpl in *;
    try discriminate; [|done].
  injection Hext as ->. done.
Qed.

Lemma module_weights_ids ids ps p :
  p ∈ (module_weights ids ps).*1 -> p ∈ ids.
Proof.
  unfold module_weights, omap. induction ids as [|q ids IH]; simpl; [done|].
  destruct (ps !! q) as [x|]; simpl; rewrite ?elem_of_cons; intuition.
Qed.

Lemma weights_lookup (m : GanModel) p :
  weights m !! p = p_data <$> parameters m !! p.
Proof. unfold weights. apply lookup_fmap. Qed.

End StoreFacts.

(** Attribute reads through attribute writes. *)
Ltac simpl_state :=
  cbn [set_model set_best_val_loss set_optimizer_G set_optimizer_D
       set_scheduler_G set_scheduler_D set_metrics set_weights_dir
       set_torch_state set_tqdm_flushes set_trace set_parameters
       set_optimizer set_scheduler optimizer scheduler
       with_parameters with_training with_slots with_lr
       config model train_loader val_loader best_val_loss optimizer_G
       optimizer_D scheduler_G scheduler_D metrics log_dir csv_file
       weights_dir torch_state tqdm_flushes trace
       generator discriminator parameters training
       param_ids lr betas slots step_size gamma last_epoch
       value grad_fn fst snd] in *.

(** ** What one step computes *)

Section StepFacts.
Context `{Backward}.
Implicit Types (s : GANTrainer) (data targets : tensor) (p : nat).

Definition generator_weights s : list (nat * tensor) :=
  module_weights (generator (model s)) (parameters (model s)).

Definition discriminator_weights s : list (nat * tensor) :=
  module_weights (discriminator (model s)) (parameters (model s)).

(** The mask the generator produces for a batch on its current weights. *)
Definition fake_of s data : tensor :=
  (generator_forward (training (model s)) (generator_weights s).*2
     (torch_state s) data).1.

(** The segmentation loss of that mask, as a Python float. *)
Definition g_seg_loss_of s data targets : float :=
  item (CombinedLoss (fake_of s data) targets).

(** The discriminator's two forward passes of a step, the real pair first:
    each result comes with the library state it leaves. *)
Definition real_output_of s data targets : tensor * lib_state :=
  discriminator_forward (training (model s)) (discriminator_weights s).*2
    (torch_state s) data targets.

Definition fake_output_of s data (mask : tensor) targets : tensor * lib_state :=
  discriminator_forward (training (model s)) (discriminator_weights s).*2
    (real_output_of s data targets).2 data mask.

(** Binary cross-entropy of the real score against the soft label 0.9. *)
Definition d_real_loss_of s data targets : tensor :=
  let out := (real_output_of s data targets).1 in
  BCELoss out (mul_scalar (ones_like out) PyFloat.soft_real_label).

(** Binary cross-entropy of the fake score against the label 0. *)
Definition d_fake_loss_of s data (mask : tensor) targets : tensor :=
  let out := (fake_output_of s data mask targets).1 in
  BCELoss out (zeros_like out).

Lemma zero_grad_weights ids' ids s :
  module_weights ids (zero_grad ids' (parameters (model s))) =
  module_weights ids (parameters (model s)).
Proof. apply module_weights_ext. intros p _. apply zero_grad_data. Qed.

(** The graph of the generator's loss on a batch. *)
Definition fake_handle_of s data : handle :=
  {| value := fake_of s data;
     grad_fn := Generate (training (model s)) (torch_state s)
                  (generator_weights s) (Detached data) |}.

Definition g_seg_root s data targets : graph :=
  Criterion "CombinedLoss" (grad_fn (fake_handle_of s data)) (Detached targets).

(** The state a failing generator step leaves: gradients dropped, the
    forward pass done, the error logged; no backward pass, no update. *)
Definition generator_step_failed s data : GANTrainer :=
  set_trace (trace s ++ [Log ERROR (Text "NaN detected in g_seg_loss")])
    (set_torch_state
       (generator_forward (training (model s)) (generator_weights s).*2
          (torch_state s) data).2
       (set_parameters
          (zero_grad (param_ids (optimizer_G s)) (parameters (model s))) s)).

(** The state a successful generator step leaves. *)
Definition generator_step_done s data targets : GANTrainer :=
  let ps := backward (g_seg_root s data targets)
              (zero_grad (param_ids (optimizer_G s)) (parameters (model s))) in
  let r := adam_step (optimizer_G s) ps in
  set_parameters r.2
    (set_optimizer_G (with_slots r.1 (optimizer_G s))
       (set_torch_state
          (generator_forward (training (model s)) (generator_weights s).*2
             (torch_state s) data).2 s)).

Lemma train_generator_eq s data targets :
  train_generator data targets s =
  if check_loss_nan (g_seg_loss_of s data targets)
  then (Raise (ValueError "NaN in g_seg_loss"), generator_step_failed s data)
  else (Ok (g_seg_loss_of s data targets, fake_handle_of s data),
        generator_step_done s data targets).
Proof.
  unfold g_seg_loss_of, generator_step_failed, generator_step_done, g_seg_root,
    fake_handle_of, fake_of, generator_weights.
  unfold train_generator, bind, optimizer_zero_grad, modify, GanModel_generate,
    loss_backward, optimizer_step, logger_error, emit, raise, ret.
  simpl_state. rewrite !zero_grad_weights.
  destruct (check_loss_nan _); reflexivity.
Qed.

(** The graph of the discriminator's loss on a batch: the sum of the two
    cross-entropies, the mask entering as a detached leaf. *)
Definition d_loss_root s data (mask : tensor) targets : graph :=
  let real_out := (real_output_of s data targets).1 in
  let fake_out := (fake_output_of s data mask targets).1 in
  Plus
    (Criterion "BCELoss"
       (Discriminate (training (model s)) (torch_state s)
          (discriminator_weights s) (Detached data) (Detached targets))
       (Detached (mul_scalar (ones_like real_out) PyFloat.soft_real_label)))
    (Criterion "BCELoss"
       (Discriminate (training (model s)) (real_output_of s data targets).2
          (discriminator_weights s) (Detached data) (Detached mask))
       (Detached (zeros_like fake_out))).

(** The discriminator loss of a batch: the sum of the two losses. *)
Definition d_loss_of s data (mask : tensor) targets : tensor :=
  tensor_add (d_real_loss_of s data targets) (d_fake_loss_of s data mask targets).

(** The state a failing discriminator step leaves. *)
Definition discriminator_step_failed s data (mask : tensor) targets
    (text : string) : GANTrainer :=
  set_trace (trace s ++ [Log ERROR (Text text)])
    (set_torch_state (fake_output_of s data mask targets).2
       (set_parameters
          (zero_grad (param_ids (optimizer_D s)) (parameters (model s))) s)).

(** The state a successful discriminator step leaves. *)
Definition discriminator_step_done s data (mask : tensor) targets : GANTrainer :=
  let ps := backward (d_loss_root s data mask targets)
              (zero_grad (param_ids (optimizer_D s)) (parameters (model s))) in
  let r := adam_step (optimizer_D s) ps in
  set_parameters r.2
    (set_optimizer_D (with_slots r.1 (optimizer_D s))
       (set_torch_state (fake_output_of s data mask targets).2 s)).

Lemma train_discriminator_eq s data (mask_fakes : handle) targets :
  train_discriminator data mask_fakes targets s =
  let mask := value mask_fakes in
  if check_loss_nan (item (d_real_loss_of s data targets))
  then (Raise (ValueError "NaN in d_real_loss"),
        discriminator_step_failed s data mask targets "NaN detected in d_real_loss")
  else if check_loss_nan (item (d_fake_loss_of s data mask targets))
  then (Raise (ValueError "NaN in d_fake_loss"),
        discriminator_step_failed s data mask targets "NaN detected in d_fake_loss")
  else (Ok (item (d_loss_of s data mask targets)),
        discriminator_step_done s data mask targets).
Proof.
  unfold d_loss_of, d_real_loss_of, d_fake_loss_of, discriminator_step_failed,
    discriminator_step_done, d_loss_root, fake_output_of, real_output_of,
    discriminator_weights.
  unfold train_discriminator, bind, optimizer_zero_grad, modify,
    GanModel_discriminator, loss_backward, optimizer_step, logger_error, emit,
    raise, ret, discriminator_loss, handle_add, detach, constant.
  simpl_state. rewrite !zero_grad_weights.
  destruct (check_loss_nan _); [reflexivity|].
  destruct (check_loss_nan _); reflexivity.
Qed.

End StepFacts.

(** ** The two steps of a batch *)

Section Steps.
Context `{Backward}.
Implicit Types (s : GANTrainer) (data targets : tensor) (p : nat).

(** The optimizers were built over the sub-modules' own parameter lists
    ([_setup_training]). *)
Definition optimizers_attached s : Prop :=
  param_ids (optimizer_G s) = generator (model s) /\
  param_ids (optimizer_D s) = discriminator (model s).

Lemma weights_zero_grad ids s :
  weights (with_parameters (zero_grad ids (parameters (model s))) (model s)) =
  weights (model s).
Proof.
  apply map_eq. intros p. rewrite !weights_lookup. simpl. apply zero_grad_data.
Qed.

Lemma generator_step_failed_weights s data :
  weights (model (generator_step_failed s data)) = weights (model s).
Proof. unfold generator_step_failed. simpl_state. apply weights_zero_grad. Qed.

Lemma discriminator_step_failed_weights s data mask targets text :
  weights (model (discriminator_step_failed s data mask targets text)) =
  weights (model s).
Proof. unfold discriminator_step_failed. simpl_state. apply weights_zero_grad. Qed.

Lemma generator_weights_ext s1 s2 :
  generator (model s1) = generator (model s2) ->
  (forall p, p ∈ generator (model s1) ->
             weights (model s1) !! p = weights (model s2) !! p) ->
  generator_weights s1 = generator_weights s2.
Proof.
  intros Hids Hw. unfold generator_weights. rewrite <- Hids.
  apply module_weights_ext. intros p Hp.
  rewrite <- !weights_lookup. by apply Hw.
Qed.

(** C9.  The generator step is a function of the generator's weights, the
    seed (the library's RNG and buffer state), the mode flag and the batch:
    two runs that agree on these return the same result, that is the same
    loss value and the same fake mask, or the same exception.  Gradients
    left over from earlier steps, the optimizer's moments, the
    discriminator's weights and the rest of the trainer do not influence
    it. *)
Theorem generator_step_deterministic s1 s2 data targets :
  generator (model s1) = generator (model s2) ->
  (forall p, p ∈ generator (model s1) ->
             weights (model s1) !! p = weights (model s2) !! p) ->
  training (model s1) = training (model s2) ->
  torch_state s1 = torch_state s2 ->
  (train_generator data targets s1).1 = (train_generator data targets s2).1.
Proof.
  intros Hids Hw Hmode Hseed.
  pose proof (generator_weights_ext s1 s2 Hids Hw) as Hgw.
  assert (fake_handle_of s1 data = fake_handle_of s2 data) as Hfake.
  { unfold fake_handle_of, fake_of. by rewrite Hgw, Hmode, Hseed. }
  assert (g_seg_loss_of s1 data targets = g_seg_loss_of s2 data targets) as Hloss.
  { unfold g_seg_loss_of, fake_of. by rewrite Hgw, Hmode, Hseed. }
  rewrite !train_generator_eq, Hloss, Hfake.
  destruct (check_loss_nan _); reflexivity.
Qed.

(** C4.  A NaN loss makes the step raise before its backward pass and its
    optimizer step: the generator step on a NaN segmentation loss, and the
    discriminator step on a NaN real or fake loss, end in the NaN
    [ValueError], and the state they leave has every weight of the model and
    both optimizers (moments, step counts, learning rates) as they were. *)
Theorem nan_loss_raises_before_update s data (mask_fakes : handle) targets :
  (check_loss_nan (g_seg_loss_of s data targets) = true ->
   exists s',
     train_generator data targets s = (Raise (ValueError "NaN in g_seg_loss"), s') /\
     weights (model s') = weights (model s) /\
     optimizer_G s' = optimizer_G s /\ optimizer_D s' = optimizer_D s) /\
  (check_loss_nan (item (d_real_loss_of s data targets)) = true ->
   exists s',
     train_discriminator data mask_fakes targets s =
       (Raise (ValueError "NaN in d_real_loss"), s') /\
     weights (model s') = weights (model s) /\
     optimizer_G s' = optimizer_G s /\ optimizer_D s' = optimizer_D s) /\
  (check_loss_nan (item (d_real_loss_of s data targets)) = false ->
   check_loss_nan (item (d_fake_loss_of s data (value mask_fakes) targets)) = true ->
   exists s',
     train_discriminator data mask_fakes targets s =
       (Raise (ValueError "NaN in d_fake_loss"), s') /\
     weights (model s') = weights (model s) /\
     optimizer_G s' = optimizer_G s /\ optimizer_D s' = optimizer_D s).
Proof.
  split; [|split].
  - intros Hnan. rewrite train_generator_eq, Hnan.
    eexists; split; [reflexivity|].
    split; [apply generator_step_failed_weights | split; reflexivity].
  - intros Hnan. rewrite train_discriminator_eq. cbv zeta. rewrite Hnan.
    eexists; split; [reflexivity|].
    split; [apply discriminator_step_failed_weights | split; reflexivity].
  - intros Hreal Hnan. rewrite train_discriminator_eq. cbv zeta.
    rewrite Hreal, Hnan.
    eexists; split; [reflexivity|].
    split; [apply discriminator_step_failed_weights | split; reflexivity].
Qed.

Lemma g_seg_root_leaves s data targets p :
  p ∈ leaves (g_seg_root s data targets) -> p ∈ generator (model s).
Proof.
  unfold g_seg_root, fake_handle_of, generator_weights. simpl.
  rewrite !elem_of_union, elem_of_list_to_set.
  intros Hp. decompose [or] Hp; clear Hp;
    first [ eapply module_weights_ids; eassumption
          | match goal with Hx : _ ∈ ∅ |- _ => by apply elem_of_empty in Hx end ].
Qed.

(** Whatever history the fake mask carries, backward from the
    discriminator's loss reaches the discriminator's parameters only. *)
Lemma d_loss_root_leaves s data mask targets p :
  p ∈ leaves (d_loss_root s data mask targets) -> p ∈ discriminator (model s).
Proof.
  unfold d_loss_root, discriminator_weights. simpl.
  rewrite !elem_of_union, !elem_of_list_to_set.
  intros Hp. decompose [or] Hp; clear Hp;
    first [ eapply module_weights_ids; eassumption
          | match goal with Hx : _ ∈ ∅ |- _ => by apply elem_of_empty in Hx end ].
Qed.

Lemma train_generator_frame s data targets p :
  p ∉ param_ids (optimizer_G s) -> p ∉ generator (model s) ->
  parameters (model (train_generator data targets s).2) !! p =
  parameters (model s) !! p.
Proof.
  intros Hopt Hgen. rewrite train_generator_eq.
  destruct (check_loss_nan _); simpl.
  - unfold generator_step_failed. simpl_state. by apply zero_grad_frame.
  - unfold generator_step_done. simpl_state.
    destruct (adam_step_frame (optimizer_G s)
      (backward (g_seg_root s data targets)
         (zero_grad (param_ids (optimizer_G s)) (parameters (model s)))) p Hopt)
      as [_ ->].
    rewrite backward_frame by (intros Hp; apply Hgen; by apply g_seg_root_leaves in Hp).
    by apply zero_grad_frame.
Qed.

Lemma train_discriminator_frame s data (mask_fakes : handle) targets p :
  p ∉ param_ids (optimizer_D s) -> p ∉ discriminator (model s) ->
  parameters (model (train_discriminator data mask_fakes targets s).2) !! p =
  parameters (model s) !! p.
Proof.
  intros Hopt Hdis. rewrite train_discriminator_eq. cbv zeta.
  destruct (check_loss_nan _); [|destruct (check_loss_nan _)]; simpl.
  - unfold discriminator_step_failed. simpl_state. by apply zero_grad_frame.
  - unfold discriminator_step_failed. simpl_state. by apply zero_grad_frame.
  - unfold discriminator_step_done. simpl_state.
    destruct (adam_step_frame (optimizer_D s)
      (backward (d_loss_root s data (value mask_fakes) targets)
         (zero_grad (param_ids (optimizer_D s)) (parameters (model s)))) p Hopt)
      as [_ ->].
    rewrite backward_frame by (intros Hp; apply Hdis; by apply d_loss_root_leaves in Hp).
    by apply zero_grad_frame.
Qed.

End Steps.

(** ** Frame rules: what a computation leaves alone, what it may write *)

Section Frames.
Context `{Backward}.
Local Abbreviation Py := (M (S:=GANTrainer)).

(** The computation never changes the attribute [proj] of the trainer,
    whether it returns or raises. *)
Definition keeps {A X} (proj : GANTrainer -> X) (m : Py A) : Prop :=
  forall s, proj (m s).2 = proj s.

(** The computation only appends to the trace, and only events in [Q]. *)
Definition emits {A} (Q : event -> Prop) (m : Py A) : Prop :=
  forall s, exists evs, trace (m s).2 = trace s ++ evs /\ Forall Q evs.

Lemma keeps_ret {A X} (proj : GANTrainer -> X) (a : A) : keeps proj (ret a).
Proof. intros s. reflexivity. Qed.

Lemma keeps_raise {A X} (proj : GANTrainer -> X) e : keeps proj (raise (A:=A) e).
Proof. intros s. reflexivity. Qed.

Lemma keeps_gets {A X} (proj : GANTrainer -> X) (f : GANTrainer -> A) :
  keeps proj (gets f).
Proof. intros s. reflexivity. Qed.

Lemma keeps_modify {X} (proj : GANTrainer -> X) f :
  (forall s, proj (f s) = proj s) -> keeps proj (modify f).
Proof. intros Hf s. apply Hf. Qed.

Lemma keeps_bind {A B X} (proj : GANTrainer -> X) (m : Py A) (k : A -> Py B) :
  keeps proj m -> (forall a, keeps proj (k a)) -> keeps proj (bind m k).
Proof.
  intros Hm Hk s. unfold bind. specialize (Hm s).
  destruct (m s) as [[a|e] s1]; simpl in *; [|done].
  by rewrite Hk.
Qed.

Lemma keeps_for_each {A B X} (proj : GANTrainer -> X) (body : B -> A -> Py B) xs acc :
  (forall acc x, keeps proj (body acc x)) -> keeps proj (for_each body xs acc).
Proof.
  intros Hb. revert acc. induction xs as [|x xs IH]; intros acc; simpl.
  - apply keeps_ret.
  - apply keeps_bind; auto.
Qed.

Lemma keeps_py_div {X} (proj : GANTrainer -> X) x n : keeps proj (py_div x n).
Proof. intros s. unfold py_div. destruct (n =? 0)%nat; reflexivity. Qed.

Lemma keeps_py_getitem {X V} (proj : GANTrainer -> X) (d : gmap string V) k :
  keeps proj (py_getitem d k).
Proof. intros s. unfold py_getitem. destruct (d !! k); reflexivity. Qed.

Lemma emits_ret {A} Q (a : A) : emits Q (ret a).
Proof. intros s. exists []. by rewrite app_nil_r. Qed.

Lemma emits_raise {A} Q e : emits Q (raise (A:=A) e).
Proof. intros s. exists []. by rewrite app_nil_r. Qed.

Lemma emits_gets {A} Q (f : GANTrainer -> A) : emits Q (gets f).
Proof. intros s. exists []. by rewrite app_nil_r. Qed.

Lemma emits_silent {A} Q (m : Py A) : keeps trace m -> emits Q m.
Proof. intros Hm s. exists []. by rewrite app_nil_r, Hm. Qed.

Lemma emits_emit (Q : event -> Prop) e : Q e -> emits Q (emit e).
Proof. intros He s. exists [e]. split; [reflexivity | by constructor]. Qed.

Lemma emits_bind {A B} Q (m : Py A) (k : A -> Py B) :
  emits Q m -> (forall a, emits Q (k a)) -> emits Q (bind m k).
Proof.
  intros Hm Hk s. unfold bind. destruct (Hm s) as (evs & Htr & Hevs).
  destruct (m s) as [[a|e] s1]; simpl in *; [|eauto].
  destruct (Hk a s1) as (evs' & Htr' & Hevs').
  exists (evs ++ evs'). rewrite Htr', Htr, app_assoc.
  split; [done | by apply Forall_app].
Qed.

Lemma emits_for_each {A B} Q (body : B -> A -> Py B) xs acc :
  (forall acc x, emits Q (body acc x)) -> emits Q (for_each body xs acc).
Proof.
  intros Hb. revert acc. induction xs as [|x xs IH]; intros acc; simpl.
  - apply emits_ret.
  - apply emits_bind; auto.
Qed.

End Frames.

(** Decompose a computation along its binds, loops and branches; what is
    left are single attribute writes, closed by computation. *)
Ltac frame_leaf :=
  let s := fresh "s" in
  intros s;
  cbv [GanModel_generate GanModel_discriminator iterate tqdm_iter_flush
       scheduler_step StepLR_step modify];
  repeat match goal with
         | |- context [match ?x with _ => _ end] => destruct x
         | |- context [if ?b then _ else _] => destruct b
         end;
  reflexivity.

Ltac frame :=
  repeat first
    [ apply keeps_ret | apply keeps_raise | apply keeps_gets
    | apply keeps_py_div | apply keeps_py_getitem
    | apply keeps_bind; [|intros ?]
    | apply keeps_for_each; intros ? ?
    | match goal with
      | |- keeps _ (if ?b then _ else _) => destruct b
      | |- keeps _ (match ?x with _ => _ end) => destruct x
      end
    | progress cbv [train_one_epoch validate train_batch validate_batch
                    train_generator train_discriminator metrics_step averaged
                    logger_error logger_info emit optimizer_zero_grad
                    loss_backward optimizer_step model_mode _log_to_csv
                    save_model DictWriter_row train_epoch]
    | frame_leaf ].

Ltac emits_frame :=
  repeat first
    [ apply emits_ret | apply emits_raise | apply emits_gets
    | apply emits_silent; solve [apply keeps_py_div | apply keeps_py_getitem]
    | apply emits_bind; [|intros ?]
    | apply emits_for_each; intros ? ?
    | match goal with
      | |- emits _ (if ?b then _ else _) => destruct b
      | |- emits _ (match ?x with _ => _ end) => destruct x
      end
    | apply emits_emit; solve [exact I | simpl; auto]
    | progress cbv [train_one_epoch validate train_batch validate_batch
                    train_generator train_discriminator metrics_step averaged
                    logger_error logger_info optimizer_zero_grad
                    loss_backward optimizer_step model_mode _log_to_csv
                    save_model DictWriter_row]
    | apply emits_silent; frame_leaf ].

(** ** The two passes of an epoch *)

Section Passes.
Context `{Backward}.
Implicit Types (s : GANTrainer).

(** Events of the batch loops: error records and progress-bar postfixes.
    Neither pass writes a CSV row or a checkpoint. *)
Definition pass_event (e : event) : Prop :=
  match e with
  | Log ERROR _ | SetPostfix _ _ => True
  | _ => False
  end.

Lemma train_one_epoch_emits : emits pass_event train_one_epoch.
Proof. emits_frame. Qed.

Lemma validate_emits : emits pass_event validate.
Proof. emits_frame. Qed.

(** What the passes never touch: the model-selection state, the
    schedulers, the learning rates and the run's paths. *)
Definition run_settings s :=
  (config s, best_val_loss s, scheduler_G s, scheduler_D s,
   lr (optimizer_G s), lr (optimizer_D s), log_dir s, csv_file s,
   loader_len (train_loader s), loader_len (val_loader s)).

Lemma train_one_epoch_keeps : keeps run_settings train_one_epoch.
Proof. frame. Qed.

Lemma validate_keeps : keeps run_settings validate.
Proof. frame. Qed.

End Passes.

(** ** One epoch of [train] *)

Section Epoch.
Context `{Backward}.
Implicit Types (s : GANTrainer).

Definition weights_dir_of s : string :=
  match log_dir s with
  | Some d => path_join d "weights"
  | None => checkpoint_dir (config s)
  end.

Definition last_model_path s : string := weights_dir_of s +:+ "/last_model.pth".
Definition best_model_path s : string := weights_dir_of s +:+ "/best_gan_model.pth".

(** What [save_model] does to the outside. *)
Definition save_events s (is_best : bool) : list event :=
  [ Makedirs (weights_dir_of s);
    SaveCheckpoint (last_model_path s) (weights (model s));
    Log INFO (Text ("Saved model checkpoint at " +:+ last_model_path s)) ] ++
  (if is_best
   then [ SaveBestCheckpoint (best_model_path s) (weights (model s));
          Log INFO (Text ("Saved best model checkpoint at " +:+ best_model_path s)) ]
   else []).

Lemma save_model_eq dir is_best s :
  save_model dir is_best s =
  (Ok tt, set_trace (trace s ++ save_events s is_best)
            (set_weights_dir (Some (weights_dir_of s)) s)).
Proof.
  unfold save_model, save_events, last_model_path, best_model_path, weights_dir_of.
  cbv [bind gets modify emit logger_info ret].
  destruct is_best; simpl_state; rewrite <- ?app_assoc; reflexivity.
Qed.

(** The data row [_log_to_csv] writes, in the order of [csv_fields]. *)
Definition csv_row (epoch : nat) (train_g_loss train_d_loss val_loss : float)
    (v_iou v_recall v_precision v_accuracy v_dice v_f2 : float)
    (t_iou t_recall t_precision t_accuracy t_dice t_f2 : float) : list cell :=
  [ CellInt epoch; CellFloat train_g_loss; CellFloat train_d_loss;
    CellFloat val_loss; CellFloat v_iou; CellFloat v_recall;
    CellFloat v_precision; CellFloat v_accuracy; CellFloat v_dice;
    CellFloat v_f2; CellFloat t_iou; CellFloat t_precision; CellFloat t_recall;
    CellFloat t_f2; CellFloat t_accuracy; CellFloat t_dice ].

Lemma log_to_csv_Ok epoch g d v logs tlogs s s' :
  _log_to_csv epoch g d v logs tlogs s = (Ok tt, s') ->
  exists b1 b2 b3 b4 b5 b6 a1 a2 a3 a4 a5 a6,
    s' = set_trace
           (trace s ++ [CsvAppend (csv_file s)
                          (csv_row epoch g d v b1 b2 b3 b4 b5 b6 a1 a2 a3 a4 a5 a6)]) s.
Proof.
  unfold _log_to_csv, bind, py_getitem, ret, raise.
  repeat match goal with
         | |- context [match (?m !! ?k) with _ => _ end] =>
             destruct (m !! k); [|discriminate]
         end.
  match goal with
  | |- context [DictWriter_row ?f ?rowdict s] =>
      let r := eval vm_compute in (DictWriter_row f rowdict s) in
      change (DictWriter_row f rowdict s) with r
  end.
  unfold gets, emit, modify. intros [= <-].
  do 12 eexists. unfold csv_row. reflexivity.
Qed.

Lemma csv_row_shape epoch g d v b1 b2 b3 b4 b5 b6 a1 a2 a3 a4 a5 a6 :
  let row := csv_row epoch g d v b1 b2 b3 b4 b5 b6 a1 a2 a3 a4 a5 a6 in
  length row = length csv_fields /\
  row !! 0 = Some (CellInt epoch) /\ row !! 3 = Some (CellFloat v).
Proof. repeat split. Qed.

(** What a completed epoch has done, in terms of the state [s2] the two
    passes left: the summary record, one CSV row, the checkpoints, the new
    best loss, and one step of each scheduler. *)
Definition epoch_outcome (epoch : nat) s s2 s' (v : float) (row : list cell) : Prop :=
  let is_best := PyFloat.lt v (best_val_loss s) in
  (exists g d m1 m2 m3 m4 m5 m6,
     trace s' =
       trace s2 ++
       [ Log INFO (EpochSummary (epoch + 1) (num_epochs (config s)) g d v
                     m1 m2 m3 m4 m5 m6);
         CsvAppend (csv_file s) row ] ++
       save_events s2 is_best) /\
  (exists b1 b2 b3 b4 b5 b6 a1 a2 a3 a4 a5 a6 g d,
     row = csv_row (epoch + 1) g d v b1 b2 b3 b4 b5 b6 a1 a2 a3 a4 a5 a6) /\
  best_val_loss s' = (if is_best then v else best_val_loss s) /\
  config s' = config s /\ log_dir s' = log_dir s /\ csv_file s' = csv_file s /\
  StepLR_step (scheduler_G s) (optimizer_G s2) = Ok (scheduler_G s', optimizer_G s') /\
  StepLR_step (scheduler_D s) (optimizer_D s2) = Ok (scheduler_D s', optimizer_D s').

Lemma py_getitem_Ok {V} (d : gmap string V) k s v s1 :
  py_getitem d k s = (Ok v, s1) -> d !! k = Some v /\ s1 = s.
Proof. unfold py_getitem. destruct (d !! k); intros [= <- <-]; done. Qed.

Lemma scheduler_step_Ok n s s' :
  scheduler_step n s = (Ok tt, s') ->
  exists sch o,
    StepLR_step (scheduler n s) (optimizer n s) = Ok (sch, o) /\
    s' = set_optimizer n o (set_scheduler n sch s).
Proof.
  unfold scheduler_step.
  destruct (StepLR_step _ _) as [[sch o]|]; intros [= <-]; eauto.
Qed.

(** Successive binds of a completed computation, one at a time. *)
Ltac next_bind H x sx Hx :=
  apply bind_Ok_inv in H as (x & sx & Hx & H).

Ltac next_getitem H :=
  let v := fresh "m" in
  let sx := fresh "sx" in
  let Hx := fresh "Hx" in
  apply bind_Ok_inv in H as (v & sx & Hx & H);
  apply py_getitem_Ok in Hx as [_ ->].

Lemma train_epoch_Ok epoch s s' :
  train_epoch tt epoch s = (Ok tt, s') ->
  exists s2 evs v row,
    run_settings s2 = run_settings s /\
    trace s2 = trace s ++ evs /\ Forall pass_event evs /\
    epoch_outcome epoch s s2 s' v row.
Proof.
  unfold train_epoch. intros Hrun.
  next_bind Hrun tr s1 Htr. next_bind Hrun va s2 Hva.
  pose proof (train_one_epoch_keeps s) as K1. rewrite Htr in K1. simpl in K1.
  pose proof (validate_keeps s1) as K2. rewrite Hva in K2. simpl in K2.
  destruct (train_one_epoch_emits s) as (evs1 & E1 & F1). rewrite Htr in E1. simpl in E1.
  destruct (validate_emits s1) as (evs2 & E2 & F2). rewrite Hva in E2. simpl in E2.
  assert (run_settings s2 = run_settings s) as K by congruence.
  clear K1 K2 Htr Hva. pose proof K as Kall.
  injection K as Kcfg Kbest KsG KsD KlrG KlrD Kdir Kfile _ _.
  next_bind Hrun n_epochs sx Hx. injection Hx as <- <-.
  do 6 next_getitem Hrun.
  next_bind Hrun u1 s3 Hlog. destruct u1. injection Hlog as <-.
  next_bind Hrun u2 s4 Hcsv. destruct u2.
  apply log_to_csv_Ok in Hcsv
    as (b1 & b2 & b3 & b4 & b5 & b6 & a1 & a2 & a3 & a4 & a5 & a6 & ->).
  next_bind Hrun best sx Hx. injection Hx as <- <-.
  next_bind Hrun is_best s5 Hsel.
  next_bind Hrun dir sx Hx. injection Hx as <- <-.
  next_bind Hrun u3 s6 Hsave. destruct u3. rewrite save_model_eq in Hsave.
  injection Hsave as <-.
  next_bind Hrun u4 s7 HG. destruct u4.
  apply scheduler_step_Ok in HG as (sG & oG & HG & ->).
  apply scheduler_step_Ok in Hrun as (sD & oD & HD & ->).
  exists s2, (evs1 ++ evs2), va.1. eexists.
  split; [exact Kall|].
  split; [by rewrite E2, E1, app_assoc|].
  split; [by apply Forall_app|].
  revert Hsel HG HD. simpl_state. rewrite Kbest.
  destruct (PyFloat.lt va.1 (best_val_loss s)) eqn:Hbest;
    cbv [bind modify ret]; intros [= <- <-]; simpl_state;
    rewrite KsG, KsD; intros HG HD;
    unfold epoch_outcome; simpl_state; rewrite Hbest, Kcfg, Kfile;
    (split; [do 8 eexists; unfold save_events, last_model_path, best_model_path,
                weights_dir_of; simpl_state; rewrite <- !app_assoc; reflexivity|]);
    (split; [do 14 eexists; reflexivity|]);
    repeat split; assumption.
Qed.

End Epoch.

(** ** A whole run *)

Section Run.
Context `{Backward}.
Implicit Types (s : GANTrainer) (tr : list event).

(** A completed run as the chain of its completed epochs: epoch [k] takes
    [s] through its two passes to [s2] and through model selection to the
    next epoch's starting state; [outs] lists each epoch's validation loss
    and CSV row. *)
Inductive epochs_run : nat -> GANTrainer -> list (float * list cell) -> GANTrainer -> Prop :=
| run_done k s : epochs_run k s [] s
| run_epoch k s s2 evs v row s1 outs s' :
    run_settings s2 = run_settings s ->
    trace s2 = trace s ++ evs -> Forall pass_event evs ->
    epoch_outcome k s s2 s1 v row ->
    epochs_run (S k) s1 outs s' ->
    epochs_run k s ((v, row) :: outs) s'.

Lemma train_loop_run n k s s' :
  for_each train_epoch (seq k n) tt s = (Ok tt, s') ->
  exists outs, length outs = n /\ epochs_run k s outs s'.
Proof.
  revert k s. induction n as [|n IH]; intros k s; simpl.
  - intros [= <-]. exists []. split; [done | constructor].
  - intros Hrun. apply bind_Ok_inv in Hrun as ([] & s1 & Hepoch & Hrest).
    apply train_epoch_Ok in Hepoch as (s2 & evs & v & row & K & E & F & O).
    apply IH in Hrest as (outs & Hlen & Hrest).
    exists ((v, row) :: outs). split; [simpl; congruence | econstructor; eauto].
Qed.

(** [train] from a state: the start-up record, then the epochs. *)
Lemma train_run s s' :
  train s = (Ok tt, s') ->
  exists outs,
    length outs = num_epochs (config s) /\
    epochs_run 0 (set_trace (trace s ++ [Log INFO (Text "Starting training...")]) s)
      outs s'.
Proof.
  unfold train. cbv [bind logger_info emit modify gets].
  intros Hrun. by apply train_loop_run in Hrun.
Qed.

End Run.

(** ** Learning-rate schedule *)

Section Schedule.
Context `{Backward}.
Implicit Types (s : GANTrainer) (sch : StepLR) (o : Adam).

(** [n] successive multiplications by [gamma], each product rounded to
    binary64 as Python's [*] does. *)
Definition chained_decay (initial_lr gamma : float) (n : nat) : float :=
  Nat.iter n (fun r => PrimFloat.mul r gamma) initial_lr.









End Schedule.

(** ** The order of Python floats *)

Section FloatOrder.


Lemma SFltb_Lt a b : SFltb a b = true <-> SFcompare a b = Some Lt.
Proof. unfold SFltb. destruct (SFcompare a b) as [[]|]; split; congruence. Qed.

Ltac compare_cases :=
  repeat match goal with
  | |- context [Z.compare ?x ?y] => destruct (Z.compare_spec x y)
  | H : context [Z.compare ?x ?y] |- _ => destruct (Z.compare_spec x y)
  | |- context [Pos.compare_cont Eq ?x ?y] =>
      change (Pos.compare_cont Eq x y) with (Pos.compare x y)
  | H : context [Pos.compare_cont Eq ?x ?y] |- _ =>
      change (Pos.compare_cont Eq x y) with (Pos.compare x y) in H
  | |- context [Pos.compare ?x ?y] => destruct (Pos.compare_spec x y)
  | H : context [Pos.compare ?x ?y] |- _ => destruct (Pos.compare_spec x y)
  end.

Lemma SFltb_trans a b c :
  SFltb a b = true -> SFltb b c = true -> SFltb a c = true.
Proof.
  rewrite !SFltb_Lt.
  destruct a as [[]| [] | | [] m1 e1], b as [[]| [] | | [] m2 e2],
    c as [[]| [] | | [] m3 e3];
    simpl; try congruence; intros H1 H2; compare_cases; simpl in *;
    try congruence; try lia.
Qed.



Lemma lt_trans x y z :
  PyFloat.lt x y = true -> PyFloat.lt y z = true -> PyFloat.lt x z = true.
Proof. unfold PyFloat.lt. rewrite !FloatAxioms.ltb_spec. apply SFltb_trans. Qed.


(** The best loss seen after a list of epochs, from the initial one. *)
Definition running_best (b : float) (vals : list float) : float :=
  foldl (fun b v => if PyFloat.lt v b then v else b) b vals.


End FloatOrder.

(** ** Reading a trace *)

Section Observation.
Context `{Backward}.
Implicit Types (s : GANTrainer) (tr : list event).

(** What the trace shows of one epoch: the number and the validation loss
    of its summary record, and the checkpoint files written after it. *)
Record epoch_obs := { eo_epoch : nat; eo_val_loss : float; eo_files : list string }.

Definition add_file (path : string) (o : epoch_obs) : epoch_obs :=
  {| eo_epoch := eo_epoch o; eo_val_loss := eo_val_loss o;
     eo_files := eo_files o ++ [path] |}.

(** Events are read in order; the epochs read so far are kept latest
    first. *)
Definition observe_event (acc : list epoch_obs) (e : event) : list epoch_obs :=
  match e with
  | Log INFO (EpochSummary ep _ _ _ v _ _ _ _ _ _) =>
      {| eo_epoch := ep; eo_val_loss := v; eo_files := [] |} :: acc
  | SaveCheckpoint path _ | SaveBestCheckpoint path _ =>
      match acc with
      | o :: rest => add_file path o :: rest
      | [] => []
      end
  | _ => acc
  end.

Definition epochs_observed tr : list epoch_obs :=
  rev (foldl observe_event [] tr).

(** The rows of a CSV file after the events of a trace: creating the file
    truncates it to its header, appending adds a row. *)
Definition csv_event (path : string) (file : option (list (list cell)))
    (e : event) : option (list (list cell)) :=
  match e with
  | CsvCreate p header => if decide (p = path) then Some [header] else file
  | CsvAppend p row =>
      if decide (p = path) then Some (default [] file ++ [row]) else file
  | _ => file
  end.

Definition csv_contents (path : string) tr : option (list (list cell)) :=
  foldl (csv_event path) None tr.

Lemma observe_pass acc evs :
  Forall pass_event evs -> foldl observe_event acc evs = acc.
Proof.
  induction 1 as [|e evs He _ IH]; [done|]. simpl. rewrite <- IH at 2.
  f_equal. destruct e as [[] ?| | | | | |]; simpl in *; done.
Qed.

Lemma csv_pass path file evs :
  Forall pass_event evs -> foldl (csv_event path) file evs = file.
Proof.
  induction 1 as [|e evs He _ IH]; [done|]. simpl. rewrite <- IH at 2.
  f_equal. destruct e as [[] ?| | | | | |]; simpl in *; done.
Qed.

(** What a run is expected to show, epoch by epoch, from the best loss
    [b] it started with. *)
Fixpoint expected_obs (last best : string) (k : nat) (b : float)
    (outs : list (float * list cell)) : list epoch_obs :=
  match outs with
  | [] => []
  | out :: rest =>
      {| eo_epoch := k + 1; eo_val_loss := out.1;
         eo_files := last :: if PyFloat.lt out.1 b then [best] else [] |}
      :: expected_obs last best (S k) (if PyFloat.lt out.1 b then out.1 else b) rest
  end.

Lemma epoch_observed k s s2 s1 v row evs :
  trace s2 = trace s ++ evs -> Forall pass_event evs ->
  run_settings s2 = run_settings s ->
  epoch_outcome k s s2 s1 v row ->
  foldl observe_event [] (trace s1) =
    {| eo_epoch := k + 1; eo_val_loss := v;
       eo_files := last_model_path s ::
                   if PyFloat.lt v (best_val_loss s) then [best_model_path s] else [] |}
    :: foldl observe_event [] (trace s) /\
  csv_contents (csv_file s) (trace s1) =
    Some (default [] (csv_contents (csv_file s) (trace s)) ++ [row]).
Proof.
  intros E F K ((g & d & m1 & m2 & m3 & m4 & m5 & m6 & Htr) & _).
  injection K as Kcfg _ _ _ _ _ Kdir _ _ _.
  assert (weights_dir_of s2 = weights_dir_of s) as Hw
    by (unfold weights_dir_of; by rewrite Kcfg, Kdir).
  unfold csv_contents. rewrite Htr, E, !foldl_app.
  rewrite (observe_pass _ _ F), (csv_pass _ _ _ F).
  unfold save_events, last_model_path, best_model_path. rewrite Hw.
  destruct (PyFloat.lt v (best_val_loss s)); simpl;
    rewrite decide_True by done; done.
Qed.

Lemma run_observed k s outs s' :
  epochs_run k s outs s' ->
  epochs_observed (trace s') =
    epochs_observed (trace s) ++
    expected_obs (last_model_path s) (best_model_path s) k (best_val_loss s) outs /\
  csv_contents (csv_file s) (trace s') =
    (if outs is [] then csv_contents (csv_file s) (trace s)
     else Some (default [] (csv_contents (csv_file s) (trace s)) ++ outs.*2)) /\
  best_val_loss s' = running_best (best_val_loss s) outs.*1.
Proof.
  unfold epochs_observed.
  induction 1 as [|k s s2 evs v row s1 outs s' K E F O R IH].
  - by rewrite app_nil_r.
  - destruct (epoch_observed _ _ _ _ _ _ _ E F K O) as [Hobs Hcsv].
    destruct O as (_ & _ & Hbest & Hcfg & Hdir & Hfile & _).
    assert (last_model_path s1 = last_model_path s /\
            best_model_path s1 = best_model_path s) as [Hl Hb]
      by (unfold last_model_path, best_model_path, weights_dir_of;
          by rewrite Hcfg, Hdir).
    destruct IH as (IH1 & IH2 & IH3).
    rewrite IH1, IH3, Hobs, Hl, Hb, Hbest. simpl.
    rewrite <- app_assoc. split; [done|]. split; [|done].
    rewrite <- Hfile, IH2, Hfile, Hcsv. simpl.
    destruct outs; simpl; [done|]. by rewrite <- app_assoc.
Qed.

End Observation.

(** ** Model selection *)

Section Selection.
Context `{Backward}.
Implicit Types (s : GANTrainer).

Lemma append_inj_l (w a b : string) : w +:+ a = w +:+ b -> a = b.
Proof. induction w as [|c w IH]; simpl; [done|]. intros [= ?]. auto. Qed.

Lemma last_best_paths_differ s : best_model_path s <> last_model_path s.
Proof.
  unfold best_model_path, last_model_path. intros E.
  apply append_inj_l in E. discriminate.
Qed.

Lemma expected_obs_lookup last best k b outs i o :
  expected_obs last best k b outs !! i = Some o ->
  eo_epoch o = k + i + 1 /\
  eo_files o =
    last :: (if PyFloat.lt (eo_val_loss o) (running_best b (take i outs.*1))
             then [best] else []).
Proof.
  revert k b i. induction outs as [|out outs IH]; intros k b i; [done|].
  destruct i as [|i]; simpl.
  - intros [= <-]. simpl. split; [lia | done].
  - intros Ho. apply IH in Ho as [-> ->]. split; [lia | done].
Qed.

Lemma expected_obs_vals last best k b outs :
  eo_val_loss <$> expected_obs last best k b outs = outs.*1.
Proof.
  revert k b. induction outs as [|out outs IH]; intros k b; simpl; [done|].
  by rewrite IH.
Qed.



End Selection.

(** ** The metrics file *)

Inductive phase := Training | Validation.

(** What a column of the metrics file holds. *)
Inductive column :=
| ColEpoch
| ColGeneratorLoss (ph : phase)
| ColDiscriminatorLoss (ph : phase)
| ColMetric (ph : phase) (name : string).

(** The meaning of the field names of [csv_fields]: the [train_] fields
    come from the training pass; [val_loss] is the generator's loss averaged
    over the validation pass, and the unprefixed metrics are the validation
    pass's. *)
Definition column_table : list (string * column) :=
  [ ("epoch", ColEpoch);
    ("train_g_loss", ColGeneratorLoss Training);
    ("train_d_loss", ColDiscriminatorLoss Training);
    ("val_loss", ColGeneratorLoss Validation);
    ("val_d_loss", ColDiscriminatorLoss Validation);
    ("mean_iou", ColMetric Validation "mean_iou");
    ("recall", ColMetric Validation "recall");
    ("precision", ColMetric Validation "precision");
    ("accuracy", ColMetric Validation "accuracy");
    ("dice", ColMetric Validation "dice");
    ("f2", ColMetric Validation "f2");
    ("train_mean_iou", ColMetric Training "mean_iou");
    ("train_precision", ColMetric Training "precision");
    ("train_recall", ColMetric Training "recall");
    ("train_f2", ColMetric Training "f2");
    ("train_accuracy", ColMetric Training "accuracy");
    ("train_dice", ColMetric Training "dice") ].

Definition column_of (field : string) : option column :=
  (list_to_map column_table : gmap string column) !! field.

(** The columns of a header row. *)
Definition header_columns (header : list cell) : list column :=
  omap (fun c => match c with CellStr f => column_of f | _ => None end) header.

(** The column set as the specification words it: the epoch, a generator
    and a discriminator loss for each of the two phases, six metrics for
    each phase. *)
Definition documented_columns : list column :=
  ColEpoch ::
  [ ColGeneratorLoss Training; ColDiscriminatorLoss Training;
    ColGeneratorLoss Validation; ColDiscriminatorLoss Validation ] ++
  (ColMetric Validation <$> metric_keys) ++ (ColMetric Training <$> metric_keys).

(** The columns the trainer writes, in file order: the validation pass
    computes no discriminator loss. *)
Definition written_columns : list column :=
  ColEpoch ::
  [ ColGeneratorLoss Training; ColDiscriminatorLoss Training;
    ColGeneratorLoss Validation ] ++
  (ColMetric Validation <$> metric_keys) ++
  (ColMetric Training <$>
     [ "mean_iou"; "precision"; "recall"; "f2"; "accuracy"; "dice" ]).

Section Csv.
Context `{Backward}.
Implicit Types (s : GANTrainer).

Lemma run_rows k s outs s' :
  epochs_run k s outs s' ->
  forall i out, outs !! i = Some out ->
    length out.2 = length csv_fields /\
    out.2 !! 0 = Some (CellInt (k + i + 1)) /\
    out.2 !! 3 = Some (CellFloat out.1).
Proof.
  induction 1 as [|k s s2 evs v row s1 outs s' K E F O R IH]; intros i out; [done|].
  destruct i as [|i]; simpl.
  - intros [= <-]. simpl.
    destruct O as (_ & (b1 & b2 & b3 & b4 & b5 & b6 & a1 & a2 & a3 & a4 & a5 & a6
                        & g & d & ->) & _).
    rewrite Nat.add_0_r. repeat split.
  - intros Hout. apply IH in Hout as (? & Hep & ?).
    repeat split; try done. rewrite Hep. do 2 f_equal. lia.
Qed.

(** C5 (amended).  After a completed run of [num_epochs] epochs the metrics
    file holds the header row written at set-up followed by exactly one row
    per epoch, in order: [num_epochs + 1] rows.  Every data row has one cell
    per header field, starts with its epoch number and carries the epoch's
    validation loss in the [val_loss] column.  The sixteen columns are: the
    epoch, the training generator and discriminator losses, the validation
    loss (the generator's; there is no validation discriminator loss), and
    the six metrics of the validation and of the training pass. *)
Theorem csv_rows_after_run cfg mdl data_train data_val names now
    fresh_metrics lib flushes s' :
  let s0 := GANTrainer_init cfg mdl data_train data_val names now
              fresh_metrics lib flushes in
  train s0 = (Ok tt, s') ->
  exists header rows,
    csv_contents (csv_file s0) (trace s') = Some (header :: rows) /\
    length (header :: rows) = num_epochs cfg + 1 /\
    header = CellStr <$> csv_fields /\
    header_columns header = written_columns /\
    forall i row, rows !! i = Some row ->
      length row = length header /\
      row !! 0 = Some (CellInt (i + 1)) /\
      exists v, row !! 3 = Some (CellFloat v) /\
                (eo_val_loss <$> epochs_observed (trace s')) !! i = Some v.
Proof.
  intros s0 Hrun.
  apply train_run in Hrun as (outs & Hlen & Hrun).
  pose proof (run_rows _ _ _ _ Hrun) as Hrows.
  apply run_observed in Hrun as (Hobs0 & Hcsv0 & _).
  assert (epochs_observed (trace s') =
          expected_obs (last_model_path s0) (best_model_path s0) 0
            PyFloat.inf outs) as Hobs by exact Hobs0.
  assert (csv_contents (csv_file s0) (trace s') =
          Some ((CellStr <$> csv_fields) :: outs.*2)) as Hcsv.
  { etransitivity; [exact Hcsv0|].
    unfold csv_contents. simpl. rewrite decide_True by done. simpl.
    by destruct outs. }
  clear Hobs0 Hcsv0.
  exists (CellStr <$> csv_fields), outs.*2.
  change (num_epochs (config s0)) with (num_epochs cfg) in Hlen.
  split; [exact Hcsv|]. split; [simpl; rewrite length_fmap; lia|].
  split; [done|]. split; [vm_compute; reflexivity|].
  intros i row Hrow.
  apply list_lookup_fmap_Some in Hrow as ([v row'] & -> & Hout).
  destruct (Hrows i _ Hout) as (Hl & Hfirst & Hval). cbn [fst snd] in *.
  split; [by rewrite length_fmap|]. split; [done|].
  exists v. split; [done|].
  rewrite Hobs, expected_obs_vals, list_lookup_fmap, Hout. done.
Qed.

End Csv.

Section LearningRate.
Context `{Backward}.
Implicit Types (s : GANTrainer) (sch : StepLR) (o : Adam).




End LearningRate.

(** ** The per-batch protocol *)

Section Protocol.
Context `{Backward}.
Implicit Types (s : GANTrainer) (data targets : tensor) (p : nat).

Lemma train_generator_attached s data targets :
  optimizers_attached s ->
  optimizers_attached (train_generator data targets s).2 /\
  generator (model (train_generator data targets s).2) = generator (model s) /\
  discriminator (model (train_generator data targets s).2) = discriminator (model s).
Proof.
  intros Hatt. rewrite train_generator_eq.
  destruct (check_loss_nan _); simpl; done.
Qed.

(** C1.  A batch is a generator step followed by a discriminator step on
    the state the generator step left and on the mask it produced, and each
    step writes only its own sub-network: the generator step leaves every
    parameter outside the generator (contents and gradient) as it was, the
    discriminator step leaves every parameter outside the discriminator as
    it was, whatever history the mask it is given carries, so that with
    disjoint sub-networks the discriminator step changes no generator
    parameter. *)
Theorem adversarial_step_protocol :
  (forall s data targets p,
     optimizers_attached s -> p ∉ generator (model s) ->
     parameters (model (train_generator data targets s).2) !! p =
     parameters (model s) !! p) /\
  (forall s data (mask_fakes : handle) targets p,
     optimizers_attached s -> p ∉ discriminator (model s) ->
     parameters (model (train_discriminator data mask_fakes targets s).2) !! p =
     parameters (model s) !! p) /\
  (forall s data (mask_fakes : handle) targets p,
     optimizers_attached s ->
     generator (model s) ## discriminator (model s) ->
     p ∈ generator (model s) ->
     parameters (model (train_discriminator data mask_fakes targets s).2) !! p =
     parameters (model s) !! p) /\
  (forall s loc batch loc' s',
     optimizers_attached s ->
     generator (model s) ## discriminator (model s) ->
     train_batch loc batch s = (Ok loc', s') ->
     let data := to_float32 batch.1 in
     let targets := to_float32 batch.2 in
     exists g_loss fake_mask s1 d_loss s2,
       train_generator data targets s = (Ok (g_loss, fake_mask), s1) /\
       train_discriminator data fake_mask targets s1 = (Ok d_loss, s2) /\
       model s' = model s2 /\
       (forall p, p ∈ discriminator (model s) ->
                  parameters (model s1) !! p = parameters (model s) !! p) /\
       (forall p, p ∈ generator (model s) ->
                  parameters (model s') !! p = parameters (model s1) !! p)).
Proof.
  assert (forall s data targets p,
            optimizers_attached s -> p ∉ generator (model s) ->
            parameters (model (train_generator data targets s).2) !! p =
            parameters (model s) !! p) as HG.
  { intros s data targets p [HaG _] Hp. apply train_generator_frame; [|done].
    by rewrite HaG. }
  assert (forall s data (mask_fakes : handle) targets p,
            optimizers_attached s -> p ∉ discriminator (model s) ->
            parameters (model (train_discriminator data mask_fakes targets s).2) !! p =
            parameters (model s) !! p) as HD.
  { intros s data mask targets p [_ HaD] Hp. apply train_discriminator_frame; [|done].
    by rewrite HaD. }
  split; [exact HG|]. split; [exact HD|]. split.
  { intros s data mask targets p Hatt Hdisj Hp. apply HD; [done|].
    intros Hp'. exact (Hdisj p Hp Hp'). }
  intros s loc batch loc' s' Hatt Hdisj Hrun data targets.
  unfold train_batch in Hrun. fold data targets in Hrun.
  apply bind_Ok_inv in Hrun as ([g_loss fake_mask] & s1 & Hgen & Hrun).
  cbn [fst snd] in Hrun.
  destruct (check_loss_nan g_loss).
  { apply bind_Ok_inv in Hrun as (? & ? & _ & Hrun). discriminate. }
  apply bind_Ok_inv in Hrun as (d_loss & s2 & Hdis & Hrun).
  destruct (check_loss_nan d_loss).
  { apply bind_Ok_inv in Hrun as (? & ? & _ & Hrun). discriminate. }
  assert (model s' = model s2) as Hmodel.
  { match type of Hrun with
    | ?m s2 = _ => assert (keeps model m) as K by frame;
                   specialize (K s2); rewrite Hrun in K; exact K
    end. }
  destruct (train_generator_attached s data targets Hatt) as (Hatt1 & HidG & HidD).
  rewrite Hgen in Hatt1, HidG, HidD. simpl in Hatt1, HidG, HidD.
  exists g_loss, fake_mask, s1, d_loss, s2.
  split; [done|]. split; [done|]. split; [done|]. split.
  - intros p Hp. specialize (HG s data targets p Hatt). rewrite Hgen in HG.
    apply HG. intros Hp'. exact (Hdisj p Hp' Hp).
  - intros p Hp. rewrite Hmodel.
    specialize (HD s1 data fake_mask targets p Hatt1). rewrite Hdis in HD.
    apply HD. rewrite HidD. intros Hp'. exact (Hdisj p Hp Hp').
Qed.

(** C8.  The discriminator step scores the real pair, then the pair made
    of the image and the contents of the fake mask (its history is cut: the
    step is the same on the detached mask); the real loss is the binary
    cross-entropy of the real score against a tensor of the score's shape
    filled with 0.9, the fake loss that of the fake score against zeros.
    When neither is NaN the step returns the value of their sum, and the
    weights it leaves are Adam's step after a backward pass from that sum's
    graph; and whenever the step returns, it returns that value. *)
#[warnings="-inexact-float"]
Theorem discriminator_loss_is_sum_of_bce s data (mask_fakes : handle) targets :
  let ws := (discriminator_weights s).*2 in
  let real := discriminator_forward (training (model s)) ws (torch_state s)
                data targets in
  let fake := discriminator_forward (training (model s)) ws real.2
                data (value mask_fakes) in
  let d_real_loss :=
    BCELoss real.1 (mul_scalar (ones_like real.1) PyFloat.soft_real_label) in
  let d_fake_loss := BCELoss fake.1 (zeros_like fake.1) in
  let d_loss := tensor_add d_real_loss d_fake_loss in
  PyFloat.soft_real_label = 0.9%float /\
  train_discriminator data (detach mask_fakes) targets s =
    train_discriminator data mask_fakes targets s /\
  (forall d s', train_discriminator data mask_fakes targets s = (Ok d, s') ->
                d = item d_loss) /\
  (check_loss_nan (item d_real_loss) = false ->
   check_loss_nan (item d_fake_loss) = false ->
   exists s',
     train_discriminator data mask_fakes targets s = (Ok (item d_loss), s') /\
     parameters (model s') =
       (adam_step (optimizer_D s)
          (backward (d_loss_root s data (value mask_fakes) targets)
             (zero_grad (param_ids (optimizer_D s)) (parameters (model s))))).2 /\
     exists real_graph fake_graph real_labels fake_labels,
       d_loss_root s data (value mask_fakes) targets =
         Plus (Criterion "BCELoss" real_graph (Detached real_labels))
              (Criterion "BCELoss" fake_graph (Detached fake_labels)) /\
       real_labels = mul_scalar (ones_like real.1) PyFloat.soft_real_label /\
       fake_labels = zeros_like fake.1).
Proof.
  intros ws real fake d_real_loss d_fake_loss d_loss.
  split; [reflexivity|]. split; [by rewrite !train_discriminator_eq|].
  split.
  - intros d s'. rewrite train_discriminator_eq. cbv zeta.
    destruct (check_loss_nan _); [discriminate|].
    destruct (check_loss_nan _); [discriminate|].
    intros [= <- _]. reflexivity.
  - intros Hreal Hfake. rewrite train_discriminator_eq. cbv zeta.
    change (d_real_loss_of s data targets) with d_real_loss.
    change (d_fake_loss_of s data (value mask_fakes) targets) with d_fake_loss.
    rewrite Hreal, Hfake.
    eexists. split; [reflexivity|]. split; [reflexivity|].
    do 4 eexists. split; [reflexivity|]. split; reflexivity.
Qed.

End Protocol.

(** ** Exceptions *)

Section Exceptions.
Context `{Backward}.
Local Abbreviation Py := (M (S:=GANTrainer)).
Implicit Types (s : GANTrainer).

(** Every exception the computation can raise is in [P]. *)
Definition raises_only {A} (P : exn -> Prop) (m : Py A) : Prop :=
  forall s e s', m s = (Raise e, s') -> P e.

Lemma raises_only_ret {A} P (a : A) : raises_only P (ret a).
Proof. intros s e s' [=]. Qed.

Lemma raises_only_gets {A} P (f : GANTrainer -> A) : raises_only P (gets f).
Proof. intros s e s' [=]. Qed.

Lemma raises_only_modify P f : raises_only P (modify f).
Proof. intros s e s' [=]. Qed.

Lemma raises_only_raise {A} (P : exn -> Prop) e : P e -> raises_only P (raise (A:=A) e).
Proof. intros He s e' s' [= <- _]. exact He. Qed.

Lemma raises_only_bind {A B} P (m : Py A) (k : A -> Py B) :
  raises_only P m -> (forall a, raises_only P (k a)) -> raises_only P (bind m k).
Proof.
  intros Hm Hk s e s' Hrun.
  apply bind_Raise_inv in Hrun as [Hrun | (a & s1 & _ & Hrun)].
  - exact (Hm _ _ _ Hrun).
  - exact (Hk _ _ _ _ Hrun).
Qed.

Lemma raises_only_for_each {A B} P (body : B -> A -> Py B) xs acc :
  (forall acc x, raises_only P (body acc x)) ->
  raises_only P (for_each body xs acc).
Proof.
  intros Hb. revert acc. induction xs as [|x xs IH]; intros acc; simpl.
  - apply raises_only_ret.
  - apply raises_only_bind; auto.
Qed.

Lemma raises_only_py_div P x n : n <> 0 -> raises_only P (py_div x n).
Proof.
  intros Hn s e s'. unfold py_div.
  destruct (Nat.eqb_spec n 0); [done | intros [=]].
Qed.

Lemma raises_only_py_getitem {V} (P : exn -> Prop) (d : gmap string V) k :
  P (KeyError k) -> raises_only P (py_getitem d k).
Proof.
  intros Hk s e s'. unfold py_getitem.
  destruct (d !! k); [intros [=] | intros [= <- _]; exact Hk].
Qed.

Lemma raises_only_total {A} P (m : Py A) :
  (forall s, exists a s', m s = (Ok a, s')) -> raises_only P m.
Proof. intros Hm s e s' Hrun. destruct (Hm s) as (a & s1 & E). congruence. Qed.

End Exceptions.

Ltac raises_frame :=
  repeat first
    [ apply raises_only_ret | apply raises_only_gets | apply raises_only_modify
    | apply raises_only_raise; solve [done | simpl; auto]
    | apply raises_only_py_div; solve [done | lia]
    | apply raises_only_py_getitem; solve [done | simpl; auto]
    | apply raises_only_bind; [|intros ?]
    | apply raises_only_for_each; intros ? ?
    | match goal with
      | |- raises_only _ (if ?b then _ else _) => destruct b
      | |- raises_only _ (match ?x with _ => _ end) => destruct x
      end
    | progress cbv [train_batch validate_batch
                    train_generator train_discriminator metrics_step averaged
                    logger_error logger_info emit optimizer_zero_grad
                    loss_backward optimizer_step model_mode]
    | apply raises_only_total; intros ?;
      cbv [GanModel_generate GanModel_discriminator iterate tqdm_iter_flush];
      repeat match goal with
             | |- context [match ?x with _ => _ end] => destruct x
             end;
      eauto ].

(** ** The training pass and its loader *)

Tactic Notation "bind_ok" hyp(H) ident(x) ident(sx) ident(Hx) :=
  apply bind_Ok_inv in H as (x & sx & Hx & H).

Section TrainingPass.
Context `{Backward}.
Implicit Types (s : GANTrainer).

Lemma train_batch_no_zero_division loc batch :
  raises_only (fun e => e <> ZeroDivisionError) (train_batch loc batch).
Proof. raises_frame. Qed.

Lemma train_batch_binds_logs loc batch :
  raises_only (fun e => e <> UnboundLocalError "logs") (train_batch loc batch).
Proof. raises_frame. Qed.

Lemma train_batch_Ok_logs loc batch s loc' s' :
  train_batch loc batch s = (Ok loc', s') -> is_Some (tl_logs loc').
Proof.
  unfold train_batch. intros Hrun.
  bind_ok Hrun gen s1 Hgen.
  destruct (check_loss_nan gen.1).
  { bind_ok Hrun u sx Hx. discriminate. }
  bind_ok Hrun d_loss s2 Hdis.
  destruct (check_loss_nan d_loss).
  { bind_ok Hrun u sx Hx. discriminate. }
  bind_ok Hrun metric s3 Hmet. bind_ok Hrun logs s4 Hlogs.
  bind_ok Hrun u s5 Hemit. bind_ok Hrun flushed s6 Hflush.
  injection Hrun as <- _. simpl. eauto.
Qed.

Lemma train_loop_Ok_logs batches loc s loc' s' :
  for_each train_batch batches loc s = (Ok loc', s') ->
  batches <> [] \/ is_Some (tl_logs loc) -> is_Some (tl_logs loc').
Proof.
  revert loc s. induction batches as [|b bs IH]; intros loc s; simpl.
  - intros [= <- _] [?|?]; done.
  - intros Hrun _. bind_ok Hrun loc1 s1 Hb.
    apply (IH _ _ Hrun). right. by eapply train_batch_Ok_logs.
Qed.

(** The first part of [train_one_epoch]: switch to train mode, draw the
    batches, run the loop. *)
Definition training_loop : M (S:=GANTrainer) train_locals :=
  model_mode true ;;;
  batches <- iterate train_loader ;;
  for_each train_batch batches train_locals_init.

Lemma train_one_epoch_split :
  train_one_epoch =
  (loc <- training_loop ;;
   len <- gets (fun s => loader_len (train_loader s)) ;;
   avg_g_loss <- py_div (total_g_loss loc) len ;;
   avg_d_loss <- py_div (total_d_loss loc) len ;;
   match tl_logs loc with
   | Some logs => ret (avg_g_loss, avg_d_loss, logs)
   | None => raise (UnboundLocalError "logs")
   end).
Proof. reflexivity. Qed.

Lemma training_loop_keeps : keeps run_settings training_loop.
Proof. unfold training_loop. frame. Qed.

Lemma training_loop_eq s :
  training_loop s =
  for_each train_batch (loader_iter (train_loader s) (torch_state s)).1
    train_locals_init
    (set_torch_state (loader_iter (train_loader s) (torch_state s)).2
       (set_model (with_training true (model s)) s)).
Proof. reflexivity. Qed.

(** C10.  With a loader of length zero the training pass never returns:
    every outcome is an exception, and when the loader yields no batch it
    is the [ZeroDivisionError] of the end-of-pass averages, reached with
    [logs] still unbound.  With a loader of non-zero length no division of
    the pass (by the running count of the bar, by the loader length) raises
    [ZeroDivisionError], and once a batch has been yielded [logs] is bound
    when the pass returns it. *)
Theorem train_one_epoch_needs_batches :
  (forall s r s',
     loader_len (train_loader s) = 0 ->
     train_one_epoch s = (r, s') -> exists e, r = Raise e) /\
  (forall s,
     loader_len (train_loader s) = 0 ->
     (loader_iter (train_loader s) (torch_state s)).1 = [] ->
     tl_logs train_locals_init = None /\
     exists s', train_one_epoch s = (Raise ZeroDivisionError, s')) /\
  (forall s e s',
     loader_len (train_loader s) <> 0 ->
     train_one_epoch s = (Raise e, s') -> e <> ZeroDivisionError) /\
  (forall s e s',
     (loader_iter (train_loader s) (torch_state s)).1 <> [] ->
     train_one_epoch s = (Raise e, s') -> e <> UnboundLocalError "logs").
Proof.
  assert (forall s loc s1, training_loop s = (Ok loc, s1) ->
            loader_len (train_loader s1) = loader_len (train_loader s)) as Hlen.
  { intros s loc s1 Hloop. pose proof (training_loop_keeps s) as K.
    rewrite Hloop in K. unfold run_settings in K. simpl in K. congruence. }
  rewrite train_one_epoch_split. split; [|split; [|split]].
  - intros s r s' Hzero Hrun. destruct r as [r|e]; [|eauto]. exfalso.
    bind_ok Hrun loc s1 Hloop. bind_ok Hrun len sx Hx. injection Hx as <- <-.
    rewrite (Hlen _ _ _ Hloop), Hzero in Hrun.
    bind_ok Hrun avg sy Hdiv. discriminate.
  - intros s Hzero Hnil. split; [reflexivity|].
    unfold bind. rewrite training_loop_eq, Hnil. simpl.
    rewrite Hzero. simpl. eauto.
  - intros s e s' Hlen0 Hrun.
    apply bind_Raise_inv in Hrun as [Hrun|(loc & s1 & Hloop & Hrun)].
    { rewrite training_loop_eq in Hrun.
      eapply (raises_only_for_each (fun e => e <> ZeroDivisionError));
        [|exact Hrun].
      intros. apply train_batch_no_zero_division. }
    apply bind_Raise_inv in Hrun as [Hrun|(len & sx & Hx & Hrun)]; [discriminate|].
    injection Hx as <- <-. rewrite (Hlen _ _ _ Hloop) in Hrun.
    eapply (raises_only_bind (fun e => e <> ZeroDivisionError)); [| |exact Hrun].
    + by apply raises_only_py_div.
    + intros avg_g. apply raises_only_bind; [by apply raises_only_py_div|].
      intros avg_d. destruct (tl_logs loc);
        [apply raises_only_ret | by apply raises_only_raise].
  - intros s e s' Hbatches Hrun.
    apply bind_Raise_inv in Hrun as [Hrun|(loc & s1 & Hloop & Hrun)].
    { rewrite training_loop_eq in Hrun.
      eapply (raises_only_for_each (fun e => e <> UnboundLocalError "logs"));
        [|exact Hrun].
      intros. apply train_batch_binds_logs. }
    rewrite training_loop_eq in Hloop.
    apply train_loop_Ok_logs in Hloop as [logs Hlogs]; [|by left].
    apply bind_Raise_inv in Hrun as [Hrun|(len & sx & Hx & Hrun)]; [discriminate|].
    rewrite Hlogs in Hrun.
    assert (forall x n, raises_only (fun e => e <> UnboundLocalError "logs")
                          (py_div (S:=GANTrainer) x n)) as Hdiv.
    { intros x n s2 e2 s2'. unfold py_div.
      destruct (n =? 0)%nat; [by intros [= <- _] | intros [=]]. }
    eapply (raises_only_bind (fun e => e <> UnboundLocalError "logs"));
      [apply Hdiv | | exact Hrun].
    intros avg_g. apply raises_only_bind; [apply Hdiv|].
    intros avg_d. apply raises_only_ret.
Qed.

End TrainingPass.

(** ** NaN losses *)

Section NanIsFatal.
Context `{Backward}.
Implicit Types (s : GANTrainer) (data targets : tensor).

(** The error records the trainer can write. *)
Definition nan_messages : list string :=
  [ "NaN detected in g_seg_loss";
    "NaN detected in generator loss. Stopping training.";
    "NaN detected in d_real_loss";
    "NaN detected in d_fake_loss";
    "NaN detected in discriminator loss. Stopping training.";
    "NaN detected in val_loss" ].

Definition nan_report (e : event) : Prop :=
  match e with
  | Log ERROR (Text text) => text ∈ nan_messages
  | Log ERROR _ => False
  | _ => True
  end.

Lemma train_reports_only_nan : emits nan_report train.
Proof.
  unfold train, train_epoch. emits_frame.
  all: apply emits_emit; simpl; unfold nan_messages;
    repeat first [apply list_elem_of_here | apply list_elem_of_further].
Qed.

Lemma validate_batch_eq loc batch s :
  let data := to_float32 batch.1 in
  let targets := to_float32 batch.2 in
  check_loss_nan (g_seg_loss_of s data targets) = true ->
  validate_batch loc batch s =
  (Raise (ValueError "NaN in val_loss"),
   set_trace (trace s ++ [Log ERROR (Text "NaN detected in val_loss")])
     (set_torch_state
        (generator_forward (training (model s)) (generator_weights s).*2
           (torch_state s) data).2 s)).
Proof.
  intros data targets. unfold g_seg_loss_of, fake_of, generator_weights.
  unfold validate_batch. fold data targets.
  cbv [bind GanModel_generate generator_loss constant logger_error emit modify raise].
  simpl_state. intros ->. reflexivity.
Qed.

(** The first part of [validate]. *)
Definition validation_loop : M (S:=GANTrainer) val_locals :=
  model_mode false ;;;
  batches <- iterate val_loader ;;
  for_each validate_batch batches val_locals_init.

(** C3.  Each of the four loss computations is followed at once by the
    NaN test, and a NaN makes the step log an error record and raise: the
    generator's segmentation loss, the discriminator's real loss, its fake
    loss (computed only if the real one passed), and each validation batch's
    loss.  An exception raised in a step leaves the batch, the batch loop,
    the epoch and [train] unchanged and with the state of the raise: nothing
    catches it, nothing is retried, nothing more is written.  The only error
    records [train] ever writes are the NaN ones. *)
Theorem nan_loss_is_fatal :
  (forall s data targets,
     check_loss_nan (g_seg_loss_of s data targets) = true ->
     exists s',
       train_generator data targets s = (Raise (ValueError "NaN in g_seg_loss"), s') /\
       last (trace s') = Some (Log ERROR (Text "NaN detected in g_seg_loss"))) /\
  (forall s data (mask_fakes : handle) targets,
     check_loss_nan (item (d_real_loss_of s data targets)) = true ->
     exists s',
       train_discriminator data mask_fakes targets s =
         (Raise (ValueError "NaN in d_real_loss"), s') /\
       last (trace s') = Some (Log ERROR (Text "NaN detected in d_real_loss"))) /\
  (forall s data (mask_fakes : handle) targets,
     check_loss_nan (item (d_real_loss_of s data targets)) = false ->
     check_loss_nan (item (d_fake_loss_of s data (value mask_fakes) targets)) = true ->
     exists s',
       train_discriminator data mask_fakes targets s =
         (Raise (ValueError "NaN in d_fake_loss"), s') /\
       last (trace s') = Some (Log ERROR (Text "NaN detected in d_fake_loss"))) /\
  (forall s loc batch,
     check_loss_nan (g_seg_loss_of s (to_float32 batch.1) (to_float32 batch.2)) = true ->
     exists s',
       validate_batch loc batch s = (Raise (ValueError "NaN in val_loss"), s') /\
       last (trace s') = Some (Log ERROR (Text "NaN detected in val_loss"))) /\
  (forall s loc batch e s',
     train_generator (to_float32 batch.1) (to_float32 batch.2) s = (Raise e, s') ->
     train_batch loc batch s = (Raise e, s')) /\
  (forall s loc batch g_loss fake_mask s1 e s',
     train_generator (to_float32 batch.1) (to_float32 batch.2) s =
       (Ok (g_loss, fake_mask), s1) ->
     train_discriminator (to_float32 batch.1) fake_mask (to_float32 batch.2) s1 =
       (Raise e, s') ->
     train_batch loc batch s = (Raise e, s')) /\
  (forall s done batch rest loc s1 e s',
     (loader_iter (train_loader s) (torch_state s)).1 = done ++ batch :: rest ->
     for_each train_batch done train_locals_init
       (set_torch_state (loader_iter (train_loader s) (torch_state s)).2
          (set_model (with_training true (model s)) s)) = (Ok loc, s1) ->
     train_batch loc batch s1 = (Raise e, s') ->
     train_one_epoch s = (Raise e, s')) /\
  (forall s done batch rest loc s1 e s',
     (loader_iter (val_loader s) (torch_state s)).1 = done ++ batch :: rest ->
     for_each validate_batch done val_locals_init
       (set_torch_state (loader_iter (val_loader s) (torch_state s)).2
          (set_model (with_training false (model s)) s)) = (Ok loc, s1) ->
     validate_batch loc batch s1 = (Raise e, s') ->
     validate s = (Raise e, s')) /\
  (forall s epoch e s',
     train_one_epoch s = (Raise e, s') -> train_epoch tt epoch s = (Raise e, s')) /\
  (forall s epoch r s1 e s',
     train_one_epoch s = (Ok r, s1) -> validate s1 = (Raise e, s') ->
     train_epoch tt epoch s = (Raise e, s')) /\
  (forall s0 epoch s e s',
     epoch < num_epochs (config s0) ->
     for_each train_epoch (seq 0 epoch) tt
       (set_trace (trace s0 ++ [Log INFO (Text "Starting training...")]) s0) =
       (Ok tt, s) ->
     train_epoch tt epoch s = (Raise e, s') ->
     train s0 = (Raise e, s')) /\
  emits nan_report train.
Proof.
  repeat apply conj.
  - intros s data targets Hnan. rewrite train_generator_eq, Hnan.
    eexists. split; [reflexivity|]. apply last_snoc.
  - intros s data mask targets Hnan. rewrite train_discriminator_eq. cbv zeta.
    rewrite Hnan. eexists. split; [reflexivity|]. apply last_snoc.
  - intros s data mask targets Hreal Hnan. rewrite train_discriminator_eq. cbv zeta.
    rewrite Hreal, Hnan. eexists. split; [reflexivity|]. apply last_snoc.
  - intros s loc batch Hnan. rewrite (validate_batch_eq loc batch s Hnan).
    eexists. split; [reflexivity|]. apply last_snoc.
  - intros s loc batch e s' Hgen. unfold train_batch. by apply bind_Raise.
  - intros s loc batch g_loss fake_mask s1 e s' Hgen Hdis. unfold train_batch.
    rewrite (bind_Ok _ _ _ _ _ Hgen). cbn [fst snd].
    assert (check_loss_nan g_loss = false) as ->.
    { rewrite train_generator_eq in Hgen.
      destruct (check_loss_nan (g_seg_loss_of _ _ _)) eqn:E; [discriminate|].
      by injection Hgen as <- _ _. }
    by apply bind_Raise.
  - intros s done batch rest loc s1 e s' Hbatches Hdone Hbatch.
    rewrite train_one_epoch_split. apply bind_Raise.
    rewrite training_loop_eq, Hbatches. by eapply for_each_Raise.
  - intros s done batch rest loc s1 e s' Hbatches Hdone Hbatch.
    change (validate s) with
      (bind validation_loop (fun loc =>
         len <- gets (fun s => loader_len (val_loader s)) ;;
         avg_val_loss <- py_div (total_val_loss loc) len ;;
         logs <- averaged (vl_metrics loc) len metric_keys ∅ ;;
         ret (avg_val_loss, <["val_loss" := avg_val_loss]> logs)) s).
    apply bind_Raise.
    change (validation_loop s) with
      (for_each validate_batch (loader_iter (val_loader s) (torch_state s)).1
         val_locals_init
         (set_torch_state (loader_iter (val_loader s) (torch_state s)).2
            (set_model (with_training false (model s)) s))).
    rewrite Hbatches. by eapply for_each_Raise.
  - intros s epoch e s' Hpass. unfold train_epoch. by apply bind_Raise.
  - intros s epoch r s1 e s' Hpass Hval. unfold train_epoch.
    rewrite (bind_Ok _ _ _ _ _ Hpass). by apply bind_Raise.
  - intros s0 epoch s e s' Hlt Hdone Hepoch. unfold train.
    cbv [bind logger_info emit modify gets].
    change (config (set_trace _ s0)) with (config s0).
    replace (seq 0 (num_epochs (config s0)))
      with (seq 0 epoch ++ epoch :: seq (S epoch) (num_epochs (config s0) - S epoch)).
    + by eapply for_each_Raise.
    + change (epoch :: seq (S epoch) (num_epochs (config s0) - S epoch))
        with (seq (0 + epoch) (S (num_epochs (config s0) - S epoch))).
      rewrite <- seq_app. f_equal. lia.
  - exact train_reports_only_nan.
Qed.

End NanIsFatal.

(** ** The validation progress display *)

Section ValidationProgress.
Context `{Backward}.
Implicit Types (s : GANTrainer).

(** The values a progress bar has shown under a key, in order. *)
Definition postfix_values (bar key : string) (tr : list event) : list float :=
  omap (fun e => match e with
                 | SetPostfix b shown => if decide (b = bar) then shown !! key else None
                 | _ => None
                 end) tr.

(** The running average a progressive display of the validation loss
    would show: the cumulative loss over the batches seen, divided by their
    number. *)
Fixpoint running_averages (total : float) (n : nat) (losses : list float)
  : list float :=
  match losses with
  | [] => []
  | l :: rest =>
      PyFloat.div (PyFloat.add total l) (PyFloat.of_nat (S n))
      :: running_averages (PyFloat.add total l) (S n) rest
  end.

Lemma averaged_other metrics n keys logs0 s logs s1 k :
  averaged metrics n keys logs0 s = (Ok logs, s1) ->
  k ∉ keys -> logs !! k = logs0 !! k /\ s1 = s.
Proof.
  unfold averaged. revert logs0 s.
  induction keys as [|key keys IH]; intros logs0 s; simpl.
  - by intros [= <- <-].
  - intros Hrun Hk. apply not_elem_of_cons in Hk as [Hne Hk].
    bind_ok Hrun logs1 s2 Hkey. bind_ok Hkey v sx Hget.
    apply py_getitem_Ok in Hget as [_ ->]. bind_ok Hkey q sy Hdiv.
    unfold py_div in Hdiv. destruct (n =? 0)%nat; [discriminate|].
    injection Hdiv as <- <-. injection Hkey as <- <-.
    destruct (IH _ _ Hrun Hk) as [-> ->]. by rewrite lookup_insert_ne.
Qed.

(** C6 (as the code has it).  What [validate] shows under [val_loss]
    after a batch is the loss of that batch alone divided by the number of
    batches seen so far; the cumulative loss goes into [total_val_loss],
    which the display does not read. *)
Theorem validate_batch_displays loc batch s loc' s' :
  validate_batch loc batch s = (Ok loc', s') ->
  let loss := g_seg_loss_of s (to_float32 batch.1) (to_float32 batch.2) in
  total_val_loss loc' = PyFloat.add (total_val_loss loc) loss /\
  vl_pbar_n loc' = S (vl_pbar_n loc) /\
  exists shown,
    last (trace s') = Some (SetPostfix "Validating" shown) /\
    shown !! "val_loss" =
      Some (PyFloat.div loss (PyFloat.of_nat (S (vl_pbar_n loc)))).
Proof.
  intros Hrun loss. unfold validate_batch in Hrun.
  bind_ok Hrun outputs s1 Hgen. unfold GanModel_generate in Hgen.
  injection Hgen as <- <-.
  change (item (value (generator_loss false _ _))) with loss in Hrun.
  destruct (check_loss_nan loss).
  { bind_ok Hrun u sx Hx. discriminate. }
  bind_ok Hrun metric s2 Hmet. bind_ok Hrun val_loss s3 Hdiv.
  unfold py_div in Hdiv. simpl in Hdiv. injection Hdiv as <- <-.
  bind_ok Hrun logs s4 Hlogs.
  apply (averaged_other _ _ _ _ _ _ _ "val_loss") in Hlogs as [Hshown ->];
    [|unfold metric_keys; intros Hin;
      repeat (apply elem_of_cons in Hin as [Hin|Hin]; [discriminate|]);
      by apply elem_of_nil in Hin].
  bind_ok Hrun u s5 Hemit. destruct u. injection Hemit as <-.
  injection Hrun as <- <-.
  simpl. split; [done|]. split; [done|].
  eexists. split; [apply last_snoc|]. by rewrite Hshown, lookup_singleton_eq.
Qed.

End ValidationProgress.

(** ** Outcomes of computations *)

Section Outcomes.
Context `{Backward}.
Local Abbreviation Py := (M (S:=GANTrainer)).
Implicit Types (s : GANTrainer).

(** Whatever state it starts in, the computation returns a value in [Q]
    or raises an exception in [P]. *)
Definition outcome {A} (Q : A -> Prop) (P : exn -> Prop) (m : Py A) : Prop :=
  forall s, match (m s).1 with Ok a => Q a | Raise e => P e end.

Lemma outcome_ret {A} (Q : A -> Prop) P a : Q a -> outcome Q P (ret a).
Proof. intros Ha s. exact Ha. Qed.

Lemma outcome_raise {A} (Q : A -> Prop) (P : exn -> Prop) e :
  P e -> outcome Q P (raise e).
Proof. intros He s. exact He. Qed.

Lemma outcome_gets {A} (Q : A -> Prop) P (f : GANTrainer -> A) :
  (forall s, Q (f s)) -> outcome Q P (gets f).
Proof. intros Hf s. apply Hf. Qed.

Lemma outcome_modify (Q : unit -> Prop) P f : Q tt -> outcome Q P (modify f).
Proof. intros Hq s. exact Hq. Qed.

Lemma outcome_bind {A B} (Q1 : A -> Prop) (Q : B -> Prop) P (m : Py A) (k : A -> Py B) :
  outcome Q1 P m -> (forall a, Q1 a -> outcome Q P (k a)) -> outcome Q P (bind m k).
Proof.
  intros Hm Hk s. unfold bind. specialize (Hm s).
  destruct (m s) as [[a|e] s1]; simpl in *; [|exact Hm].
  exact (Hk a Hm s1).
Qed.

Lemma outcome_weaken {A} (Q Q' : A -> Prop) (P P' : exn -> Prop) (m : Py A) :
  outcome Q P m -> (forall a, Q a -> Q' a) -> (forall e, P e -> P' e) ->
  outcome Q' P' m.
Proof.
  intros Hm HQ HP s. specialize (Hm s). destruct (m s).1; auto.
Qed.

(** A loop whose body keeps an invariant of the accumulator. *)
Lemma outcome_for_each {A B} (I : B -> Prop) P (body : B -> A -> Py B) xs acc :
  (forall acc x, I acc -> outcome I P (body acc x)) ->
  I acc -> outcome I P (for_each body xs acc).
Proof.
  intros Hb. revert acc. induction xs as [|x xs IH]; intros acc Hacc; simpl.
  - by apply outcome_ret.
  - eapply outcome_bind; [by apply Hb | auto].
Qed.

Lemma outcome_py_div (Q : float -> Prop) (P : exn -> Prop) x n :
  (n = 0 -> P ZeroDivisionError) ->
  (n <> 0 -> Q (PyFloat.div x (PyFloat.of_nat n))) ->
  outcome Q P (py_div x n).
Proof.
  intros Hz Hn s. unfold py_div. destruct (Nat.eqb_spec n 0); simpl; auto.
Qed.

Lemma outcome_py_getitem {V} (Q : V -> Prop) (P : exn -> Prop)
    (d : gmap string V) k :
  (forall v, d !! k = Some v -> Q v) -> (d !! k = None -> P (KeyError k)) ->
  outcome Q P (py_getitem d k).
Proof.
  intros Hv Hk s. unfold py_getitem. destruct (d !! k); simpl; auto.
Qed.

Lemma outcome_Ok {A} (Q : A -> Prop) P (m : Py A) s a s' :
  outcome Q P m -> m s = (Ok a, s') -> Q a.
Proof. intros Hm E. specialize (Hm s). by rewrite E in Hm. Qed.


(** ** The metric accumulators *)

(** A dict with the six metric keys. *)
Definition has_metric_keys (d : gmap string float) : Prop :=
  forall k, k ∈ metric_keys -> is_Some (d !! k).

Lemma add_metrics_lookup metrics metric k :
  add_metrics metrics metric !! k =
  (fun v => match metric !! k with
            | Some x => PyFloat.add v x
            | None => v
            end) <$> metrics !! k.
Proof.
  unfold add_metrics. rewrite map_lookup_imap.
  destruct (metrics !! k); reflexivity.
Qed.

Lemma zero_metrics_keys : has_metric_keys zero_metrics.
Proof.
  intros k Hk. unfold metric_keys in Hk.
  repeat (apply elem_of_cons in Hk as [->|Hk]; [vm_compute; eauto|]).
  by apply elem_of_nil in Hk.
Qed.

Lemma add_metrics_keys metrics metric :
  has_metric_keys metrics -> has_metric_keys (add_metrics metrics metric).
Proof.
  intros Hm k Hk. rewrite add_metrics_lookup.
  destruct (Hm k Hk) as [v ->]. simpl. eauto.
Qed.

(** [averaged] over keys the dict has: no [KeyError]; the result has the
    keys it started with and the averaged ones. *)
Lemma averaged_outcome metrics n keys logs0 (P : exn -> Prop) :
  (forall k, k ∈ keys -> is_Some (metrics !! k)) ->
  (n = 0 -> keys <> [] -> P ZeroDivisionError) ->
  outcome (fun logs => forall k, is_Some (logs !! k) <->
                                 k ∈ keys \/ is_Some (logs0 !! k)) P
    (averaged metrics n keys logs0).
Proof.
  unfold averaged. revert logs0.
  induction keys as [|key keys IH]; intros logs0 Hkeys Hz; simpl.
  - apply outcome_ret. intros k. rewrite elem_of_nil. tauto.
  - apply (outcome_bind (fun logs1 =>
             forall k, is_Some (logs1 !! k) <-> k = key \/ is_Some (logs0 !! k))).
    + apply (outcome_bind (fun v => True)).
      * apply outcome_py_getitem; [done|].
        intros Hnone. destruct (Hkeys key) as [v Hv]; [left|congruence].
      * intros v _. apply (outcome_bind (fun q => True)).
        -- apply outcome_py_div; [|done]. intros Hn. by apply Hz.
        -- intros q _. apply outcome_ret.
           intros k. destruct (decide (k = key)) as [->|Hne].
           ++ rewrite lookup_insert_eq. split; eauto.
           ++ rewrite lookup_insert_ne by done. split; [eauto | intros [?|?]; done].
    + intros logs1 Hlogs1.
      eapply outcome_weaken; [apply (IH logs1) | |done].
      * intros k Hk. apply Hkeys. by right.
      * intros Hn Hne. apply Hz; [done|discriminate].
      * intros logs Hlogs k. cbv beta in Hlogs.
        rewrite (Hlogs k), (Hlogs1 k), elem_of_cons. tauto.
Qed.

End Outcomes.

(** ** The validation pass *)

Section ValidationPass.
Context `{Backward}.
Local Abbreviation Py := (M (S:=GANTrainer)).
Implicit Types (s : GANTrainer).

(** What training has built: the parameters with their gradients, the
    optimizers, the schedulers, the best loss, and the layout of the
    model. *)
Definition trained_state s :=
  (parameters (model s), generator (model s), discriminator (model s),
   optimizer_G s, optimizer_D s, scheduler_G s, scheduler_D s, best_val_loss s).

(** The NaN exceptions of the two passes. *)
Definition nan_errors : list string :=
  [ "NaN in g_seg_loss"; "NaN in generator loss"; "NaN in d_real_loss";
    "NaN in d_fake_loss"; "NaN in discriminator loss"; "NaN in val_loss" ].

Lemma validation_loop_mode s :
  model (validation_loop s).2 = with_training false (model s).
Proof.
  unfold validation_loop. unfold bind at 1. cbv [model_mode modify].
  match goal with
  | |- model (?m ?s1).2 = _ => assert (keeps model m) as K by frame; rewrite (K s1)
  end.
  reflexivity.
Qed.

Lemma validate_split :
  validate =
  (loc <- validation_loop ;;
   len <- gets (fun s => loader_len (val_loader s)) ;;
   avg_val_loss <- py_div (total_val_loss loc) len ;;
   logs <- averaged (vl_metrics loc) len metric_keys ∅ ;;
   ret (avg_val_loss, <["val_loss" := avg_val_loss]> logs)).
Proof. reflexivity. Qed.

Lemma validate_batch_outcome loc batch :
  has_metric_keys (vl_metrics loc) ->
  outcome (fun loc' => has_metric_keys (vl_metrics loc'))
          (fun e => e = ValueError "NaN in val_loss")
          (validate_batch loc batch).
Proof.
  intros Hloc. unfold validate_batch.
  apply (outcome_bind (fun _ => True)); [intros s; exact I|]. intros outputs _.
  destruct (check_loss_nan _).
  { apply (outcome_bind (fun _ => True)); [intros s; exact I|]. intros _ _.
    by apply outcome_raise. }
  apply (outcome_bind (fun _ => True)); [intros s; exact I|]. intros metric _.
  apply (outcome_bind (fun _ => True)).
  { apply outcome_py_div; [discriminate|done]. }
  intros val_loss _.
  apply (outcome_bind (fun _ => True)).
  { eapply outcome_weaken; [apply averaged_outcome | done | intros e He; exact He].
    - by apply add_metrics_keys.
    - discriminate. }
  intros logs _.
  apply (outcome_bind (fun _ => True)); [intros s; exact I|]. intros _ _.
  apply outcome_ret. by apply add_metrics_keys.
Qed.

Lemma validation_loop_outcome :
  outcome (fun loc => has_metric_keys (vl_metrics loc))
          (fun e => e = ValueError "NaN in val_loss") validation_loop.
Proof.
  unfold validation_loop.
  apply (outcome_bind (fun _ => True)); [intros s; exact I|]. intros _ _.
  apply (outcome_bind (fun _ => True)); [intros s; exact I|]. intros batches _.
  apply outcome_for_each; [intros; by apply validate_batch_outcome|].
  apply zero_metrics_keys.
Qed.

Lemma validate_mode s : training (model (validate s).2) = false.
Proof.
  rewrite validate_split. unfold bind at 1.
  pose proof (validation_loop_mode s) as Hmode.
  destruct (validation_loop s) as [[loc|e] s1]; simpl in *; [|by rewrite Hmode].
  match goal with
  | |- training (model (?m s1).2) = _ =>
      assert (keeps model m) as K by frame; rewrite (K s1)
  end.
  by rewrite Hmode.
Qed.

(** X1.  Validation is read-only on what training has built: whether it
    returns or raises, [validate] leaves every parameter (contents and
    gradient), both optimizers, both schedulers and the best loss as they
    were, and it leaves the model in evaluation mode. *)
Theorem validate_is_read_only s :
  trained_state (validate s).2 = trained_state s /\
  training (model (validate s).2) = false.
Proof.
  split; [|apply validate_mode].
  assert (keeps trained_state validate) as K by frame. apply K.
Qed.

Lemma validate_batch_Ok loc batch s loc' s' :
  validate_batch loc batch s = (Ok loc', s') ->
  let loss := g_seg_loss_of s (to_float32 batch.1) (to_float32 batch.2) in
  PyFloat.isnan loss = false /\
  total_val_loss loc' = PyFloat.add (total_val_loss loc) loss /\
  vl_pbar_n loc' = S (vl_pbar_n loc).
Proof.
  intros Hrun loss. unfold validate_batch in Hrun.
  bind_ok Hrun outputs s1 Hgen. unfold GanModel_generate in Hgen.
  injection Hgen as <- <-.
  change (item (value (generator_loss false _ _))) with loss in Hrun.
  unfold check_loss_nan in Hrun. destruct (PyFloat.isnan loss).
  { bind_ok Hrun u sx Hx. discriminate. }
  bind_ok Hrun metric s2 Hmet. bind_ok Hrun val_loss s3 Hdiv.
  bind_ok Hrun logs s4 Hlogs. bind_ok Hrun u s5 Hemit.
  injection Hrun as <- _. done.
Qed.

(** The losses of a validation pass over [batches]: each batch is cast to
    float32 and its data passed through the generator in evaluation mode on
    the weights [ws]; its loss is the criterion on the output and the
    targets.  The library state goes from one forward pass to the next. *)
Fixpoint validation_losses (ws : list tensor) (st : lib_state)
    (batches : list (tensor * tensor)) : list float :=
  match batches with
  | [] => []
  | batch :: rest =>
      let r := generator_forward false ws st (to_float32 batch.1) in
      item (CombinedLoss r.1 (to_float32 batch.2)) :: validation_losses ws r.2 rest
  end.

Lemma keeps_run {A X} (proj : GANTrainer -> X) (m : Py A) s r s' :
  keeps proj m -> m s = (r, s') -> proj s' = proj s.
Proof. intros K E. specialize (K s). by rewrite E in K. Qed.

(** A validation batch leaves the model as it was, and the library in the
    state its forward pass left. *)
Lemma validate_batch_state loc batch s r s' :
  validate_batch loc batch s = (r, s') ->
  model s' = model s /\
  torch_state s' =
    (generator_forward (training (model s)) (generator_weights s).*2
       (torch_state s) (to_float32 batch.1)).2.
Proof.
  intros Hrun. split.
  { eapply (keeps_run model); [|exact Hrun]. frame. }
  unfold validate_batch in Hrun. unfold bind at 1 in Hrun.
  unfold GanModel_generate in Hrun. cbn [fst snd] in Hrun.
  match type of Hrun with
  | ?m ?s1 = _ =>
      assert (keeps torch_state m) as K by frame;
      rewrite (keeps_run torch_state m s1 r s' K Hrun)
  end.
  reflexivity.
Qed.

Lemma validate_loop_losses batches loc s loc' s' :
  training (model s) = false ->
  for_each validate_batch batches loc s = (Ok loc', s') ->
  let losses := validation_losses (generator_weights s).*2 (torch_state s) batches in
  Forall (fun l => PyFloat.isnan l = false) losses /\
  total_val_loss loc' = foldl PyFloat.add (total_val_loss loc) losses.
Proof.
  revert loc s. induction batches as [|b bs IH]; intros loc s Hmode; simpl.
  - intros [= <- _]. by split.
  - intros Hrun. bind_ok Hrun loc1 s1 Hb.
    destruct (validate_batch_state _ _ _ _ _ Hb) as [Hmodel Hst].
    apply validate_batch_Ok in Hb as (Hnan & Htot & _).
    unfold g_seg_loss_of, fake_of in Hnan, Htot. rewrite Hmode in Hnan, Htot, Hst.
    apply IH in Hrun as [Hall Hsum]; [|by rewrite Hmodel].
    unfold generator_weights in Hall, Hsum. rewrite Hmodel, Hst in Hall, Hsum.
    split; [by constructor|]. by rewrite <- Htot.
Qed.

Lemma validation_loop_len s loc s1 :
  validation_loop s = (Ok loc, s1) ->
  loader_len (val_loader s1) = loader_len (val_loader s).
Proof.
  intros Hloop.
  assert (keeps (fun s => loader_len (val_loader s)) validation_loop) as K
    by (unfold validation_loop; frame).
  specialize (K s). by rewrite Hloop in K.
Qed.


(** X2.  What [validate] returns: the losses of the batches the loader
    yields, each computed by the generator in evaluation mode on the
    weights it has when the pass starts, none of them NaN, summed in order
    from 0 and divided by [len(self.val_loader)]; the same value is stored
    under [val_loss] in the returned dict, whose other keys are exactly the
    six metric names. *)
Theorem validate_returns s v logs s' :
  validate s = (Ok (v, logs), s') ->
  let yielded := loader_iter (val_loader s) (torch_state s) in
  let losses := validation_losses (generator_weights s).*2 yielded.2 yielded.1 in
  Forall (fun l => PyFloat.isnan l = false) losses /\
  v = PyFloat.div (foldl PyFloat.add PyFloat.zero losses)
        (PyFloat.of_nat (loader_len (val_loader s))) /\
  loader_len (val_loader s) <> 0 /\
  logs !! "val_loss" = Some v /\
  (forall k, is_Some (logs !! k) <-> k = "val_loss" \/ k ∈ metric_keys).
Proof.
  rewrite validate_split. intros Hrun yielded losses.
  bind_ok Hrun loc s1 Hloop.
  pose proof (outcome_Ok _ _ _ _ _ _ validation_loop_outcome Hloop) as Hkeys.
  pose proof (validation_loop_len _ _ _ Hloop) as Hlen.
  unfold validation_loop in Hloop. cbv [model_mode modify] in Hloop.
  unfold bind at 1 in Hloop. bind_ok Hloop batches s0 Hit.
  unfold iterate in Hit. injection Hit as <- <-.
  apply validate_loop_losses in Hloop as [Hall Hsum]; [|reflexivity].
  change (Forall (fun l => PyFloat.isnan l = false) losses) in Hall.
  change (total_val_loss loc = foldl PyFloat.add PyFloat.zero losses) in Hsum.
  bind_ok Hrun len sx Hx. injection Hx as <- <-. rewrite Hlen in Hrun.
  bind_ok Hrun avg sy Hdiv. unfold py_div in Hdiv.
  destruct (Nat.eqb_spec (loader_len (val_loader s)) 0) as [|Hne]; [discriminate|].
  injection Hdiv as <- <-.
  bind_ok Hrun logs1 sz Hlogs.
  assert (forall k, is_Some (logs1 !! k) <-> k ∈ metric_keys) as Hdom.
  { pose proof (averaged_outcome (vl_metrics loc) (loader_len (val_loader s))
                  metric_keys ∅ (fun _ => True) Hkeys (fun _ _ => I)) as Ho.
    pose proof (outcome_Ok _ _ _ _ _ _ Ho Hlogs) as Hd. cbv beta in Hd.
    intros k. rewrite (Hd k), lookup_empty, is_Some_alt. tauto. }
  injection Hrun as <- <- _.
  split; [exact Hall|]. split; [by rewrite Hsum|]. split; [done|].
  split; [by rewrite lookup_insert_eq|].
  intros k. destruct (decide (k = "val_loss")) as [->|Hne'].
  - rewrite lookup_insert_eq. split; eauto.
  - rewrite lookup_insert_ne by done. rewrite Hdom. split; [eauto | intros [?|?]; done].
Qed.


End ValidationPass.

(** ** The dicts the two passes return *)

(** Membership in a list literal. *)
Ltac in_list :=
  repeat first [apply list_elem_of_here | apply list_elem_of_further].

Ltac steps_raise_frame :=
  repeat first
    [ apply raises_only_ret | apply raises_only_gets | apply raises_only_modify
    | apply raises_only_raise; simpl; solve [in_list]
    | apply raises_only_bind; [|intros ?]
    | match goal with
      | |- raises_only _ (if ?b then _ else _) => destruct b
      end
    | progress cbv [train_generator train_discriminator
                    logger_error logger_info emit optimizer_zero_grad
                    loss_backward optimizer_step]
    | apply raises_only_total; intros ?;
      cbv [GanModel_generate GanModel_discriminator]; solve [eauto] ].

Section RunErrors.
Context `{Backward}.
Local Abbreviation Py := (M (S:=GANTrainer)).
Implicit Types (s : GANTrainer).

(** The exceptions the statements of the two passes raise themselves: the
    NaN [ValueError]s, a division by a zero loader length, and the unbound
    [logs] of an empty training pass. *)
Definition train_error (e : exn) : Prop :=
  match e with
  | ValueError msg => msg ∈ nan_errors
  | ZeroDivisionError => True
  | UnboundLocalError var => var = "logs"
  | KeyError _ => False
  end.

Lemma raises_only_outcome {A} P (m : Py A) :
  raises_only P m -> outcome (fun _ => True) P m.
Proof.
  intros Hm s. destruct (m s) as [[a|e] s1] eqn:E; simpl; [done|].
  exact (Hm _ _ _ E).
Qed.

Lemma train_generator_raises data targets :
  raises_only train_error (train_generator data targets).
Proof. steps_raise_frame. Qed.

Lemma train_discriminator_raises data mask targets :
  raises_only train_error (train_discriminator data mask targets).
Proof. steps_raise_frame. Qed.

(** The accumulator of the training loop has the six metric keys, and so
    has [logs] once it is bound. *)
Definition train_locals_ok (loc : train_locals) : Prop :=
  has_metric_keys (tl_metrics loc) /\
  forall logs, tl_logs loc = Some logs -> has_metric_keys logs.

Lemma train_batch_outcome loc batch :
  train_locals_ok loc ->
  outcome train_locals_ok train_error (train_batch loc batch).
Proof.
  intros [Hloc _]. unfold train_batch.
  apply (outcome_bind (fun _ => True));
    [apply raises_only_outcome, train_generator_raises|].
  intros gen _. destruct (check_loss_nan _).
  { apply (outcome_bind (fun _ => True)); [intros s; exact I|]. intros _ _.
    apply outcome_raise. simpl. in_list. }
  apply (outcome_bind (fun _ => True));
    [apply raises_only_outcome, train_discriminator_raises|].
  intros d_loss _. destruct (check_loss_nan _).
  { apply (outcome_bind (fun _ => True)); [intros s; exact I|]. intros _ _.
    apply outcome_raise. simpl. in_list. }
  apply (outcome_bind (fun _ => True)); [intros s; exact I|]. intros metric _.
  apply (outcome_bind (fun logs => has_metric_keys logs)).
  { eapply outcome_weaken;
      [apply (averaged_outcome _ _ _ ∅ train_error); [|done]
      | | intros e He; exact He].
    - by apply add_metrics_keys.
    - intros logs Hlogs k Hk. apply Hlogs. by left. }
  intros logs Hlogs.
  apply (outcome_bind (fun _ => True)); [intros s; exact I|]. intros _ _.
  apply (outcome_bind (fun _ => True)).
  { intros s. unfold tqdm_iter_flush. by destruct (tqdm_flushes s). }
  intros flushed _. apply outcome_ret. split; simpl.
  - by apply add_metrics_keys.
  - by intros ? [= <-].
Qed.

Lemma train_one_epoch_outcome :
  outcome (fun r => has_metric_keys r.2) train_error train_one_epoch.
Proof.
  unfold train_one_epoch.
  apply (outcome_bind (fun _ => True)); [intros s; exact I|]. intros _ _.
  apply (outcome_bind (fun _ => True)); [intros s; exact I|]. intros batches _.
  apply (outcome_bind train_locals_ok).
  { apply outcome_for_each; [intros; by apply train_batch_outcome|].
    split; [apply zero_metrics_keys | intros ? [=]]. }
  intros loc [_ Hlogs].
  apply (outcome_bind (fun _ => True)); [intros s; exact I|]. intros len _.
  apply (outcome_bind (fun _ => True)); [by apply outcome_py_div|]. intros g _.
  apply (outcome_bind (fun _ => True)); [by apply outcome_py_div|]. intros d _.
  destruct (tl_logs loc) as [logs|]; [|by apply outcome_raise].
  apply outcome_ret. simpl. by apply Hlogs.
Qed.

Lemma validate_outcome :
  outcome (fun r => has_metric_keys r.2) train_error validate.
Proof.
  rewrite validate_split.
  apply (outcome_bind (fun loc => has_metric_keys (vl_metrics loc))).
  { eapply outcome_weaken; [apply validation_loop_outcome | done |].
    intros e ->. simpl. in_list. }
  intros loc Hkeys.
  apply (outcome_bind (fun _ => True)); [intros ?; exact I|]. intros len _.
  apply (outcome_bind (fun _ => True)); [by apply outcome_py_div|].
  intros avg _. apply (outcome_bind has_metric_keys).
  { eapply outcome_weaken;
      [apply (averaged_outcome _ _ _ ∅ train_error Hkeys); done | | done].
    intros logs Hlogs k Hk. apply Hlogs. by left. }
  intros logs Hlogs. apply outcome_ret. simpl. intros k Hk.
  destruct (decide (k = "val_loss")) as [->|Hne].
  - rewrite lookup_insert_eq. eauto.
  - rewrite lookup_insert_ne by done. by apply Hlogs.
Qed.


Lemma log_to_csv_outcome epoch g d v logs tlogs :
  has_metric_keys logs -> has_metric_keys tlogs ->
  outcome (fun _ => True) (fun _ => False) (_log_to_csv epoch g d v logs tlogs).
Proof.
  intros Hl Ht s.
  assert (forall k, k ∈ metric_keys -> exists x, logs !! k = Some x) as Hl'
    by (intros k Hk; destruct (Hl k Hk); eauto).
  assert (forall k, k ∈ metric_keys -> exists x, tlogs !! k = Some x) as Ht'
    by (intros k Hk; destruct (Ht k Hk); eauto).
  destruct (Ht' "mean_iou") as [a1 A1]; [unfold metric_keys; in_list|].
  destruct (Ht' "recall") as [a2 A2]; [unfold metric_keys; in_list|].
  destruct (Ht' "precision") as [a3 A3]; [unfold metric_keys; in_list|].
  destruct (Ht' "accuracy") as [a4 A4]; [unfold metric_keys; in_list|].
  destruct (Ht' "dice") as [a5 A5]; [unfold metric_keys; in_list|].
  destruct (Ht' "f2") as [a6 A6]; [unfold metric_keys; in_list|].
  destruct (Hl' "mean_iou") as [b1 B1]; [unfold metric_keys; in_list|].
  destruct (Hl' "recall") as [b2 B2]; [unfold metric_keys; in_list|].
  destruct (Hl' "precision") as [b3 B3]; [unfold metric_keys; in_list|].
  destruct (Hl' "accuracy") as [b4 B4]; [unfold metric_keys; in_list|].
  destruct (Hl' "dice") as [b5 B5]; [unfold metric_keys; in_list|].
  destruct (Hl' "f2") as [b6 B6]; [unfold metric_keys; in_list|].
  unfold _log_to_csv, bind, py_getitem, ret, raise.
  rewrite A1, A2, A3, A4, A5, A6, B1, B2, B3, B4, B5, B6.
  match goal with
  | |- context [DictWriter_row ?f ?rowdict s] =>
      let r := eval vm_compute in (DictWriter_row f rowdict s) in
      change (DictWriter_row f rowdict s) with r
  end.
  exact I.
Qed.

End RunErrors.

(** ** What the training pass returns *)

Section TrainingReturns.
Context `{Backward}.
Local Abbreviation Py := (M (S:=GANTrainer)).
Implicit Types (s : GANTrainer).

(** The two losses of a batch that starts in state [s]: the generator's
    segmentation loss on the weights of [s], and the discriminator's loss
    (real plus fake cross-entropy) once the generator has been updated,
    on the mask the generator produced before its update. *)
Definition batch_losses s (batch : tensor * tensor) : float * float :=
  let data := to_float32 batch.1 in
  let targets := to_float32 batch.2 in
  (g_seg_loss_of s data targets,
   item (d_loss_of (generator_step_done s data targets) data (fake_of s data) targets)).

(** The losses of a training pass over [batches] from state [s]: each batch
    starts in the state the batch before it has left. *)
Fixpoint training_losses (batches : list (tensor * tensor)) (loc : train_locals) s
  : list (float * float) :=
  match batches with
  | [] => []
  | batch :: rest =>
      let r := train_batch loc batch s in
      batch_losses s batch ::
      match r.1 with
      | Ok loc' => training_losses rest loc' r.2
      | Raise _ => []
      end
  end.

Lemma train_batch_losses loc batch s loc' s' :
  train_batch loc batch s = (Ok loc', s') ->
  PyFloat.isnan (batch_losses s batch).1 = false /\
  PyFloat.isnan (batch_losses s batch).2 = false /\
  total_g_loss loc' = PyFloat.add (total_g_loss loc) (batch_losses s batch).1 /\
  total_d_loss loc' = PyFloat.add (total_d_loss loc) (batch_losses s batch).2.
Proof.
  unfold train_batch, batch_losses. cbn [fst snd]. intros Hrun.
  bind_ok Hrun gen s1 Hgen. rewrite train_generator_eq in Hgen.
  destruct (check_loss_nan (g_seg_loss_of _ _ _)) eqn:Hg; [discriminate|].
  injection Hgen as <- <-. cbn [fst snd] in Hrun. rewrite Hg in Hrun.
  bind_ok Hrun d_loss s2 Hdis. rewrite train_discriminator_eq in Hdis.
  cbv zeta in Hdis. cbn [value fake_handle_of] in Hdis.
  destruct (check_loss_nan (item (d_real_loss_of _ _ _))); [discriminate|].
  destruct (check_loss_nan (item (d_fake_loss_of _ _ _ _))); [discriminate|].
  injection Hdis as <- <-.
  destruct (check_loss_nan (item (d_loss_of _ _ _ _))) eqn:Hd.
  { bind_ok Hrun u sx Hx. discriminate. }
  bind_ok Hrun metric s3 Hmet. bind_ok Hrun logs s4 Hlogs.
  bind_ok Hrun u s5 Hemit. bind_ok Hrun flushed s6 Hflush.
  injection Hrun as <- _. simpl. done.
Qed.

Lemma train_loop_losses batches loc s loc' s' :
  for_each train_batch batches loc s = (Ok loc', s') ->
  length (training_losses batches loc s) = length batches /\
  Forall (fun l => PyFloat.isnan l = false) (training_losses batches loc s).*1 /\
  Forall (fun l => PyFloat.isnan l = false) (training_losses batches loc s).*2 /\
  total_g_loss loc' =
    foldl PyFloat.add (total_g_loss loc) (training_losses batches loc s).*1 /\
  total_d_loss loc' =
    foldl PyFloat.add (total_d_loss loc) (training_losses batches loc s).*2.
Proof.
  revert loc s. induction batches as [|b bs IH]; intros loc s.
  - intros [= <- _]. repeat split; constructor.
  - cbn [for_each training_losses]. intros Hrun.
    bind_ok Hrun loc1 s1 Hb. rewrite Hb. cbn [fst snd].
    apply train_batch_losses in Hb as (Hg & Hd & Htg & Htd).
    apply IH in Hrun as (Hlen & Hgs & Hds & Hsg & Hsd).
    rewrite !fmap_cons. cbn [length foldl]. rewrite Hlen, <- Htg, <- Htd.
    repeat split; try done; by constructor.
Qed.

(** The accumulator of the training loop, with [logs] holding exactly the
    six metric keys once bound. *)
Definition train_locals_exact (loc : train_locals) : Prop :=
  has_metric_keys (tl_metrics loc) /\
  forall logs, tl_logs loc = Some logs ->
               forall k, is_Some (logs !! k) <-> k ∈ metric_keys.

Lemma train_batch_exact loc batch :
  train_locals_exact loc ->
  outcome train_locals_exact (fun _ => True) (train_batch loc batch).
Proof.
  intros [Hloc _]. unfold train_batch.
  apply (outcome_bind (fun _ => True)); [intros s; by destruct (_ s).1|].
  intros gen _. destruct (check_loss_nan _).
  { apply (outcome_bind (fun _ => True)); [intros s; exact I|]. intros _ _.
    by apply outcome_raise. }
  apply (outcome_bind (fun _ => True)); [intros s; by destruct (_ s).1|].
  intros d_loss _. destruct (check_loss_nan _).
  { apply (outcome_bind (fun _ => True)); [intros s; exact I|]. intros _ _.
    by apply outcome_raise. }
  apply (outcome_bind (fun _ => True)); [intros s; exact I|]. intros metric _.
  apply (outcome_bind (fun logs => forall k, is_Some (logs !! k) <-> k ∈ metric_keys)).
  { eapply outcome_weaken;
      [apply (averaged_outcome _ _ _ ∅ (fun _ => True)); [|done] | | done].
    - by apply add_metrics_keys.
    - intros logs Hlogs k. rewrite (Hlogs k), lookup_empty, is_Some_alt. tauto. }
  intros logs Hlogs.
  apply (outcome_bind (fun _ => True)); [intros s; exact I|]. intros _ _.
  apply (outcome_bind (fun _ => True)).
  { intros s. unfold tqdm_iter_flush. by destruct (tqdm_flushes s). }
  intros flushed _. apply outcome_ret. split; simpl.
  - by apply add_metrics_keys.
  - by intros ? [= <-].
Qed.

(** X5.  What [train_one_epoch] returns: the generator losses of the
    batches the loader yields, each batch starting in the state the batch
    before it has left, none of them NaN, summed in order from 0 and
    divided by [len(self.train_loader)]; the same for the discriminator
    losses; and a dict with exactly the six metric keys.  It returns only
    when the loader has yielded a batch and has a non-zero length. *)
Theorem train_one_epoch_returns s g d logs s' :
  train_one_epoch s = (Ok (g, d, logs), s') ->
  let yielded := loader_iter (train_loader s) (torch_state s) in
  let len := loader_len (train_loader s) in
  let s0 := set_torch_state yielded.2 (set_model (with_training true (model s)) s) in
  let losses := training_losses yielded.1 train_locals_init s0 in
  length losses = length yielded.1 /\
  Forall (fun l => PyFloat.isnan l = false) losses.*1 /\
  Forall (fun l => PyFloat.isnan l = false) losses.*2 /\
  g = PyFloat.div (foldl PyFloat.add PyFloat.zero losses.*1) (PyFloat.of_nat len) /\
  d = PyFloat.div (foldl PyFloat.add PyFloat.zero losses.*2) (PyFloat.of_nat len) /\
  yielded.1 <> [] /\ len <> 0 /\
  (forall k, is_Some (logs !! k) <-> k ∈ metric_keys).
Proof.
  rewrite train_one_epoch_split. intros Hrun yielded len s0 losses.
  bind_ok Hrun loc s1 Hloop.
  assert (loader_len (train_loader s1) = len) as Hlen.
  { pose proof (training_loop_keeps s) as K. rewrite Hloop in K.
    unfold run_settings in K. simpl in K. unfold len. congruence. }
  rewrite training_loop_eq in Hloop. fold yielded s0 in Hloop.
  assert (train_locals_exact loc) as [_ Hexact].
  { eapply (outcome_Ok train_locals_exact (fun _ => True)); [|exact Hloop].
    apply outcome_for_each; [intros; by apply train_batch_exact|].
    split; [apply zero_metrics_keys | intros ? [=]]. }
  pose proof Hloop as Hloop'.
  apply train_loop_losses in Hloop as (Hl & Hgs & Hds & Hsg & Hsd).
  fold losses in Hl, Hgs, Hds, Hsg, Hsd.
  bind_ok Hrun n sx Hx. injection Hx as <- <-. rewrite Hlen in Hrun.
  bind_ok Hrun avg_g sy Hdg. bind_ok Hrun avg_d sz Hdd.
  unfold py_div in Hdg, Hdd.
  destruct (Nat.eqb_spec len 0) as [|Hne]; [discriminate|].
  injection Hdg as <- <-. injection Hdd as <- <-.
  destruct (tl_logs loc) as [logs0|] eqn:Hlogs; [|discriminate].
  injection Hrun as <- <- <- _.
  split; [exact Hl|]. split; [exact Hgs|]. split; [exact Hds|].
  split; [by rewrite Hsg|]. split; [by rewrite Hsd|].
  split; [|split; [done | by apply Hexact]].
  intros Hnil. rewrite Hnil in Hloop'. simpl in Hloop'.
  injection Hloop' as <- _. discriminate.
Qed.


(** The error record and the exception of the generator-loss check of
    [train_one_epoch]. *)
Definition generator_nan_record : event :=
  Log ERROR (Text "NaN detected in generator loss. Stopping training.").

Definition generator_nan_error : exn := ValueError "NaN in generator loss".

Lemma raises_only_py_div_zero (P : exn -> Prop) x n :
  P ZeroDivisionError -> raises_only P (py_div x n).
Proof.
  intros Hz s e s'. unfold py_div.
  destruct (n =? 0)%nat; [intros [= <- _]; exact Hz | intros [=]].
Qed.

(** A batch after its generator step: either the step has raised, or the
    loss it returned has passed the NaN test of the step, and the batch
    goes on with the discriminator. *)
Lemma train_batch_cases loc batch s :
  let data := to_float32 batch.1 in
  let targets := to_float32 batch.2 in
  exists m : Py train_locals,
    raises_only (fun e => e <> generator_nan_error) m /\
    emits (fun e => e <> generator_nan_record) m /\
    train_batch loc batch s =
      if check_loss_nan (g_seg_loss_of s data targets)
      then (Raise (ValueError "NaN in g_seg_loss"), generator_step_failed s data)
      else m (generator_step_done s data targets).
Proof.
  intros data targets. unfold train_batch. fold data targets.
  unfold bind at 1. rewrite train_generator_eq.
  destruct (check_loss_nan (g_seg_loss_of s data targets)) eqn:Hg.
  { exists (ret loc). split; [apply raises_only_ret|]. split; [apply emits_ret | done]. }
  cbn [fst snd]. rewrite Hg.
  eexists. split; [|split; [|reflexivity]].
  - raises_frame.
  - emits_frame. all: apply emits_emit; discriminate.
Qed.

(** X6.  The NaN test that [train_one_epoch] applies to the generator loss
    can never fire: [train_generator] has applied the same test to the
    same scalar and raised.  No batch and no training pass raises
    [ValueError("NaN in generator loss")], and the training pass never
    writes the error record of that test. *)
Theorem generator_nan_check_is_unreachable :
  (forall s loc batch e s',
     train_batch loc batch s = (Raise e, s') -> e <> generator_nan_error) /\
  (forall s e s',
     train_one_epoch s = (Raise e, s') -> e <> generator_nan_error) /\
  (forall s, exists evs,
     trace (train_one_epoch s).2 = trace s ++ evs /\
     Forall (fun e => e <> generator_nan_record) evs).
Proof.
  assert (forall loc batch,
            raises_only (fun e => e <> generator_nan_error) (train_batch loc batch))
    as Hraise.
  { intros loc batch s e s' Hrun.
    destruct (train_batch_cases loc batch s) as (m & Hm & _ & E).
    rewrite E in Hrun. destruct (check_loss_nan _).
    - by injection Hrun as <- _.
    - by eapply Hm. }
  assert (forall loc batch,
            emits (fun e => e <> generator_nan_record) (train_batch loc batch))
    as Hemit.
  { intros loc batch s.
    destruct (train_batch_cases loc batch s) as (m & _ & Hm & ->).
    destruct (check_loss_nan _).
    - eexists. split; [reflexivity|]. by constructor.
    - destruct (Hm (generator_step_done s (to_float32 batch.1) (to_float32 batch.2)))
        as (evs & -> & Hevs).
      by exists evs. }
  split; [intros s loc batch; apply Hraise|]. split.
  - rewrite train_one_epoch_split.
    intros s e s' Hrun.
    apply bind_Raise_inv in Hrun as [Hrun|(loc & s1 & _ & Hrun)].
    { rewrite training_loop_eq in Hrun.
      eapply (raises_only_for_each (fun e => e <> generator_nan_error));
        [|exact Hrun]. exact Hraise. }
    eapply (raises_only_bind (fun e => e <> generator_nan_error)); [| |exact Hrun].
    { apply raises_only_gets. }
    intros len.
    apply raises_only_bind; [by apply raises_only_py_div_zero|]. intros avg_g.
    apply raises_only_bind; [by apply raises_only_py_div_zero|]. intros avg_d.
    destruct (tl_logs loc); [apply raises_only_ret | by apply raises_only_raise].
  - assert (emits (fun e => e <> generator_nan_record) train_one_epoch) as Ho.
    { unfold train_one_epoch.
      apply emits_bind; [apply emits_silent; unfold model_mode; frame|]. intros _.
      apply emits_bind; [apply emits_silent; frame|]. intros batches.
      apply emits_bind; [apply emits_for_each; intros; apply Hemit|]. intros loc.
      apply emits_bind; [apply emits_gets|]. intros len.
      apply emits_bind; [apply emits_silent, keeps_py_div|]. intros avg_g.
      apply emits_bind; [apply emits_silent, keeps_py_div|]. intros avg_d.
      destruct (tl_logs loc); [apply emits_ret | apply emits_raise]. }
    exact Ho.
Qed.

End TrainingReturns.

(** ** Model selection over a run *)

Section BestModel.
Context `{Backward}.
Implicit Types (s : GANTrainer) (b v x : float) (vals : list float).

Lemma lt_irrefl x : PyFloat.lt x x = false.
Proof.
  unfold PyFloat.lt. rewrite FloatAxioms.ltb_spec. unfold SFltb.
  destruct (Prim2SF x) as [[]| [] | | [] m e]; simpl; try reflexivity.
  all: rewrite Z.compare_refl;
    change (Pos.compare_cont Eq m m) with (Pos.compare m m);
    rewrite Pos.compare_refl; reflexivity.
Qed.

Lemma running_best_snoc b vals v :
  running_best b (vals ++ [v]) =
  if PyFloat.lt v (running_best b vals) then v else running_best b vals.
Proof. unfold running_best. by rewrite foldl_app. Qed.

(** Below the running best is below the value it started from. *)
Lemma lt_running_best_start x b vals :
  PyFloat.lt x (running_best b vals) = true -> PyFloat.lt x b = true.
Proof.
  revert b. induction vals as [|v vals IH]; intros b; simpl; [done|].
  intros Hx. apply IH in Hx. destruct (PyFloat.lt v b) eqn:Hvb; [|done].
  by eapply lt_trans.
Qed.

(** No loss seen is below the running best. *)
Lemma running_best_least b vals v :
  v ∈ vals -> PyFloat.lt v (running_best b vals) = false.
Proof.
  revert b. induction vals as [|w vals IH]; intros b Hv; [by apply elem_of_nil in Hv|].
  apply elem_of_cons in Hv as [<-|Hv]; simpl; [|by apply IH].
  destruct (PyFloat.lt v (running_best _ vals)) eqn:Hlt; [|done].
  apply lt_running_best_start in Hlt.
  destruct (PyFloat.lt v b) eqn:Hvb; [by rewrite lt_irrefl in Hlt | congruence].
Qed.

(** The best checkpoint is among an epoch's files when its loss was below
    the best so far. *)
Lemma expected_obs_best last best k b outs i o :
  best <> last ->
  expected_obs last best k b outs !! i = Some o ->
  best ∈ eo_files o <->
  PyFloat.lt (eo_val_loss o) (running_best b (take i outs.*1)) = true.
Proof.
  intros Hne Ho. apply expected_obs_lookup in Ho as [_ ->].
  rewrite elem_of_cons. destruct (PyFloat.lt _ _); split.
  - done.
  - intros _. right. apply list_elem_of_here.
  - intros [E|E]; [done | by apply elem_of_nil in E].
  - done.
Qed.

Lemma expected_obs_length last best k b outs :
  length (expected_obs last best k b outs) = length outs.
Proof. by rewrite <- (length_fmap eo_val_loss), expected_obs_vals, length_fmap. Qed.

(** Some epoch writes the best checkpoint exactly when some loss is below
    the starting value. *)
Lemma expected_obs_some_best last best k b outs :
  best <> last ->
  (exists i o, expected_obs last best k b outs !! i = Some o /\ best ∈ eo_files o) <->
  (exists v, v ∈ outs.*1 /\ PyFloat.lt v b = true).
Proof.
  intros Hne. revert k b. induction outs as [|out outs IH]; intros k b.
  - split; [by intros (i & o & Ho & _) | intros (v & Hv & _); by apply elem_of_nil in Hv].
  - destruct (PyFloat.lt out.1 b) eqn:Hlt.
    + split; intros _.
      * exists out.1. split; [apply list_elem_of_here | done].
      * exists 0. eexists. split; [reflexivity|]. simpl. rewrite Hlt.
        apply list_elem_of_further, list_elem_of_here.
    + split.
      * intros (i & o & Ho & Hbest). destruct i as [|i]; simpl in Ho.
        { injection Ho as <-. simpl in Hbest. rewrite Hlt in Hbest.
          apply list_elem_of_singleton in Hbest. done. }
        rewrite Hlt in Ho.
        destruct (proj1 (IH (S k) b)) as (v & Hv & Hvb); [eauto|].
        exists v. split; [by apply list_elem_of_further | done].
      * intros (v & Hv & Hvb). simpl in Hv.
        apply elem_of_cons in Hv as [->|Hv]; [congruence|].
        destruct (proj2 (IH (S k) b)) as (i & o & Ho & Hbest); [eauto|].
        exists (S i), o. simpl. rewrite Hlt. done.
Qed.

(** When no epoch writes the best checkpoint the best loss stays. *)
Lemma expected_obs_no_best last best k b outs :
  best <> last ->
  (forall i o, expected_obs last best k b outs !! i = Some o -> best ∉ eo_files o) ->
  running_best b outs.*1 = b.
Proof.
  intros Hne. revert k b. induction outs as [|out outs IH]; intros k b Hno; [done|].
  simpl. destruct (PyFloat.lt out.1 b) eqn:Hlt.
  - exfalso. apply (Hno 0 _ eq_refl). simpl. rewrite Hlt.
    apply list_elem_of_further, list_elem_of_here.
  - apply (IH (S k)). intros i o Ho. apply (Hno (S i)). simpl. by rewrite Hlt.
Qed.

(** The loss of the last epoch that wrote the best checkpoint is the final
    best loss. *)
Lemma expected_obs_last_best last best k b outs i o :
  best <> last ->
  expected_obs last best k b outs !! i = Some o ->
  best ∈ eo_files o ->
  (forall j o', i < j -> expected_obs last best k b outs !! j = Some o' ->
                best ∉ eo_files o') ->
  eo_val_loss o = running_best b outs.*1.
Proof.
  intros Hne. revert k b i. induction outs as [|out outs IH]; intros k b i; [done|].
  destruct i as [|i]; simpl.
  - intros [= <-]. simpl. destruct (PyFloat.lt out.1 b) eqn:Hlt.
    + intros _ Hlater. symmetry. apply (expected_obs_no_best last best (S k)); [done|].
      intros j o' Ho'. apply (Hlater (S j)); [lia | done].
    + intros Hin. apply list_elem_of_singleton in Hin. done.
  - intros Ho Hin Hlater. apply (IH _ _ _ Ho Hin).
    intros j o' Hj Ho'. apply (Hlater (S j)); [lia | done].
Qed.


(** A completed run from a fresh trainer, as the trace shows it. *)
Lemma fresh_run_observed cfg mdl data_train data_val names now fresh_metrics
    lib flushes s' :
  let s0 := GANTrainer_init cfg mdl data_train data_val names now
              fresh_metrics lib flushes in
  train s0 = (Ok tt, s') ->
  exists outs,
    length outs = num_epochs cfg /\
    epochs_observed (trace s') =
      expected_obs (last_model_path s0) (best_model_path s0) 0 PyFloat.inf outs /\
    best_val_loss s' = running_best PyFloat.inf outs.*1.
Proof.
  intros s0 Hrun.
  apply train_run in Hrun as (outs & Hlen & Hrun).
  apply run_observed in Hrun as (Hobs & _ & Hbest).
  exists outs. split; [exact Hlen|]. split; [exact Hobs | exact Hbest].
Qed.

(** X7.  In a completed run from a fresh trainer, [best_gan_model.pth] is
    written in some epoch if and only if some epoch's validation loss is
    below positive infinity: a run whose validation losses are all [+inf]
    or NaN, or a run of zero epochs, leaves no best checkpoint. *)
Theorem best_checkpoint_exists_iff cfg mdl data_train data_val names now
    fresh_metrics lib flushes s' :
  let s0 := GANTrainer_init cfg mdl data_train data_val names now
              fresh_metrics lib flushes in
  train s0 = (Ok tt, s') ->
  let obs := epochs_observed (trace s') in
  (exists i o, obs !! i = Some o /\ best_model_path s0 ∈ eo_files o) <->
  (exists i o, obs !! i = Some o /\
               PyFloat.lt (eo_val_loss o) PyFloat.inf = true).
Proof.
  intros s0 Hrun obs.
  apply fresh_run_observed in Hrun as (outs & _ & Hobs & _). fold s0 in Hobs.
  unfold obs. rewrite Hobs.
  rewrite (expected_obs_some_best _ _ _ _ _ (last_best_paths_differ s0)).
  rewrite <- (expected_obs_vals (last_model_path s0) (best_model_path s0) 0
                PyFloat.inf outs).
  split.
  - intros (v & Hv & Hlt). apply list_elem_of_fmap in Hv as (o & -> & Ho).
    apply list_elem_of_lookup in Ho as [i Ho]. eauto.
  - intros (i & o & Ho & Hlt). exists (eo_val_loss o). split; [|done].
    apply list_elem_of_fmap. exists o. split; [done|].
    by eapply list_elem_of_lookup_2.
Qed.

(** X8.  After a completed run from a fresh trainer no epoch's validation
    loss is below the final [best_val_loss]; the last epoch that wrote
    [best_gan_model.pth] is the one whose validation loss is the final
    best, so the file left on disk is from an epoch no other epoch beat;
    and when no epoch wrote it the best loss is still positive infinity. *)
Theorem final_best_is_minimal cfg mdl data_train data_val names now
    fresh_metrics lib flushes s' :
  let s0 := GANTrainer_init cfg mdl data_train data_val names now
              fresh_metrics lib flushes in
  train s0 = (Ok tt, s') ->
  let obs := epochs_observed (trace s') in
  (forall o, o ∈ obs -> PyFloat.lt (eo_val_loss o) (best_val_loss s') = false) /\
  (forall i o,
     obs !! i = Some o -> best_model_path s0 ∈ eo_files o ->
     (forall j o', i < j -> obs !! j = Some o' ->
                   best_model_path s0 ∉ eo_files o') ->
     eo_val_loss o = best_val_loss s') /\
  ((forall i o, obs !! i = Some o -> best_model_path s0 ∉ eo_files o) ->
   best_val_loss s' = PyFloat.inf).
Proof.
  intros s0 Hrun obs.
  apply fresh_run_observed in Hrun as (outs & _ & Hobs & Hbest). fold s0 in Hobs.
  unfold obs. rewrite Hobs, Hbest. split; [|split].
  - intros o Ho. apply running_best_least.
    rewrite <- (expected_obs_vals (last_model_path s0) (best_model_path s0) 0
                  PyFloat.inf outs).
    apply list_elem_of_fmap. eauto.
  - intros i o Ho Hin Hlater.
    eapply expected_obs_last_best; eauto using last_best_paths_differ.
  - intros Hno. eapply expected_obs_no_best; eauto using last_best_paths_differ.
Qed.

End BestModel.

(** ** The end of an epoch and of a run *)

Section RunEnd.
Context `{Backward}.
Local Abbreviation Py := (M (S:=GANTrainer)).
Implicit Types (s : GANTrainer).

(** The part of an epoch of [train] that follows the two passes. *)
Definition epoch_end (epoch : nat) (tr : float * float * gmap string float)
    (va : float * gmap string float) : Py unit :=
  let train_g_loss := tr.1.1 in
  let train_d_loss := tr.1.2 in
  let train_log := tr.2 in
  let val_loss := va.1 in
  let logs := va.2 in
  n_epochs <- gets (fun s => num_epochs (config s)) ;;
  m_iou <- py_getitem logs "mean_iou" ;;
  m_dice <- py_getitem logs "dice" ;;
  m_recall <- py_getitem logs "recall" ;;
  m_precision <- py_getitem logs "precision" ;;
  m_accuracy <- py_getitem logs "accuracy" ;;
  m_f2 <- py_getitem logs "f2" ;;
  logger_info (EpochSummary (epoch + 1) n_epochs train_g_loss train_d_loss val_loss
                 m_iou m_dice m_recall m_precision m_accuracy m_f2) ;;;
  _log_to_csv (epoch + 1) train_g_loss train_d_loss val_loss logs train_log ;;;
  best <- gets best_val_loss ;;
  is_best <- (if PyFloat.lt val_loss best
              then modify (set_best_val_loss val_loss) ;;; ret true
              else ret false) ;;
  dir <- gets log_dir ;;
  save_model dir is_best ;;;
  scheduler_step G ;;;
  scheduler_step D.

Lemma train_epoch_split u epoch :
  train_epoch u epoch =
  (tr <- train_one_epoch ;; va <- validate ;; epoch_end epoch tr va).
Proof. reflexivity. Qed.

(** The file a checkpoint path holds after the events of a trace: the
    weights of the last save to that path. *)
Definition checkpoint_event (path : string) (file : option (gmap nat tensor))
    (e : event) : option (gmap nat tensor) :=
  match e with
  | SaveCheckpoint p w | SaveBestCheckpoint p w =>
      if decide (p = path) then Some w else file
  | _ => file
  end.

Definition checkpoint_contents (path : string) (tr : list event)
  : option (gmap nat tensor) :=
  foldl (checkpoint_event path) None tr.

Lemma epoch_end_keeps epoch tr va :
  keeps (fun s => (model s, config s, log_dir s)) (epoch_end epoch tr va).
Proof. unfold epoch_end. frame. Qed.

(** A completed [epoch_end] has saved the model it was given, last. *)
Lemma epoch_end_Ok epoch tr va s2 s' :
  epoch_end epoch tr va s2 = (Ok tt, s') ->
  weights_dir s' = Some (weights_dir_of s2) /\
  exists evs is_best, trace s' = trace s2 ++ evs ++ save_events s2 is_best.
Proof.
  unfold epoch_end. intros Hrun.
  bind_ok Hrun n_epochs sx Hx. injection Hx as <- <-.
  do 6 (let v := fresh "m" in let sy := fresh "sy" in let Hy := fresh "Hy" in
        apply bind_Ok_inv in Hrun as (v & sy & Hy & Hrun);
        apply py_getitem_Ok in Hy as [_ ->]).
  bind_ok Hrun u1 s3 Hlog. destruct u1. injection Hlog as <-.
  bind_ok Hrun u2 s4 Hcsv. destruct u2.
  apply log_to_csv_Ok in Hcsv
    as (b1 & b2 & b3 & b4 & b5 & b6 & a1 & a2 & a3 & a4 & a5 & a6 & ->).
  bind_ok Hrun best sx Hx. injection Hx as <- <-.
  bind_ok Hrun is_best s5 Hsel.
  bind_ok Hrun dir sx Hx. injection Hx as <- <-.
  bind_ok Hrun u3 s6 Hsave. destruct u3. rewrite save_model_eq in Hsave.
  injection Hsave as <-.
  bind_ok Hrun u4 s7 HG. destruct u4.
  apply scheduler_step_Ok in HG as (sG & oG & HG & ->).
  apply scheduler_step_Ok in Hrun as (sD & oD & HD & ->).
  clear HG HD. simpl_state.
  assert (trace s5 = trace s2 ++
            [ Log INFO (EpochSummary (epoch + 1) (num_epochs (config s2))
                          tr.1.1 tr.1.2 va.1 m m0 m1 m2 m3 m4);
              CsvAppend (csv_file s2)
                (csv_row (epoch + 1) tr.1.1 tr.1.2 va.1 b1 b2 b3 b4 b5 b6
                   a1 a2 a3 a4 a5 a6) ] /\
          weights_dir_of s5 = weights_dir_of s2 /\
          last_model_path s5 = last_model_path s2 /\
          best_model_path s5 = best_model_path s2 /\
          model s5 = model s2) as (Htr & Hw & Hl & Hb & Hm).
  { revert Hsel. simpl_state.
    destruct (PyFloat.lt _ _); cbv [bind modify ret]; intros [= <- <-];
      unfold last_model_path, best_model_path, weights_dir_of; simpl_state;
      rewrite <- app_assoc; done. }
  clear Hsel. split; [by rewrite Hw|].
  exists [ Log INFO (EpochSummary (epoch + 1) (num_epochs (config s2))
                       tr.1.1 tr.1.2 va.1 m m0 m1 m2 m3 m4);
           CsvAppend (csv_file s2)
             (csv_row (epoch + 1) tr.1.1 tr.1.2 va.1 b1 b2 b3 b4 b5 b6
                a1 a2 a3 a4 a5 a6) ], is_best.
  assert (save_events s5 is_best = save_events s2 is_best) as ->
    by (unfold save_events; by rewrite Hw, Hl, Hb, Hm).
  by rewrite Htr, <- app_assoc.
Qed.

Lemma checkpoint_after_save path (tr : list event) s is_best :
  path = last_model_path s ->
  checkpoint_contents path (tr ++ save_events s is_best) = Some (weights (model s)).
Proof.
  intros ->. unfold checkpoint_contents, save_events. rewrite !foldl_app.
  simpl. rewrite decide_True by done.
  destruct is_best; simpl; [|done].
  by destruct (decide _).
Qed.

(** X9.  After a completed run of at least one epoch, [last_model.pth]
    holds the weights the model has when [train] returns, the model is in
    evaluation mode, and [weights_dir] is the [weights] directory of the
    run's log directory.  A run of zero epochs writes the start-up record
    only: no checkpoint, and [weights_dir] is left as it was. *)
Theorem last_checkpoint_is_final_model s s' :
  train s = (Ok tt, s') ->
  (num_epochs (config s) = 0 ->
   trace s' = trace s ++ [Log INFO (Text "Starting training...")] /\
   weights_dir s' = weights_dir s /\ model s' = model s) /\
  (num_epochs (config s) <> 0 ->
   checkpoint_contents (last_model_path s) (trace s') = Some (weights (model s')) /\
   weights_dir s' = Some (weights_dir_of s) /\
   training (model s') = false).
Proof.
  unfold train. cbv [bind logger_info emit modify gets]. intros Hrun.
  change (num_epochs (config (set_trace _ s))) with (num_epochs (config s)) in Hrun.
  split.
  - intros Hz. rewrite Hz in Hrun. simpl in Hrun. injection Hrun as <-. done.
  - intros Hne. destruct (num_epochs (config s)) as [|n]; [done|]. clear Hne.
    rewrite seq_S, for_each_app in Hrun. simpl in Hrun.
    bind_ok Hrun u0 s1 Hfirst.
    assert (weights_dir_of s1 = weights_dir_of s /\
            last_model_path s1 = last_model_path s) as [Hw Hl].
    { match type of Hfirst with
      | ?m ?s0 = _ =>
          assert (keeps (fun s => (config s, log_dir s)) m) as K
            by (apply keeps_for_each; intros ? ?; frame);
          specialize (K s0); rewrite Hfirst in K
      end.
      injection K as Kc Kd.
      unfold last_model_path, weights_dir_of. by rewrite Kc, Kd. }
    bind_ok Hrun u s3 Hlast. injection Hrun as -> ->.
    rewrite train_epoch_split in Hlast.
    bind_ok Hlast tr sa Htr. bind_ok Hlast va s2 Hva.
    pose proof (validate_mode sa) as Hmode. rewrite Hva in Hmode. simpl in Hmode.
    assert (config s2 = config s1 /\ log_dir s2 = log_dir s1) as [Kc Kd].
    { pose proof (train_one_epoch_keeps s1) as K1. rewrite Htr in K1.
      pose proof (validate_keeps sa) as K2. rewrite Hva in K2.
      unfold run_settings in K1, K2. simpl in K1, K2. split; congruence. }
    pose proof (epoch_end_keeps n tr va s2) as K. rewrite Hlast in K.
    injection K as Km _ _.
    apply epoch_end_Ok in Hlast as (Hdir & evs & is_best & Htrace).
    assert (weights_dir_of s2 = weights_dir_of s1 /\
            last_model_path s2 = last_model_path s1) as [Hw2 Hl2]
      by (unfold last_model_path, weights_dir_of; by rewrite Kc, Kd).
    split; [|split].
    + rewrite Htrace, app_assoc, Km. apply checkpoint_after_save. congruence.
    + congruence.
    + by rewrite Km.
Qed.

End RunEnd.

(** ** The rest of an epoch *)

Section EpochEnd.
Context `{Backward}.
Local Abbreviation Py := (M (S:=GANTrainer)).
Implicit Types (s : GANTrainer).

(** The step sizes of the two schedulers. *)
Definition step_sizes s : nat * nat :=
  (step_size (scheduler_G s), step_size (scheduler_D s)).

(** From a state whose step sizes are in [J], the computation ends with a
    result in [Q]. *)
Definition ends {A} (J : nat * nat -> Prop) (Q : result A -> Prop) (m : Py A) : Prop :=
  forall s, J (step_sizes s) -> Q (m s).1.

(** A computation that returns and keeps the step sizes, then the rest. *)
Lemma ends_bind {A B} J (Q : result B -> Prop) (m : Py A) (k : A -> Py B) :
  keeps step_sizes m -> outcome (fun _ => True) (fun _ => False) m ->
  (forall a, ends J Q (k a)) -> ends J Q (bind m k).
Proof.
  intros Km Hm Hk s Hs. unfold bind.
  specialize (Km s). specialize (Hm s).
  destruct (m s) as [[a|e] s1]; simpl in *; [|done].
  apply Hk. by rewrite Km.
Qed.

Lemma scheduler_steps_end s :
  ((scheduler_step G ;;; scheduler_step D) s).1 =
  if (step_size (scheduler_G s) =? 0)%nat || (step_size (scheduler_D s) =? 0)%nat
  then Raise ZeroDivisionError else Ok tt.
Proof.
  unfold bind, scheduler_step, StepLR_step. cbn [scheduler optimizer].
  destruct (step_size (scheduler_G s) =? 0)%nat; [reflexivity|].
  destruct (_ =? 0)%nat; cbn [set_optimizer set_scheduler]; simpl_state;
    destruct (step_size (scheduler_D s) =? 0)%nat; try reflexivity;
    by destruct (_ =? 0)%nat.
Qed.

Lemma epoch_end_ends epoch tr va J (Q : result unit -> Prop) :
  has_metric_keys tr.2 -> has_metric_keys va.2 ->
  (forall s, J (step_sizes s) -> Q ((scheduler_step G ;;; scheduler_step D) s).1) ->
  ends J Q (epoch_end epoch tr va).
Proof.
  intros Htr Hva Hend. unfold epoch_end.
  apply ends_bind; [frame | intros ?; exact I|]. intros n_epochs.
  do 6 (apply ends_bind;
        [ frame
        | apply outcome_py_getitem; [done|]; intros Hnone;
          match type of Hnone with
          | _ !! ?k = None =>
              destruct (Hva k) as [x Hx]; [unfold metric_keys; in_list | congruence]
          end
        | intros ? ]).
  apply ends_bind; [frame | intros ?; exact I|]. intros _.
  apply ends_bind; [frame | by apply log_to_csv_outcome|]. intros _.
  apply ends_bind; [frame | intros ?; exact I|]. intros best.
  apply ends_bind; [frame | destruct (PyFloat.lt _ _); intros ?; exact I|].
  intros is_best.
  apply ends_bind; [frame | intros ?; exact I|]. intros dir.
  apply ends_bind; [frame | intros s; by rewrite save_model_eq|]. intros _.
  exact Hend.
Qed.

(** X4.  Once the two passes of an epoch have returned, the rest of the
    epoch does not fail at a lookup or at the CSV writer: the dicts the
    passes return hold the six metric keys that [train] and [_log_to_csv]
    index, and the row [_log_to_csv] builds has only header fields.  The
    rest of the epoch returns when both schedulers have a non-zero step
    size; when one of them has step size zero it raises
    [ZeroDivisionError], at the scheduler step. *)
Theorem epoch_end_after_passes epoch s tr s1 va s2 :
  train_one_epoch s = (Ok tr, s1) -> validate s1 = (Ok va, s2) ->
  train_epoch tt epoch s = epoch_end epoch tr va s2 /\
  has_metric_keys tr.2 /\ has_metric_keys va.2 /\
  (step_size (scheduler_G s2) <> 0 /\ step_size (scheduler_D s2) <> 0 ->
   (epoch_end epoch tr va s2).1 = Ok tt) /\
  (step_size (scheduler_G s2) = 0 \/ step_size (scheduler_D s2) = 0 ->
   (epoch_end epoch tr va s2).1 = Raise ZeroDivisionError).
Proof.
  intros Htr Hva.
  pose proof (outcome_Ok _ _ _ _ _ _ train_one_epoch_outcome Htr) as Ktr.
  pose proof (outcome_Ok _ _ _ _ _ _ validate_outcome Hva) as Kva.
  cbv beta in Ktr, Kva.
  split; [|split; [exact Ktr|split; [exact Kva|split]]].
  - rewrite train_epoch_split. unfold bind at 1. rewrite Htr.
    unfold bind at 1. by rewrite Hva.
  - intros Hne.
    apply (epoch_end_ends epoch tr va (fun p => p.1 <> 0 /\ p.2 <> 0)
             (fun r => r = Ok tt) Ktr Kva); [|exact Hne].
    intros s3 [Hg Hd]. rewrite scheduler_steps_end. simpl in Hg, Hd.
    destruct (Nat.eqb_spec (step_size (scheduler_G s3)) 0); [done|].
    by destruct (Nat.eqb_spec (step_size (scheduler_D s3)) 0).
  - intros Hz.
    apply (epoch_end_ends epoch tr va (fun p => p.1 = 0 \/ p.2 = 0)
             (fun r => r = Raise ZeroDivisionError) Ktr Kva); [|exact Hz].
    intros s3 Hs. rewrite scheduler_steps_end. simpl in Hs.
    destruct (Nat.eqb_spec (step_size (scheduler_G s3)) 0); [done|].
    destruct (Nat.eqb_spec (step_size (scheduler_D s3)) 0); [done|].
    by destruct Hs.
Qed.

End EpochEnd.

(** ** Gradients and updates of a step *)

Section StepUpdates.
Context `{Backward}.
Implicit Types (s : GANTrainer) (ps : gmap nat param) (ids : list nat) (p : nat).

(** One Adam update of a parameter that has a gradient: the new parameter
    and its new optimizer slot. *)
Definition adam_updated (o : Adam) (slot : option adam_slot) (x : param) (g : tensor)
  : param * adam_slot :=
  let r := adam_update (lr o) (betas o) slot (p_data x) g in
  ({| p_data := r.1; p_grad := Some g |}, r.2).

Lemma adam_step_param_grad o acc q p :
  p_grad <$> (adam_step_param o acc q).2 !! p = p_grad <$> acc.2 !! p.
Proof.
  unfold adam_step_param. destruct (acc.2 !! q) as [x|] eqn:Hq; [|done].
  destruct (p_grad x) as [g|] eqn:Hg; [|done]. simpl.
  destruct (decide (p = q)) as [->|Hne].
  - rewrite lookup_insert_eq, Hq. simpl. by rewrite Hg.
  - by rewrite lookup_insert_ne.
Qed.

Lemma adam_fold_grad o ids acc p :
  p_grad <$> (foldl (adam_step_param o) acc ids).2 !! p = p_grad <$> acc.2 !! p.
Proof.
  revert acc. induction ids as [|q ids IH]; intros acc; simpl; [done|].
  by rewrite IH, adam_step_param_grad.
Qed.

Lemma adam_fold_lookup o ids acc p x g :
  NoDup ids -> p ∈ ids ->
  acc.2 !! p = Some x -> p_grad x = Some g ->
  (foldl (adam_step_param o) acc ids).2 !! p =
    Some (adam_updated o (acc.1 !! p) x g).1 /\
  (foldl (adam_step_param o) acc ids).1 !! p =
    Some (adam_updated o (acc.1 !! p) x g).2.
Proof.
  intros Hnd. revert acc. induction Hnd as [|q ids Hq Hnd IH]; intros acc Hp Hx Hg.
  { by apply elem_of_nil in Hp. }
  simpl. apply elem_of_cons in Hp as [->|Hp].
  - destruct (adam_fold_frame o ids (adam_step_param o acc q) q Hq) as [-> ->].
    unfold adam_step_param, adam_updated. rewrite Hx, Hg. simpl.
    by rewrite !lookup_insert_eq.
  - assert (p <> q) as Hne by (intros ->; done).
    destruct (adam_step_param_frame o acc q p Hne) as [E1 E2].
    rewrite <- E1. apply IH; [done | by rewrite E2 | done].
Qed.

(** What a completed step leaves on one of its parameters: zero_grad drops
    the old gradient, backward stores the gradient of this loss, Adam
    updates the contents and its slot with it. *)
Lemma step_lookup o root ps p x :
  p ∈ param_ids o -> p ∈ leaves root -> ps !! p = Some x ->
  let r := adam_step o (backward root (zero_grad (param_ids o) ps)) in
  p_grad <$> r.2 !! p = Some (Some (grad_of root p)) /\
  (NoDup (param_ids o) ->
   r.2 !! p = Some (adam_updated o (slots o !! p) x (grad_of root p)).1 /\
   r.1 !! p = Some (adam_updated o (slots o !! p) x (grad_of root p)).2).
Proof.
  intros Hp Hleaf Hx r.
  assert (backward root (zero_grad (param_ids o) ps) !! p =
          Some {| p_data := p_data x; p_grad := Some (grad_of root p) |}) as Hb.
  { rewrite backward_lookup, zero_grad_lookup, decide_True, Hx by done.
    simpl. by rewrite decide_True. }
  split.
  - unfold r, adam_step. rewrite adam_fold_grad. cbn [snd]. by rewrite Hb.
  - intros Hnd. unfold r, adam_step.
    exact (adam_fold_lookup o (param_ids o)
             (slots o, backward root (zero_grad (param_ids o) ps)) p
             _ (grad_of root p) Hnd Hp Hb eq_refl).
Qed.

Lemma module_weights_elem ids ps p x :
  p ∈ ids -> ps !! p = Some x -> p ∈ (module_weights ids ps).*1.
Proof.
  unfold module_weights, omap. intros Hp Hx.
  induction ids as [|q ids IH]; [by apply elem_of_nil in Hp|].
  simpl. apply elem_of_cons in Hp as [<-|Hp].
  - rewrite Hx. simpl. apply list_elem_of_here.
  - destruct (ps !! q); simpl; [apply list_elem_of_further|]; by apply IH.
Qed.

(** X10.  A completed generator step returns the loss and the mask computed
    on the weights it started with, and leaves on every generator
    parameter the gradient of this batch's loss alone, whatever gradient
    the parameter carried before; when the generator lists no parameter
    twice, the parameter and its Adam slot are one Adam update, with that
    gradient and the current learning rate, of what they were. *)
Theorem generator_step_updates s data targets r s' p x :
  train_generator data targets s = (Ok r, s') ->
  optimizers_attached s ->
  p ∈ generator (model s) ->
  parameters (model s) !! p = Some x ->
  let g := grad_of (g_seg_root s data targets) p in
  let u := adam_updated (optimizer_G s) (slots (optimizer_G s) !! p) x g in
  r = (g_seg_loss_of s data targets, fake_handle_of s data) /\
  p_grad <$> parameters (model s') !! p = Some (Some g) /\
  (NoDup (generator (model s)) ->
   parameters (model s') !! p = Some u.1 /\
   slots (optimizer_G s') !! p = Some u.2).
Proof.
  intros Hrun [HaG _] Hp Hx g u. rewrite train_generator_eq in Hrun.
  destruct (check_loss_nan _); [discriminate|]. injection Hrun as <- <-.
  split; [reflexivity|].
  assert (p ∈ leaves (g_seg_root s data targets)) as Hleaf.
  { unfold g_seg_root, fake_handle_of, generator_weights. simpl.
    rewrite !elem_of_union, elem_of_list_to_set.
    repeat match goal with |- _ \/ _ => left end.
    by eapply module_weights_elem. }
  rewrite <- HaG in Hp.
  destruct (step_lookup (optimizer_G s) _ _ _ _ Hp Hleaf Hx) as [Hg Hu].
  unfold generator_step_done. simpl_state.
  split; [exact Hg|]. rewrite <- HaG. exact Hu.
Qed.

(** X11.  A completed discriminator step returns the value of the summed
    loss and leaves on every discriminator parameter the gradient of that
    sum alone; when the discriminator lists no parameter twice, the
    parameter and its Adam slot are one Adam update of what they were. *)
Theorem discriminator_step_updates s data (mask_fakes : handle) targets d s' p x :
  train_discriminator data mask_fakes targets s = (Ok d, s') ->
  optimizers_attached s ->
  p ∈ discriminator (model s) ->
  parameters (model s) !! p = Some x ->
  let g := grad_of (d_loss_root s data (value mask_fakes) targets) p in
  let u := adam_updated (optimizer_D s) (slots (optimizer_D s) !! p) x g in
  p_grad <$> parameters (model s') !! p = Some (Some g) /\
  (NoDup (discriminator (model s)) ->
   parameters (model s') !! p = Some u.1 /\
   slots (optimizer_D s') !! p = Some u.2).
Proof.
  intros Hrun [_ HaD] Hp Hx g u. rewrite train_discriminator_eq in Hrun.
  cbv zeta in Hrun.
  destruct (check_loss_nan _); [discriminate|].
  destruct (check_loss_nan _); [discriminate|]. injection Hrun as _ <-.
  assert (p ∈ leaves (d_loss_root s data (value mask_fakes) targets)) as Hleaf.
  { unfold d_loss_root, discriminator_weights. simpl.
    rewrite !elem_of_union, elem_of_list_to_set.
    repeat match goal with |- _ \/ _ => left end.
    by eapply module_weights_elem. }
  rewrite <- HaD in Hp.
  destruct (step_lookup (optimizer_D s) _ _ _ _ Hp Hleaf Hx) as [Hg Hu].
  unfold discriminator_step_done. simpl_state.
  split; [exact Hg|]. rewrite <- HaD. exact Hu.
Qed.

End StepUpdates.

(** ** The metrics file during a run *)

Section MetricsFile.
Context `{Backward}.
Local Abbreviation Py := (M (S:=GANTrainer)).
Implicit Types (s : GANTrainer).

(** Events other than the creation of a CSV file. *)
Definition not_create (e : event) : Prop :=
  match e with CsvCreate _ _ => False | _ => True end.

Lemma train_emits_no_create : emits not_create train.
Proof. unfold train, train_epoch. emits_frame. Qed.

Lemma csv_appended path rows evs :
  Forall not_create evs ->
  exists more, foldl (csv_event path) (Some rows) evs = Some (rows ++ more).
Proof.
  intros Hevs. revert rows. induction Hevs as [|e evs He _ IH]; intros rows.
  - exists []. by rewrite app_nil_r.
  - simpl. destruct e as [| | p header | p row | | |]; simpl in *; try done;
      try apply IH.
    destruct (decide (p = path)); [|apply IH].
    destruct (IH (rows ++ [row])) as [more ->].
    exists (row :: more). by rewrite <- app_assoc.
Qed.

(** X12.  [train] only ever appends to a metrics file: whether it returns or
    raises, the rows a CSV file held when it started are still there, in
    order, followed by the rows it added; the file is never created anew
    or truncated.  The two passes of an epoch write to no CSV file at
    all. *)
Theorem train_keeps_csv_rows s path rows :
  csv_contents path (trace s) = Some rows ->
  (exists more, csv_contents path (trace (train s).2) = Some (rows ++ more)) /\
  csv_contents path (trace (train_one_epoch s).2) = Some rows /\
  csv_contents path (trace (validate s).2) = Some rows.
Proof.
  intros Hrows. unfold csv_contents in *. split; [|split].
  - destruct (train_emits_no_create s) as (evs & -> & Hevs).
    rewrite foldl_app, Hrows. by apply csv_appended.
  - destruct (train_one_epoch_emits s) as (evs & -> & Hevs).
    by rewrite foldl_app, (csv_pass _ _ _ Hevs).
  - destruct (validate_emits s) as (evs & -> & Hevs).
    by rewrite foldl_app, (csv_pass _ _ _ Hevs).
Qed.


(** What a column of the metrics file is for, by its field name: the
    epoch number, the three losses, [train_logs[m]] under [train_m] and
    [logs[m]] under a metric's own name [m]. *)
Definition field_cell (epoch : nat) (g d v : float)
    (logs tlogs : gmap string float) (field : string) : option cell :=
  if decide (field = "epoch") then Some (CellInt epoch)
  else if decide (field = "train_g_loss") then Some (CellFloat g)
  else if decide (field = "train_d_loss") then Some (CellFloat d)
  else if decide (field = "val_loss") then Some (CellFloat v)
  else match field with
       | String "t" (String "r" (String "a" (String "i" (String "n"
           (String "_" key))))) => CellFloat <$> tlogs !! key
       | _ => CellFloat <$> logs !! field
       end.

Lemma has_metric_keys_lookups (d : gmap string float) :
  has_metric_keys d <->
  is_Some (d !! "mean_iou") /\ is_Some (d !! "recall") /\
  is_Some (d !! "precision") /\ is_Some (d !! "accuracy") /\
  is_Some (d !! "dice") /\ is_Some (d !! "f2").
Proof.
  split.
  - intros Hd. repeat split; apply Hd; unfold metric_keys; in_list.
  - intros (? & ? & ? & ? & ? & ?) k Hk. unfold metric_keys in Hk.
    repeat (apply elem_of_cons in Hk as [->|Hk]; [done|]).
    by apply elem_of_nil in Hk.
Qed.

(** X13.  [_log_to_csv] given dicts that both have the six metric keys
    appends exactly one row to the metrics file, with one cell per header
    field in header order, each holding what its field name says (the
    order of the dict literal does not matter); given a dict that lacks a
    metric key it raises [KeyError] for a metric key and writes nothing. *)
Theorem log_to_csv_behaviour epoch g d v logs tlogs s :
  (has_metric_keys tlogs -> has_metric_keys logs ->
   exists row,
     _log_to_csv epoch g d v logs tlogs s =
       (Ok tt, set_trace (trace s ++ [CsvAppend (csv_file s) row]) s) /\
     Some <$> row = field_cell epoch g d v logs tlogs <$> csv_fields) /\
  (~ (has_metric_keys tlogs /\ has_metric_keys logs) ->
   exists k,
     k ∈ metric_keys /\
     _log_to_csv epoch g d v logs tlogs s = (Raise (KeyError k), s)).
Proof.
  rewrite !has_metric_keys_lookups. unfold is_Some.
  unfold _log_to_csv, bind, py_getitem, ret, raise.
  destruct (tlogs !! "mean_iou") as [a1|] eqn:A1;
    [|split; [by intros ([] & _) | intros _; exists "mean_iou";
              split; [unfold metric_keys; in_list | done]]].
  destruct (tlogs !! "recall") as [a2|] eqn:A2;
    [|split; [by intros (_ & [] & _) | intros _; exists "recall";
              split; [unfold metric_keys; in_list | done]]].
  destruct (tlogs !! "precision") as [a3|] eqn:A3;
    [|split; [by intros (_ & _ & [] & _) | intros _; exists "precision";
              split; [unfold metric_keys; in_list | done]]].
  destruct (tlogs !! "accuracy") as [a4|] eqn:A4;
    [|split; [by intros (_ & _ & _ & [] & _) | intros _; exists "accuracy";
              split; [unfold metric_keys; in_list | done]]].
  destruct (tlogs !! "dice") as [a5|] eqn:A5;
    [|split; [by intros (_ & _ & _ & _ & [] & _) | intros _; exists "dice";
              split; [unfold metric_keys; in_list | done]]].
  destruct (tlogs !! "f2") as [a6|] eqn:A6;
    [|split; [by intros (_ & _ & _ & _ & _ & []) | intros _; exists "f2";
              split; [unfold metric_keys; in_list | done]]].
  destruct (logs !! "mean_iou") as [b1|] eqn:B1;
    [|split; [by intros _ ([] & _) | intros _; exists "mean_iou";
              split; [unfold metric_keys; in_list | done]]].
  destruct (logs !! "recall") as [b2|] eqn:B2;
    [|split; [by intros _ (_ & [] & _) | intros _; exists "recall";
              split; [unfold metric_keys; in_list | done]]].
  destruct (logs !! "precision") as [b3|] eqn:B3;
    [|split; [by intros _ (_ & _ & [] & _) | intros _; exists "precision";
              split; [unfold metric_keys; in_list | done]]].
  destruct (logs !! "accuracy") as [b4|] eqn:B4;
    [|split; [by intros _ (_ & _ & _ & [] & _) | intros _; exists "accuracy";
              split; [unfold metric_keys; in_list | done]]].
  destruct (logs !! "dice") as [b5|] eqn:B5;
    [|split; [by intros _ (_ & _ & _ & _ & [] & _) | intros _; exists "dice";
              split; [unfold metric_keys; in_list | done]]].
  destruct (logs !! "f2") as [b6|] eqn:B6;
    [|split; [by intros _ (_ & _ & _ & _ & _ & []) | intros _; exists "f2";
              split; [unfold metric_keys; in_list | done]]].
  split; [|intros Hnot; exfalso; apply Hnot; repeat split; eauto].
  intros _ _.
  match goal with
  | |- context [DictWriter_row ?f ?rowdict s] =>
      let r := eval vm_compute in (DictWriter_row f rowdict s) in
      change (DictWriter_row f rowdict s) with r
  end.
  cbv [gets emit modify]. eexists. split; [reflexivity|].
  unfold csv_fields, field_cell. simpl.
  by rewrite A1, A2, A3, A4, A5, A6, B1, B2, B3, B4, B5, B6.
Qed.

End MetricsFile.

(** ** What a run never changes in the model *)

Section Layout.
Context `{Backward}.
Local Abbreviation Py := (M (S:=GANTrainer)).
Implicit Types (s : GANTrainer) (ps : gmap nat param) (ids : list nat) (p : nat).

(** Which parameters belong to which sub-network and which optimizer. *)
Definition layout s :=
  (generator (model s), discriminator (model s),
   param_ids (optimizer_G s), param_ids (optimizer_D s)).

Lemma zero_grad_dom ids ps : dom (zero_grad ids ps) = dom ps.
Proof.
  apply set_eq. intros p. rewrite !elem_of_dom, zero_grad_lookup.
  case_decide; [|done]. by rewrite fmap_is_Some.
Qed.

Lemma backward_dom root ps : dom (backward root ps) = dom ps.
Proof.
  apply set_eq. intros p. rewrite !elem_of_dom, backward_lookup.
  by rewrite fmap_is_Some.
Qed.

Lemma adam_step_param_dom o acc q :
  dom (adam_step_param o acc q).2 = dom acc.2.
Proof.
  unfold adam_step_param. destruct (acc.2 !! q) as [x|] eqn:Hq; [|done].
  destruct (p_grad x); [|done]. simpl.
  apply set_eq. intros p. rewrite dom_insert, elem_of_union, elem_of_singleton.
  split; [intros [->|?]; [by apply elem_of_dom|done] | by right].
Qed.

Lemma adam_step_dom o ps : dom (adam_step o ps).2 = dom ps.
Proof.
  unfold adam_step. change ps with (slots o, ps).2 at 2.
  generalize (slots o, ps) as acc. generalize (param_ids o) as ids.
  induction ids as [|q ids IH]; intros acc; simpl; [done|].
  by rewrite IH, adam_step_param_dom.
Qed.

Lemma train_keeps_parameter_set :
  keeps (fun s => dom (parameters (model s))) train.
Proof.
  unfold train, train_epoch. frame.
  all: apply keeps_modify; intros s; simpl_state;
    rewrite ?adam_step_dom, ?backward_dom, ?zero_grad_dom; reflexivity.
Qed.


Lemma scheduler_step_layout n : keeps layout (scheduler_step n).
Proof.
  intros s. unfold scheduler_step, StepLR_step.
  destruct (step_size _ =? 0)%nat; [destruct n; reflexivity|].
  destruct (_ =? 0)%nat; destruct n; reflexivity.
Qed.

(** X14.  A freshly built trainer has each optimizer attached to its own
    sub-network, and nothing a run does changes that: the generator step,
    the discriminator step, a batch, either pass and [train] itself,
    returning or raising, leave the parameter lists of the two
    sub-networks and of the two optimizers as they were, and [train]
    neither adds nor removes a parameter of the model, so every checkpoint
    of a run stores the same set of parameters. *)
Theorem run_keeps_model_layout :
  (forall cfg mdl data_train data_val names now fresh_metrics lib flushes,
     optimizers_attached
       (GANTrainer_init cfg mdl data_train data_val names now fresh_metrics
          lib flushes)) /\
  (forall s data targets, layout (train_generator data targets s).2 = layout s) /\
  (forall s data mask targets,
     layout (train_discriminator data mask targets s).2 = layout s) /\
  (forall s loc batch, layout (train_batch loc batch s).2 = layout s) /\
  (forall s, layout (train_one_epoch s).2 = layout s) /\
  (forall s, layout (validate s).2 = layout s) /\
  (forall s, layout (train s).2 = layout s /\
             dom (weights (model (train s).2)) = dom (weights (model s)) /\
             (optimizers_attached s -> optimizers_attached (train s).2)).
Proof.
  split; [intros; split; reflexivity|].
  split; [intros s data targets;
          assert (keeps layout (train_generator data targets)) as K by frame;
          apply K|].
  split; [intros s data mask targets;
          assert (keeps layout (train_discriminator data mask targets)) as K by frame;
          apply K|].
  split; [intros s loc batch;
          assert (keeps layout (train_batch loc batch)) as K by frame; apply K|].
  split; [intros s; assert (keeps layout train_one_epoch) as K by frame; apply K|].
  split; [intros s; assert (keeps layout validate) as K by frame; apply K|].
  intros s.
  assert (keeps layout train) as K
    by (unfold train; frame; apply scheduler_step_layout).
  specialize (K s). split; [exact K|]. split.
  - unfold weights. rewrite !dom_fmap_L. apply train_keeps_parameter_set.
  - intros [HG HD]. injection K as Kg Kd KG KD. split; congruence.
Qed.

End Layout.

(** ** The paths of a run *)

Section RunFiles.
Context `{Backward}.
Implicit Types (s : GANTrainer) (dir : string).

(** The event names the path its kind has in a run with log directory
    [dir]: [makedirs] the directory or its [weights], the CSV operations
    the metrics file, the two saves their checkpoint. *)
Definition placed dir (e : event) : Prop :=
  match e with
  | Makedirs p => p = dir \/ p = path_join dir "weights"
  | CsvCreate p _ | CsvAppend p _ => p = path_join dir "metrics.csv"
  | SaveCheckpoint p _ => p = path_join dir "weights" +:+ "/last_model.pth"
  | SaveBestCheckpoint p _ => p = path_join dir "weights" +:+ "/best_gan_model.pth"
  | Log _ _ | SetPostfix _ _ => True
  end.

Lemma pass_event_placed dir evs : Forall pass_event evs -> Forall (placed dir) evs.
Proof.
  intros Hevs. eapply Forall_impl; [exact Hevs|].
  intros [[]| | | | | |]; simpl; done.
Qed.

Lemma save_events_placed dir s is_best :
  log_dir s = Some dir -> Forall (placed dir) (save_events s is_best).
Proof.
  intros Hdir. unfold save_events, last_model_path, best_model_path, weights_dir_of.
  rewrite Hdir.
  destruct is_best;
    repeat (apply Forall_cons; split; [cbn [placed]; auto|]); apply Forall_nil_2.
Qed.

Lemma epochs_run_placed dir k s outs s' :
  epochs_run k s outs s' ->
  log_dir s = Some dir -> csv_file s = path_join dir "metrics.csv" ->
  Forall (placed dir) (trace s) ->
  log_dir s' = Some dir /\ Forall (placed dir) (trace s').
Proof.
  induction 1 as [|k s s2 evs v row s1 outs s' K E F O R IH]; [done|].
  intros Hdir Hfile Htr.
  destruct O as ((g & d & m1 & m2 & m3 & m4 & m5 & m6 & Ho) & _ & _ & _ & Hd & Hc & _).
  injection K as _ _ _ _ _ _ Kdir _ _ _.
  apply IH; [congruence | congruence |].
  rewrite Ho, E. apply Forall_app. split.
  - apply Forall_app. split; [done | by apply pass_event_placed].
  - apply Forall_app. split.
    + constructor; [done|]. constructor; [exact Hfile | constructor].
    + apply save_events_placed. congruence.
Qed.

(** X15.  The paths of a completed run from a fresh trainer.  With [dir]
    the run's log directory,
    [os.path.join(checkpoint_dir, "logs_[<names>_]<timestamp>")], every
    [makedirs] of the run names [dir] or [os.path.join(dir, "weights")],
    every creation of and append to the metrics file names
    [os.path.join(dir, "metrics.csv")], every save of the last checkpoint
    names [<dir/weights>/last_model.pth] and every save of the best one
    [<dir/weights>/best_gan_model.pth]: no checkpoint goes to
    [checkpoint_dir] itself.  (The file of the logging handler is not
    among the events of the trace.) *)
Theorem run_paths cfg mdl data_train data_val names now
    fresh_metrics lib flushes s' :
  let s0 := GANTrainer_init cfg mdl data_train data_val names now
              fresh_metrics lib flushes in
  let dir := path_join (checkpoint_dir cfg)
               ("logs_" +:+ match names with
                            | Some n => n +:+ "_" +:+ now
                            | None => now
                            end) in
  train s0 = (Ok tt, s') ->
  log_dir s' = Some dir /\ Forall (placed dir) (trace s').
Proof.
  intros s0 dir Hrun.
  apply train_run in Hrun as (outs & _ & Hrun).
  eapply (epochs_run_placed dir); [exact Hrun | reflexivity | reflexivity |].
  change (Forall (placed dir)
            ([ Makedirs dir;
               CsvCreate (path_join dir "metrics.csv") (CellStr <$> csv_fields) ] ++
             [ Log INFO (Text "Starting training...") ])).
  repeat (apply Forall_cons; split; [cbn [placed]; auto|]). apply Forall_nil_2.
Qed.

End RunFiles.

(** ** Names derived from paths *)

(** The characters of a string. *)
Definition chars (s : string) : list ascii := String.list_ascii_of_string s.

(** [s.split(sep)] for a separator of one character: the pieces between
    the separators, of which there is always at least one. *)
Fixpoint py_split (sep : ascii) (s : string) : list string :=
  match s with
  | "" => [""]
  | String c rest =>
      if decide (c = sep) then "" :: py_split sep rest
      else match py_split sep rest with
           | piece :: pieces => String c piece :: pieces
           | [] => [String c ""]
           end
  end.

(** [s.replace(old, new)] for a non-empty [old]: occurrences are replaced
    from the left and do not overlap; [skip] counts the characters of an
    occurrence still to pass over. *)
Fixpoint replace_from (old new : string) (skip : nat) (s : string) : string :=
  match s with
  | "" => ""
  | String c rest =>
      match skip with
      | S k => replace_from old new k rest
      | 0 =>
          if String.prefix old s
          then new +:+ replace_from old new (String.length old - 1) rest
          else String c (replace_from old new 0 rest)
      end
  end.

Definition py_replace (old new s : string) : string := replace_from old new 0 s.

(** [load_config]: the module name under which the configuration file is
    imported, [config_path.split("/")[-1].replace(".py", "")].  [None]
    stands for the [IndexError] of [[-1]] on an empty list. *)
Definition module_name (config_path : string) : option string :=
  py_replace ".py" "" <$> last (py_split "/" config_path).

(** The script's name of a dataset,
    [path.split('/')[-1].split('.')[0]]. *)
Definition dataset_name (path : string) : option string :=
  base ← last (py_split "/" path); head (py_split "." base).

Section Names.
Implicit Types (s a b : string) (sep c : ascii).

Lemma chars_app a b : chars (a +:+ b) = chars a ++ chars b.
Proof. induction a as [|c a IH]; simpl; [done | by rewrite IH]. Qed.

Lemma py_split_nonempty sep s : py_split sep s <> [].
Proof.
  destruct s as [|c s]; simpl; [done|].
  destruct (decide (c = sep)); [done|]. by destruct (py_split sep s).
Qed.

Lemma py_split_no_sep sep s : sep ∉ chars s -> py_split sep s = [s].
Proof.
  induction s as [|c s IH]; simpl; [done|].
  intros Hs. apply not_elem_of_cons in Hs as [Hne Hs].
  rewrite decide_False by done. by rewrite IH.
Qed.

(** Up to the first separator. *)
Lemma py_split_app sep a b :
  sep ∉ chars a -> py_split sep (a +:+ String sep b) = a :: py_split sep b.
Proof.
  induction a as [|c a IH]; simpl.
  - intros _. by rewrite decide_True.
  - intros Ha. apply not_elem_of_cons in Ha as [Hne Ha].
    rewrite decide_False by done. by rewrite IH.
Qed.

(** After a separator, whatever comes before it. *)
Lemma py_split_last sep a b :
  last (py_split sep (a +:+ String sep b)) = last (py_split sep b).
Proof.
  assert (exists front, front <> [] /\
            py_split sep (a +:+ String sep b) = front ++ py_split sep b)
    as (front & _ & ->).
  { induction a as [|c a (front & Hne & IH)]; simpl.
    - exists [""]. by rewrite decide_True.
    - rewrite IH. destruct (decide (c = sep)).
      + by exists ("" :: front).
      + destruct front as [|f front]; [done|]. by exists (String c f :: front). }
  rewrite last_app. destruct (last (py_split sep b)) eqn:E; [done|].
  apply last_None in E. by apply py_split_nonempty in E.
Qed.

(** The pieces hold no separator, and no character the string has not. *)
Lemma py_split_chars sep s piece c :
  piece ∈ py_split sep s -> c ∈ chars piece -> c ∈ chars s /\ c <> sep.
Proof.
  revert piece. induction s as [|d s IH]; intros piece; simpl.
  - intros Hp%list_elem_of_singleton. subst. by intros ?%elem_of_nil.
  - destruct (decide (d = sep)) as [->|Hne].
    + intros [->|Hp]%elem_of_cons; [by intros ?%elem_of_nil|].
      intros Hc. destruct (IH _ Hp Hc). split; [by right | done].
    + destruct (py_split sep s) as [|x xs] eqn:E.
      { by apply py_split_nonempty in E. }
      intros [->|Hp]%elem_of_cons.
      * simpl. intros [->|Hc]%elem_of_cons; [split; [by left | done]|].
        destruct (IH x (list_elem_of_here _ _) Hc). split; [by right | done].
      * intros Hc. destruct (IH _ (list_elem_of_further _ _ _ Hp) Hc).
        split; [by right | done].
Qed.

Lemma replace_from_skip old new k a b :
  String.length a = k -> replace_from old new k (a +:+ b) = replace_from old new 0 b.
Proof.
  revert k. induction a as [|c a IH]; intros k; simpl.
  - by intros <-.
  - intros <-. by apply IH.
Qed.

Lemma prefix_other_char c old s :
  c <> "."%char -> String.prefix (String "." old) (String c s) = false.
Proof.
  intros Hne. cbn [String.prefix]. destruct (ascii_dec "." c); [congruence | done].
Qed.

Lemma replace_from_cons old new c s :
  replace_from old new 0 (String c s) =
  if String.prefix old (String c s)
  then new +:+ replace_from old new (String.length old - 1) s
  else String c (replace_from old new 0 s).
Proof. reflexivity. Qed.

(** Nothing is replaced in a string without the first character of
    [".py"], and an occurrence that follows it is removed. *)
Lemma py_replace_stem stem rest :
  "."%char ∉ chars stem ->
  py_replace ".py" "" (stem +:+ rest) = stem +:+ py_replace ".py" "" rest.
Proof.
  unfold py_replace. induction stem as [|c stem IH]; [done|].
  intros Hs. apply not_elem_of_cons in Hs as [Hne Hs].
  change (String c stem +:+ rest) with (String c (stem +:+ rest)).
  rewrite replace_from_cons, prefix_other_char by done. by rewrite IH.
Qed.

Lemma py_replace_occurrence rest :
  py_replace ".py" "" (".py" +:+ rest) = py_replace ".py" "" rest.
Proof. destruct rest; reflexivity. Qed.


Lemma replace_from_chars old k s c :
  c ∈ chars (replace_from old "" k s) -> c ∈ chars s.
Proof.
  revert k. induction s as [|d s IH]; intros k; [done|].
  destruct k as [|k].
  - rewrite replace_from_cons. destruct (String.prefix old (String d s)).
    + change ("" +:+ ?x) with x. intros Hc. right. by eapply IH.
    + intros [->|Hc]%elem_of_cons; [by left | right; by eapply IH].
  - intros Hc. right. by eapply (IH k).
Qed.

Lemma append_empty_r s : s +:+ "" = s.
Proof.
  induction s as [|c s IH]; [done|].
  change (String c s +:+ "") with (String c (s +:+ "")). by rewrite IH.
Qed.

Lemma last_piece sep dir base :
  sep ∉ chars base ->
  last (py_split sep base) = Some base /\
  last (py_split sep (dir +:+ String sep base)) = Some base.
Proof.
  intros Hb. rewrite py_split_last, py_split_no_sep by done. done.
Qed.

(** X16.  For a configuration file [dir/stem.py], the directory holding any
    number of slashes and the stem neither a slash nor a dot, the module
    name computed by [load_config] and the dataset name computed by the
    script are both the stem.  The module name loses every [.py] of the
    file name, not only a final one: after the first [.py] the rest of the
    name is kept with its own occurrences removed.  The dataset name is
    the file name up to its first dot. *)
Theorem names_of_config_path dir stem rest :
  "/"%char ∉ chars stem -> "."%char ∉ chars stem -> "/"%char ∉ chars rest ->
  module_name (dir +:+ "/" +:+ stem +:+ ".py") = Some stem /\
  dataset_name (dir +:+ "/" +:+ stem +:+ ".py") = Some stem /\
  module_name (dir +:+ "/" +:+ stem +:+ ".py" +:+ rest) =
    Some (stem +:+ py_replace ".py" "" rest) /\
  dataset_name (dir +:+ "/" +:+ stem +:+ "." +:+ rest) = Some stem /\
  module_name stem = Some stem /\ dataset_name stem = Some stem.
Proof.
  intros Hslash Hdot Hrest.
  assert (forall tail, "/"%char ∉ chars tail ->
            "/"%char ∉ chars (stem +:+ tail)) as Hbase.
  { intros tail Ht. rewrite chars_app, elem_of_app. tauto. }
  assert (forall tail, "/"%char ∉ chars tail ->
            module_name (dir +:+ "/" +:+ stem +:+ ".py" +:+ tail) =
            Some (stem +:+ py_replace ".py" "" tail)) as Hmod.
  { intros tail Ht. unfold module_name.
    change ("/" +:+ ?t) with (String "/" t).
    assert ("/"%char ∉ chars (".py" +:+ tail)) as Hext.
    { change (".py" +:+ tail) with (String "." (String "p" (String "y" tail))).
      simpl. rewrite !not_elem_of_cons. done. }
    rewrite (proj2 (last_piece "/" dir _ (Hbase _ Hext))).
    simpl. by rewrite py_replace_stem, py_replace_occurrence. }
  assert (forall tail, "/"%char ∉ chars tail ->
            dataset_name (dir +:+ "/" +:+ stem +:+ "." +:+ tail) = Some stem) as Hdat.
  { intros tail Ht. unfold dataset_name.
    change ("/" +:+ ?t) with (String "/" t).
    assert ("/"%char ∉ chars ("." +:+ tail)) as Hext.
    { change ("." +:+ tail) with (String "." tail).
      simpl. rewrite not_elem_of_cons. done. }
    rewrite (proj2 (last_piece "/" dir _ (Hbase _ Hext))).
    simpl. change ("." +:+ tail) with (String "." tail).
    by rewrite (py_split_app "." stem tail). }
  split; [|split; [|split; [|split; [|split]]]].
  - rewrite <- (append_empty_r ".py"), (Hmod "") by (by intros ?%elem_of_nil).
    by rewrite append_empty_r.
  - apply (Hdat "py"). simpl. rewrite !not_elem_of_cons.
    split; [done|]. split; [done|]. by intros ?%elem_of_nil.
  - by apply Hmod.
  - by apply Hdat.
  - unfold module_name. rewrite py_split_no_sep by done. simpl.
    rewrite <- (append_empty_r stem) at 1. by rewrite py_replace_stem, append_empty_r.
  - unfold dataset_name. rewrite py_split_no_sep by done. simpl.
    by rewrite py_split_no_sep.
Qed.

(** X17.  Both names are defined for every path (the indexing of the split
    never fails), the module name holds no slash, and the dataset name
    holds neither a slash nor a dot. *)
Theorem names_have_no_separator path :
  (exists m, module_name path = Some m /\ ("/"%char ∉ chars m)) /\
  (exists n, dataset_name path = Some n /\
             ("/"%char ∉ chars n) /\ ("."%char ∉ chars n)).
Proof.
  destruct (last (py_split "/" path)) as [base|] eqn:Hlast.
  2: { apply last_None in Hlast. by apply py_split_nonempty in Hlast. }
  assert (base ∈ py_split "/" path) as Hbase.
  { apply last_Some in Hlast as [l' ->]. apply elem_of_app. right.
    apply list_elem_of_here. }
  split.
  - exists (py_replace ".py" "" base). unfold module_name. rewrite Hlast.
    split; [done|]. intros Hc. apply replace_from_chars in Hc.
    by destruct (py_split_chars _ _ _ _ Hbase Hc).
  - unfold dataset_name. rewrite Hlast. simpl.
    destruct (py_split "." base) as [|n pieces] eqn:Hsplit.
    { by apply py_split_nonempty in Hsplit. }
    exists n. split; [done|].
    assert (n ∈ py_split "." base) as Hn by (rewrite Hsplit; apply list_elem_of_here).
    split; intros Hc; destruct (py_split_chars _ _ _ _ Hn Hc) as [Hc' ?]; [|done].
    by destruct (py_split_chars _ _ _ _ Hbase Hc').
Qed.

End Names.

(** ** A small concrete library and run *)

Module Toy.

Definition fsum (xs : list float) : float := foldl PrimFloat.add 0%float xs.

(** Scalars for tensors, a counter for the RNG, a step count for Adam, and
    the last prediction/target pair for the metrics object. *)
#[global] Instance torch : Torch :=
  {| tensor := float;
     lib_state := nat;
     adam_slot := nat;
     metrics_state := option (float * float);
     item := fun x => x;
     to_float32 := fun x => x;
     ones_like := fun _ => 1%float;
     zeros_like := fun _ => 0%float;
     mul_scalar := fun x c => (x * c)%float;
     tensor_add := fun x y => (x + y)%float;
     generator_forward := fun _ ws st x => ((x * fsum ws)%float, S st);
     discriminator_forward := fun _ ws st x m =>
       ((PrimFloat.abs (m - x) * fsum ws)%float, S st);
     CombinedLoss := fun a b => PrimFloat.abs (a - b);
     BCELoss := fun p y => PrimFloat.abs (p - y);
     adam_update := fun _ _ slot w g =>
       ((w - g * 0.125)%float, S (default 0 slot));
     metrics_update := fun _ p t => Some (p, t);
     metrics_compute := fun st =>
       match st with
       | Some (p, t) =>
           py_dict ((fun k => (k, PrimFloat.abs (p - t))) <$> metric_keys)
       | None => ∅
       end;
     metrics_reset := fun _ => None |}.

#[global] Instance autograd : Backward := {| grad_of := fun _ _ => (-1)%float |}.

Definition cfg : GANTrainingConfig :=
  {| device := "cpu"; batch_size := 1; num_epochs := 3;
     lr_generator := 0x1.a36e2eb1c432dp-13; lr_discriminator := 0x1.a36e2eb1c432dp-14;
     beta1 := 0.5; beta2 := 0x1.ff7ced916872bp-1;
     lr_decay_step := 1; lr_decay_gamma := 0x1.999999999999ap-4;
     checkpoint_dir := "ckpt" |}.

Definition mdl : GanModel :=
  {| generator := [0]; discriminator := [1];
     parameters := {[ 0 := {| p_data := 1%float; p_grad := None |};
                      1 := {| p_data := 0.5%float; p_grad := None |} ]};
     training := false |}.

Definition loader (batches : list (float * float)) : DataLoader :=
  {| loader_len := length batches; loader_iter := fun st => (batches, st) |}.

(** A fresh trainer: two training batches, two validation batches, three
    epochs. *)
Definition trainer0 : GANTrainer :=
  GANTrainer_init cfg mdl (loader [(1, 2); (3, 1)]%float)
    (loader [(1, 1.5); (2, 3)]%float) None "20260101_000000" None 0 [1].

(** The same trainer with another discriminator, left-over gradients,
    Adam moments and a best loss: everything but the generator's weights
    and the seed differs. *)
Definition trainer1 : GANTrainer :=
  set_best_val_loss 0%float
    (set_optimizer_G
       {| param_ids := [0]; lr := 0.25; betas := (0, 0)%float; slots := {[ 0 := 7 ]} |}
       (set_parameters
          {[ 0 := {| p_data := 1%float; p_grad := Some 4%float |};
             1 := {| p_data := 8%float; p_grad := Some 2%float |} ]}
          trainer0)).

(** A trainer whose training loader is empty. *)
Definition trainer_empty : GANTrainer :=
  GANTrainer_init cfg mdl (loader []) (loader [(1, 1.5); (2, 3)]%float)
    None "20260101_000000" None 0 [].

Definition nan : float := PrimFloat.nan.

End Toy.


(** ** The toy run, evaluated *)

(** The value a computation returned, [d] if it raised. *)
Definition returned {A : Type} (d : A) (r : result A) : A :=
  match r with Ok a => a | Raise _ => d end.

Definition returns {A : Type} (r : result A) : bool :=
  match r with Ok _ => true | Raise _ => false end.

Lemma run_Ok {S : Type} (p : result unit * S) : p.1 = Ok tt -> p = (Ok tt, p.2).
Proof. destruct p as [r s]. cbn [fst snd]. intros ->. reflexivity. Qed.

Lemma run_returned {A S : Type} (d : A) (p : result A * S) :
  returns p.1 = true -> p = (Ok (returned d p.1), p.2).
Proof. destruct p as [[a|e] s]; cbn [fst snd returns returned]; [done|discriminate]. Qed.

(** The three epochs of the toy run complete. *)
Lemma toy_run_completes : train Toy.trainer0 = (Ok tt, (train Toy.trainer0).2).
Proof. apply run_Ok. vm_compute. reflexivity. Qed.


(** The toy run against C5: a header and three rows. *)
Lemma csv_rows_after_run_witness :
  let s0 := Toy.trainer0 in
  let s' := (train s0).2 in
  train s0 = (Ok tt, s') /\
  exists header rows,
    csv_contents (csv_file s0) (trace s') = Some (header :: rows) /\
    length (header :: rows) = 3 + 1 /\
    header = CellStr <$> csv_fields /\
    header_columns header = written_columns /\
    forall i row, rows !! i = Some row ->
      length row = length header /\
      row !! 0 = Some (CellInt (i + 1)) /\
      exists v, row !! 3 = Some (CellFloat v) /\
                (eo_val_loss <$> epochs_observed (trace s')) !! i = Some v.
Proof.
  intros s0 s'. split; [exact toy_run_completes|].
  exact (csv_rows_after_run Toy.cfg Toy.mdl _ _ None "20260101_000000"
           None 0 [1] s' toy_run_completes).
Defined.


(** The value of a finite float as an exact rational. *)
Definition float_to_Q (x : float) : option Q :=
  match Prim2SF x with
  | S754_zero _ => Some 0%Q
  | S754_finite sign m e =>
      Some ((if sign then -1 else 1) * inject_Z (Z.pos m) * 2 ^ e)%Q
  | S754_infinity _ | S754_nan => None
  end.

(** The closed form of C7 in exact arithmetic, on the values the floats
    hold. *)
Definition exact_step_decay (initial_lr gamma : float) (n : nat) : option Q :=
  match float_to_Q initial_lr, float_to_Q gamma with
  | Some r, Some g => Some (r * g ^ Z.of_nat n)%Q
  | _, _ => None
  end.

(** C7 as stated fails: after the three scheduler steps of the toy run,
    with the rate 0.0002 and the decay factor 0.1, the generator's
    optimizer holds 0x1.ad7f29abcaf4ap-23 (2.0000000000000004e-07), three
    rounded products; this is not the value of
    [initial_lr * gamma ^ 3] on the numbers the floats hold, and it is not
    the float 2e-07 either.  After two steps the rate is
    2.0000000000000003e-06. *)
Lemma lr_is_not_the_closed_form :
  let s' := (train Toy.trainer0).2 in
  (train Toy.trainer0).1 = Ok tt /\
  lr (optimizer_G s') = 0x1.ad7f29abcaf4ap-23%float /\
  chained_decay (lr_generator Toy.cfg) (lr_decay_gamma Toy.cfg) 2 =
    0x1.0c6f7a0b5ed8ep-19%float /\
  (exists r q,
     float_to_Q (lr (optimizer_G s')) = Some r /\
     exact_step_decay (lr_generator Toy.cfg) (lr_decay_gamma Toy.cfg) 3 = Some q /\
     ~ (r == q)%Q) /\
  lr (optimizer_G s') <> 0x1.ad7f29abcaf48p-23%float.
Proof.
  intros s'.
  assert (lr (optimizer_G s') = 0x1.ad7f29abcaf4ap-23%float) as Hlr
    by (vm_compute; reflexivity).
  split; [vm_compute; reflexivity|]. split; [exact Hlr|].
  split; [vm_compute; reflexivity|]. split.
  - rewrite Hlr. eexists _, _. split; [vm_compute; reflexivity|].
    split; [vm_compute; reflexivity|].
    intros E. apply Qeq_bool_iff in E. vm_compute in E. discriminate.
  - rewrite Hlr. intros E.
    apply (f_equal (fun x => PrimFloat.eqb x 0x1.ad7f29abcaf4ap-23)) in E.
    vm_compute in E. discriminate.
Qed.

(** Two toy trainers that differ in everything but the generator's
    weights, the mode and the seed take the same generator step (C9). *)
Lemma generator_step_deterministic_witness :
  let s1 := Toy.trainer0 in
  let s2 := Toy.trainer1 in
  (generator (model s1) = generator (model s2) /\
   (forall p, p ∈ generator (model s1) ->
              weights (model s1) !! p = weights (model s2) !! p) /\
   training (model s1) = training (model s2) /\
   torch_state s1 = torch_state s2) /\
  parameters (model s1) <> parameters (model s2) /\
  (train_generator 3%float 1%float s1).1 = (train_generator 3%float 1%float s2).1.
Proof.
  intros s1 s2.
  assert (forall p, p ∈ generator (model s1) ->
                    weights (model s1) !! p = weights (model s2) !! p) as Hw.
  { intros p Hp. apply list_elem_of_singleton in Hp as ->. vm_compute. reflexivity. }
  split; [split; [reflexivity | split; [exact Hw | split; reflexivity]]|].
  split.
  - intros E. apply (f_equal (fun m => p_grad <$> m !! 0)) in E.
    vm_compute in E. discriminate.
  - exact (generator_step_deterministic s1 s2 3%float 1%float eq_refl Hw eq_refl eq_refl).
Defined.

(** The second validation batch of the toy trainer (C6): its loss is 1,
    the total is 0.5 + 1, and the bar shows 1 / 2. *)
Lemma validate_batch_displays_witness :
  let b1 : float * float := (1, 1.5)%float in
  let b2 : float * float := (2, 3)%float in
  let p1 := validate_batch val_locals_init b1 Toy.trainer0 in
  let loc1 := returned val_locals_init p1.1 in
  let p2 := validate_batch loc1 b2 p1.2 in
  let loc2 := returned val_locals_init p2.1 in
  validate_batch loc1 b2 p1.2 = (Ok loc2, p2.2) /\
  total_val_loss loc1 = 0.5%float /\
  g_seg_loss_of p1.2 2%float 3%float = 1%float /\
  total_val_loss loc2 = PyFloat.add (total_val_loss loc1) 1%float /\
  vl_pbar_n loc2 = 2 /\
  exists shown,
    last (trace p2.2) = Some (SetPostfix "Validating" shown) /\
    shown !! "val_loss" = Some (PyFloat.div 1%float (PyFloat.of_nat 2)).
Proof.
  intros b1 b2 p1 loc1 p2 loc2.
  assert (validate_batch loc1 b2 p1.2 = (Ok loc2, p2.2)) as Hrun
    by (apply run_returned; vm_compute; reflexivity).
  split; [exact Hrun|]. split; [vm_compute; reflexivity|].
  split; [vm_compute; reflexivity|].
  exact (validate_batch_displays loc1 b2 p1.2 loc2 p2.2 Hrun).
Defined.

(** C5, the documented column set fails: the file of the toy run has the
    four rows, and its header has sixteen fields, none of them a validation
    discriminator loss, against the seventeen documented columns. *)
Lemma csv_columns_not_as_documented :
  let s' := (train Toy.trainer0).2 in
  (train Toy.trainer0).1 = Ok tt /\
  exists header rows,
    csv_contents (csv_file Toy.trainer0) (trace s') = Some (header :: rows) /\
    length (header :: rows) = 4 /\
    length header = 16 /\
    length documented_columns = 17 /\
    (CellStr "val_d_loss" ∉ header) /\
    ColDiscriminatorLoss Validation ∈ documented_columns /\
    ~ (header_columns header ≡ₚ documented_columns).
Proof.
  intros s'. split; [vm_compute; reflexivity|].
  assert (exists file, csv_contents (csv_file Toy.trainer0) (trace s') = Some file /\
                       length file = 4 /\ head file = Some (CellStr <$> csv_fields))
    as (file & Hfile & Hlen & Hhead).
  { eexists. split; [vm_compute; reflexivity|]. split; reflexivity. }
  destruct file as [|header rows]; [discriminate|]. injection Hhead as ->.
  exists (CellStr <$> csv_fields), rows.
  split; [exact Hfile|]. split; [exact Hlen|]. split; [reflexivity|].
  split; [reflexivity|]. split; [|split].
  - intros Hin. unfold csv_fields in Hin. cbn [fmap list_fmap] in Hin.
    repeat (apply elem_of_cons in Hin as [Hin|Hin]; [discriminate|]).
    by apply elem_of_nil in Hin.
  - unfold documented_columns. do 4 apply list_elem_of_further.
    apply list_elem_of_here.
  - intros Hperm. apply Permutation_length in Hperm.
    vm_compute in Hperm. discriminate.
Qed.

(** C6, the display is not the running average: validating the toy
    trainer's two batches, of losses 0.5 and 1, returns their average 0.75,
    and the bar shows 0.5 after the first batch and 0.5 (the second loss
    over two) after the second, where the cumulative loss over the number of
    batches is 0.5 and then 0.75. *)
Lemma validation_display_is_not_running_average :
  let p := validate Toy.trainer0 in
  let shown := postfix_values "Validating" "val_loss" (trace p.2) in
  (returned (0%float, ∅) p.1).1 = 0.75%float /\
  returns p.1 = true /\
  shown = [0.5; 0.5]%float /\
  running_averages 0 0 [0.5; 1]%float = [0.5; 0.75]%float /\
  shown <> running_averages 0 0 [0.5; 1]%float.
Proof.
  intros p shown.
  assert (shown = [0.5; 0.5]%float) as Hshown by (vm_compute; reflexivity).
  assert (running_averages 0 0 [0.5; 1]%float = [0.5; 0.75]%float) as Havg
    by (vm_compute; reflexivity).
  split; [vm_compute; reflexivity|]. split; [vm_compute; reflexivity|].
  split; [exact Hshown|]. split; [exact Havg|].
  rewrite Hshown, Havg. intros E.
  apply (f_equal (fun l => PrimFloat.eqb (default 0%float (l !! 1)) 0.5)) in E.
  vm_compute in E. discriminate.
Qed.

Lemma toy_attached : optimizers_attached Toy.trainer0.
Proof. split; reflexivity. Qed.

Lemma toy_disjoint :
  generator (model Toy.trainer0) ## discriminator (model Toy.trainer0).
Proof.
  intros p Hp Hq. apply list_elem_of_singleton in Hp, Hq. congruence.
Qed.

(** The first training batch of the toy trainer (C1): the batch changes
    the generator's weight, and it is the generator step that does. *)
Lemma adversarial_step_protocol_witness :
  let s := Toy.trainer0 in
  let batch : float * float := (1, 2)%float in
  let p := train_batch train_locals_init batch s in
  (optimizers_attached s /\
   generator (model s) ## discriminator (model s) /\
   returns p.1 = true) /\
  parameters (model p.2) !! 0 <> parameters (model s) !! 0 /\
  exists g_loss fake_mask s1 d_loss s2,
    train_generator 1%float 2%float s = (Ok (g_loss, fake_mask), s1) /\
    train_discriminator 1%float fake_mask 2%float s1 = (Ok d_loss, s2) /\
    model p.2 = model s2 /\
    (forall p, p ∈ discriminator (model s) ->
               parameters (model s1) !! p = parameters (model s) !! p) /\
    (forall q, q ∈ generator (model s) ->
               parameters (model p.2) !! q = parameters (model s1) !! q).
Proof.
  intros s batch p.
  assert (returns p.1 = true) as Hret by (vm_compute; reflexivity).
  split; [split; [exact toy_attached | split; [exact toy_disjoint | exact Hret]]|].
  split.
  - intros E. apply (f_equal (fun o => from_option
                       (fun w => PrimFloat.eqb (item (p_data w)) 1) false o)) in E.
    vm_compute in E. discriminate.
  - exact (proj2 (proj2 (proj2 adversarial_step_protocol)) s train_locals_init
             batch _ _ toy_attached toy_disjoint
             (run_returned train_locals_init p Hret)).
Defined.

(** A NaN target makes the toy generator step fail with its weights
    untouched (C4). *)
Lemma nan_loss_raises_before_update_witness :
  let s := Toy.trainer0 in
  check_loss_nan (g_seg_loss_of s 1%float Toy.nan) = true /\
  exists s',
    train_generator 1%float Toy.nan s = (Raise (ValueError "NaN in g_seg_loss"), s') /\
    weights (model s') = weights (model s) /\
    optimizer_G s' = optimizer_G s /\ optimizer_D s' = optimizer_D s.
Proof.
  intros s.
  assert (check_loss_nan (g_seg_loss_of s 1%float Toy.nan) = true) as Hnan
    by (vm_compute; reflexivity).
  split; [exact Hnan|].
  exact (proj1 (nan_loss_raises_before_update s 1%float (constant 0%float) Toy.nan)
           Hnan).
Defined.

(** A NaN target makes a validation batch of the toy trainer log and
    raise (C3). *)
Lemma nan_loss_is_fatal_witness :
  let s := Toy.trainer0 in
  let batch : float * float := (1%float, Toy.nan) in
  check_loss_nan (g_seg_loss_of s (to_float32 batch.1) (to_float32 batch.2)) = true /\
  exists s',
    validate_batch val_locals_init batch s = (Raise (ValueError "NaN in val_loss"), s') /\
    last (trace s') = Some (Log ERROR (Text "NaN detected in val_loss")).
Proof.
  intros s batch.
  assert (check_loss_nan
            (g_seg_loss_of s (to_float32 batch.1) (to_float32 batch.2)) = true)
    as Hnan by (vm_compute; reflexivity).
  split; [exact Hnan|].
  exact (proj1 (proj2 (proj2 (proj2 nan_loss_is_fatal))) s val_locals_init batch Hnan).
Defined.

(** The toy discriminator step returns the sum of its two losses (C8). *)
Lemma discriminator_loss_is_sum_of_bce_witness :
  let s := Toy.trainer0 in
  let mask := constant 1%float in
  (check_loss_nan (item (d_real_loss_of s 1%float 2%float)) = false /\
   check_loss_nan (item (d_fake_loss_of s 1%float (value mask) 2%float)) = false) /\
  (train_discriminator 1%float mask 2%float s).1 =
    Ok (PyFloat.add (d_real_loss_of s 1%float 2%float)
          (d_fake_loss_of s 1%float (value mask) 2%float)).
Proof.
  intros s mask.
  assert (check_loss_nan (item (d_real_loss_of s 1%float 2%float)) = false) as Hreal
    by (vm_compute; reflexivity).
  assert (check_loss_nan (item (d_fake_loss_of s 1%float (value mask) 2%float)) = false)
    as Hfake by (vm_compute; reflexivity).
  split; [split; [exact Hreal | exact Hfake]|].
  destruct (proj2 (proj2 (proj2 (discriminator_loss_is_sum_of_bce s 1%float mask
                                   2%float))) Hreal Hfake) as (s' & -> & _).
  reflexivity.
Defined.

(** The toy trainer with an empty training loader fails its training
    pass with [ZeroDivisionError]; with two batches the pass returns (C10). *)
Lemma train_one_epoch_needs_batches_witness :
  let s := Toy.trainer_empty in
  (loader_len (train_loader s) = 0 /\
   (loader_iter (train_loader s) (torch_state s)).1 = []) /\
  returns (train_one_epoch Toy.trainer0).1 = true /\
  tl_logs train_locals_init = None /\
  exists s', train_one_epoch s = (Raise ZeroDivisionError, s').
Proof.
  intros s. split; [split; reflexivity|]. split; [vm_compute; reflexivity|].
  exact (proj1 (proj2 train_one_epoch_needs_batches) s eq_refl eq_refl).
Defined.

(** ** A library whose validation average is NaN *)

Module NanAverage.

(** The toy library with another loss: the loss of a pair is its target,
    so a batch may have the loss [+inf] or [-inf]. *)
Definition torch : Torch :=
  {| tensor := float;
     lib_state := nat;
     adam_slot := nat;
     metrics_state := option (float * float);
     item := fun x => x;
     to_float32 := fun x => x;
     ones_like := fun _ => 1%float;
     zeros_like := fun _ => 0%float;
     mul_scalar := fun x c => (x * c)%float;
     tensor_add := fun x y => (x + y)%float;
     generator_forward := fun _ ws st x => ((x * Toy.fsum ws)%float, S st);
     discriminator_forward := fun _ ws st x m =>
       ((PrimFloat.abs (m - x) * Toy.fsum ws)%float, S st);
     CombinedLoss := fun _ b => b;
     BCELoss := fun p y => PrimFloat.abs (p - y);
     adam_update := fun _ _ slot w g =>
       ((w - g * 0.125)%float, S (default 0 slot));
     metrics_update := fun _ p t => Some (p, t);
     metrics_compute := fun st =>
       match st with
       | Some (p, t) =>
           py_dict ((fun k => (k, PrimFloat.abs (p - t))) <$> metric_keys)
       | None => ∅
       end;
     metrics_reset := fun _ => None |}.

Definition autograd : @Backward torch :=
  @Build_Backward torch (fun _ _ => (-1)%float).

#[local] Existing Instance torch.
#[local] Existing Instance autograd.

(** A validation loader that yields the targets [+inf] and [-inf] in the
    first epoch and the targets 1 and 1 afterwards. *)
Definition val_loader : DataLoader :=
  {| loader_len := 2;
     loader_iter := fun st =>
       (if (st <=? 3)%nat
        then [(1, PrimFloat.infinity); (1, PrimFloat.neg_infinity)]%float
        else [(1, 1); (1, 1)]%float, st) |}.

Definition train_loader : DataLoader :=
  {| loader_len := 1; loader_iter := fun st => ([(1, 2)]%float, st) |}.

Definition mdl : GanModel :=
  {| generator := [0]; discriminator := [1];
     parameters := {[ 0 := {| p_data := 1%float; p_grad := None |};
                      1 := {| p_data := 0.5%float; p_grad := None |} ]};
     training := false |}.

Definition cfg : GANTrainingConfig :=
  {| device := "cpu"; batch_size := 1; num_epochs := 2;
     lr_generator := 0.5; lr_discriminator := 0.5;
     beta1 := 0.5; beta2 := 0.5;
     lr_decay_step := 1; lr_decay_gamma := 0.5;
     checkpoint_dir := "ckpt" |}.

Definition trainer : GANTrainer :=
  GANTrainer_init cfg mdl train_loader val_loader None "20260101_000000" None 0 [].

End NanAverage.

Section NanAverageRun.
#[local] Existing Instance NanAverage.torch.
#[local] Existing Instance NanAverage.autograd.

(** C2 as stated fails: the first epoch's validation batches have the
    losses [+inf] and [-inf], neither of them NaN, so their average is NaN
    and the best loss stays at positive infinity; the second epoch's
    validation loss 1.0 is below positive infinity and [best_gan_model.pth]
    is written, although 1.0 is not below the loss of the first epoch
    ([1.0 < nan] is false). *)
Lemma best_written_after_nan_epoch :
  let s0 := NanAverage.trainer in
  let s' := (train s0).2 in
  let obs := epochs_observed (trace s') in
  (train s0).1 = Ok tt /\
  exists o1 o2,
    obs = [o1; o2] /\
    PyFloat.isnan (eo_val_loss o1) = true /\
    eo_val_loss o2 = 1%float /\
    best_model_path s0 ∈ eo_files o2 /\
    PyFloat.lt (eo_val_loss o2) (eo_val_loss o1) = false /\
    ~ (best_model_path s0 ∈ eo_files o2 <->
       PyFloat.lt (eo_val_loss o2) PyFloat.inf = true /\
       forall j o', j < 1 -> obs !! j = Some o' ->
                    PyFloat.lt (eo_val_loss o2) (eo_val_loss o') = true).
Proof.
  intros s0 s' obs. split; [vm_compute; reflexivity|].
  pose (o1 := {| eo_epoch := 1; eo_val_loss := PrimFloat.nan;
                 eo_files := [last_model_path s0] |}).
  pose (o2 := {| eo_epoch := 2; eo_val_loss := 1%float;
                 eo_files := [last_model_path s0; best_model_path s0] |}).
  assert (obs = [o1; o2]) as Hobs by (vm_compute; reflexivity).
  assert (PyFloat.lt (eo_val_loss o2) (eo_val_loss o1) = false) as Hlt
    by (vm_compute; reflexivity).
  assert (best_model_path s0 ∈ eo_files o2) as Hbest
    by apply list_elem_of_further, list_elem_of_here.
  exists o1, o2. split; [exact Hobs|].
  split; [vm_compute; reflexivity|]. split; [reflexivity|].
  split; [exact Hbest|]. split; [exact Hlt|].
  intros [Hwritten _]. destruct (Hwritten Hbest) as [_ Hall].
  specialize (Hall 0 o1 (Nat.lt_0_1)). rewrite Hobs in Hall.
  specialize (Hall eq_refl). congruence.
Qed.

End NanAverageRun.


(** ** The toy run against the further properties *)

Lemma run_raised {A S : Type} e (p : result A * S) :
  p.1 = Raise e -> p = (Raise e, p.2).
Proof. destruct p as [r s]. cbn [fst snd]. intros ->. reflexivity. Qed.

(** No character of a string literal is the given one. *)
Ltac not_in_chars :=
  let Hin := fresh "Hin" in
  intros Hin; unfold chars in Hin; simpl in Hin;
  repeat (apply elem_of_cons in Hin as [Hin|Hin]; [discriminate|]);
  by apply elem_of_nil in Hin.

Lemma toy_validate_returns :
  let p := validate Toy.trainer0 in
  let r := returned (0%float, ∅) p.1 in
  validate Toy.trainer0 = (Ok (r.1, r.2), p.2).
Proof.
  intros p r. transitivity (Ok r, p.2); [|by destruct r].
  apply run_returned. vm_compute. reflexivity.
Qed.

(** Validating the toy trainer (X2): the losses of its two batches. *)
Lemma validate_returns_witness :
  let s := Toy.trainer0 in
  let p := validate s in
  let r := returned (0%float, ∅) p.1 in
  validate s = (Ok (r.1, r.2), p.2) /\
  let yielded := loader_iter (val_loader s) (torch_state s) in
  let losses := validation_losses (generator_weights s).*2 yielded.2 yielded.1 in
  Forall (fun l => PyFloat.isnan l = false) losses /\
  r.1 = PyFloat.div (foldl PyFloat.add PyFloat.zero losses)
          (PyFloat.of_nat (loader_len (val_loader s))) /\
  loader_len (val_loader s) <> 0 /\
  r.2 !! "val_loss" = Some r.1 /\
  (forall k, is_Some (r.2 !! k) <-> k = "val_loss" \/ k ∈ metric_keys).
Proof.
  intros s p r. split; [exact toy_validate_returns|].
  exact (validate_returns s r.1 r.2 p.2 toy_validate_returns).
Defined.

(** The first epoch of the toy run (X4): both passes return, and so does
    the rest of the epoch. *)
Lemma epoch_end_after_passes_witness :
  let s := Toy.trainer0 in
  let p1 := train_one_epoch s in
  let tr := returned (0%float, 0%float, ∅) p1.1 in
  let p2 := validate p1.2 in
  let va := returned (0%float, ∅) p2.1 in
  (train_one_epoch s = (Ok tr, p1.2) /\ validate p1.2 = (Ok va, p2.2)) /\
  train_epoch tt 0 s = epoch_end 0 tr va p2.2 /\
  has_metric_keys tr.2 /\ has_metric_keys va.2 /\
  (step_size (scheduler_G p2.2) <> 0 /\ step_size (scheduler_D p2.2) <> 0 ->
   (epoch_end 0 tr va p2.2).1 = Ok tt) /\
  (step_size (scheduler_G p2.2) = 0 \/ step_size (scheduler_D p2.2) = 0 ->
   (epoch_end 0 tr va p2.2).1 = Raise ZeroDivisionError).
Proof.
  intros s p1 tr p2 va.
  assert (train_one_epoch s = (Ok tr, p1.2)) as Htr
    by (apply run_returned; vm_compute; reflexivity).
  assert (validate p1.2 = (Ok va, p2.2)) as Hva
    by (apply run_returned; vm_compute; reflexivity).
  split; [split; [exact Htr | exact Hva]|].
  exact (epoch_end_after_passes 0 s tr p1.2 va p2.2 Htr Hva).
Defined.

Lemma toy_train_one_epoch_returns :
  let p := train_one_epoch Toy.trainer0 in
  let r := returned (0%float, 0%float, ∅) p.1 in
  train_one_epoch Toy.trainer0 = (Ok (r.1.1, r.1.2, r.2), p.2).
Proof.
  intros p r. transitivity (Ok r, p.2); [|by destruct r as [[] ?]].
  apply run_returned. vm_compute. reflexivity.
Qed.

(** The training pass of the toy trainer (X5). *)
Lemma train_one_epoch_returns_witness :
  let s := Toy.trainer0 in
  let p := train_one_epoch s in
  let r := returned (0%float, 0%float, ∅) p.1 in
  train_one_epoch s = (Ok (r.1.1, r.1.2, r.2), p.2) /\
  let yielded := loader_iter (train_loader s) (torch_state s) in
  let len := loader_len (train_loader s) in
  let s0 := set_torch_state yielded.2 (set_model (with_training true (model s)) s) in
  let losses := training_losses yielded.1 train_locals_init s0 in
  length losses = length yielded.1 /\
  Forall (fun l => PyFloat.isnan l = false) losses.*1 /\
  Forall (fun l => PyFloat.isnan l = false) losses.*2 /\
  r.1.1 = PyFloat.div (foldl PyFloat.add PyFloat.zero losses.*1) (PyFloat.of_nat len) /\
  r.1.2 = PyFloat.div (foldl PyFloat.add PyFloat.zero losses.*2) (PyFloat.of_nat len) /\
  yielded.1 <> [] /\ len <> 0 /\
  (forall k, is_Some (r.2 !! k) <-> k ∈ metric_keys).
Proof.
  intros s p r. split; [exact toy_train_one_epoch_returns|].
  exact (train_one_epoch_returns s r.1.1 r.1.2 r.2 p.2 toy_train_one_epoch_returns).
Defined.

(** The toy run (X7): its first epoch has a finite validation loss and
    writes the best checkpoint. *)
Lemma best_checkpoint_exists_iff_witness :
  let s0 := Toy.trainer0 in
  let s' := (train s0).2 in
  train s0 = (Ok tt, s') /\
  let obs := epochs_observed (trace s') in
  ((exists i o, obs !! i = Some o /\ best_model_path s0 ∈ eo_files o) <->
   (exists i o, obs !! i = Some o /\
                PyFloat.lt (eo_val_loss o) PyFloat.inf = true)).
Proof.
  intros s0 s'. split; [exact toy_run_completes|].
  exact (best_checkpoint_exists_iff Toy.cfg Toy.mdl _ _ None "20260101_000000"
           None 0 [1] s' toy_run_completes).
Defined.

(** The toy run (X8): the best checkpoint is last written in epoch 2,
    whose loss 0 is the final best. *)
Lemma final_best_is_minimal_witness :
  let s0 := Toy.trainer0 in
  let s' := (train s0).2 in
  train s0 = (Ok tt, s') /\
  best_val_loss s' = 0%float /\
  let obs := epochs_observed (trace s') in
  (forall o, o ∈ obs -> PyFloat.lt (eo_val_loss o) (best_val_loss s') = false) /\
  (forall i o,
     obs !! i = Some o -> best_model_path s0 ∈ eo_files o ->
     (forall j o', i < j -> obs !! j = Some o' ->
                   best_model_path s0 ∉ eo_files o') ->
     eo_val_loss o = best_val_loss s') /\
  ((forall i o, obs !! i = Some o -> best_model_path s0 ∉ eo_files o) ->
   best_val_loss s' = PyFloat.inf).
Proof.
  intros s0 s'. split; [exact toy_run_completes|].
  split; [vm_compute; reflexivity|].
  exact (final_best_is_minimal Toy.cfg Toy.mdl _ _ None "20260101_000000"
           None 0 [1] s' toy_run_completes).
Defined.

(** The toy run (X9): three epochs, so the last checkpoint holds the
    final weights. *)
Lemma last_checkpoint_is_final_model_witness :
  let s := Toy.trainer0 in
  let s' := (train s).2 in
  (train s = (Ok tt, s') /\ num_epochs (config s) <> 0) /\
  checkpoint_contents (last_model_path s) (trace s') = Some (weights (model s')) /\
  weights_dir s' = Some (weights_dir_of s) /\
  training (model s') = false.
Proof.
  intros s s'.
  assert (num_epochs (config s) <> 0) as Hne by discriminate.
  split; [split; [exact toy_run_completes | exact Hne]|].
  exact (proj2 (last_checkpoint_is_final_model s s' toy_run_completes) Hne).
Defined.

Lemma toy_generator_step_returns :
  let p := train_generator 3%float 1%float Toy.trainer1 in
  train_generator 3%float 1%float Toy.trainer1 =
    (Ok (returned (0%float, constant 0%float) p.1), p.2).
Proof. intros p. apply run_returned. vm_compute. reflexivity. Qed.

Lemma toy1_attached : optimizers_attached Toy.trainer1.
Proof. split; reflexivity. Qed.

(** A generator step of the second toy trainer (X10): the generator's
    parameter carried the gradient 4 and is left with the gradient of this
    batch. *)
Lemma generator_step_updates_witness :
  let s := Toy.trainer1 in
  let x := {| p_data := 1%float; p_grad := Some 4%float |} in
  let p := train_generator 3%float 1%float s in
  let r := returned (0%float, constant 0%float) p.1 in
  (train_generator 3%float 1%float s = (Ok r, p.2) /\
   optimizers_attached s /\
   0 ∈ generator (model s) /\
   parameters (model s) !! 0 = Some x) /\
  let g := grad_of (g_seg_root s 3%float 1%float) 0 in
  let u := adam_updated (optimizer_G s) (slots (optimizer_G s) !! 0) x g in
  r = (g_seg_loss_of s 3%float 1%float, fake_handle_of s 3%float) /\
  p_grad <$> parameters (model p.2) !! 0 = Some (Some g) /\
  (NoDup (generator (model s)) ->
   parameters (model p.2) !! 0 = Some u.1 /\
   slots (optimizer_G p.2) !! 0 = Some u.2).
Proof.
  intros s x p r.
  assert (0 ∈ generator (model s)) as Hin by apply list_elem_of_here.
  assert (parameters (model s) !! 0 = Some x) as Hx by reflexivity.
  split; [split; [exact toy_generator_step_returns|];
          split; [exact toy1_attached|]; split; [exact Hin | exact Hx]|].
  exact (generator_step_updates s 3%float 1%float r p.2 0 x
           toy_generator_step_returns toy1_attached Hin Hx).
Defined.

Lemma toy_discriminator_step_returns :
  let p := train_discriminator 3%float (constant 2%float) 1%float Toy.trainer1 in
  train_discriminator 3%float (constant 2%float) 1%float Toy.trainer1 =
    (Ok (returned 0%float p.1), p.2).
Proof. intros p. apply run_returned. vm_compute. reflexivity. Qed.

(** A discriminator step of the second toy trainer (X11). *)
Lemma discriminator_step_updates_witness :
  let s := Toy.trainer1 in
  let x := {| p_data := 8%float; p_grad := Some 2%float |} in
  let mask := constant 2%float in
  let p := train_discriminator 3%float mask 1%float s in
  let d := returned 0%float p.1 in
  (train_discriminator 3%float mask 1%float s = (Ok d, p.2) /\
   optimizers_attached s /\
   1 ∈ discriminator (model s) /\
   parameters (model s) !! 1 = Some x) /\
  let g := grad_of (d_loss_root s 3%float (value mask) 1%float) 1 in
  let u := adam_updated (optimizer_D s) (slots (optimizer_D s) !! 1) x g in
  p_grad <$> parameters (model p.2) !! 1 = Some (Some g) /\
  (NoDup (discriminator (model s)) ->
   parameters (model p.2) !! 1 = Some u.1 /\
   slots (optimizer_D p.2) !! 1 = Some u.2).
Proof.
  intros s x mask p d.
  assert (1 ∈ discriminator (model s)) as Hin by apply list_elem_of_here.
  assert (parameters (model s) !! 1 = Some x) as Hx by reflexivity.
  split; [split; [exact toy_discriminator_step_returns|];
          split; [exact toy1_attached|]; split; [exact Hin | exact Hx]|].
  exact (discriminator_step_updates s 3%float mask 1%float d p.2 1 x
           toy_discriminator_step_returns toy1_attached Hin Hx).
Defined.

(** The toy trainer's metrics file (X12): the header written at set-up
    stays the first row. *)
Lemma train_keeps_csv_rows_witness :
  let s := Toy.trainer0 in
  let path := csv_file s in
  let rows := [CellStr <$> csv_fields] in
  csv_contents path (trace s) = Some rows /\
  (exists more, csv_contents path (trace (train s).2) = Some (rows ++ more)) /\
  csv_contents path (trace (train_one_epoch s).2) = Some rows /\
  csv_contents path (trace (validate s).2) = Some rows.
Proof.
  intros s path rows.
  assert (csv_contents path (trace s) = Some rows) as Hrows
    by (vm_compute; reflexivity).
  split; [exact Hrows|]. exact (train_keeps_csv_rows s path rows Hrows).
Defined.

(** The toy run (X15): its paths are those of [ckpt/logs_20260101_000000]. *)
Lemma run_paths_witness :
  let s0 := Toy.trainer0 in
  let s' := (train s0).2 in
  let dir := path_join "ckpt" ("logs_" +:+ "20260101_000000") in
  train s0 = (Ok tt, s') /\
  log_dir s' = Some dir /\ Forall (placed dir) (trace s').
Proof.
  intros s0 s' dir. split; [exact toy_run_completes|].
  exact (run_paths Toy.cfg Toy.mdl _ _ None "20260101_000000"
           None 0 [1] s' toy_run_completes).
Defined.

(** The default configuration path of the script (X16). *)
Lemma names_of_config_path_witness :
  (("/"%char ∉ chars "train_config") /\ ("."%char ∉ chars "train_config") /\
   ("/"%char ∉ chars "c")) /\
  module_name "configs/train_config.py" = Some "train_config" /\
  dataset_name "configs/train_config.py" = Some "train_config" /\
  module_name "configs/train_config.pyc" = Some "train_configc" /\
  dataset_name "configs/train_config.c" = Some "train_config" /\
  module_name "train_config" = Some "train_config" /\
  dataset_name "train_config" = Some "train_config".
Proof.
  assert ("/"%char ∉ chars "train_config") as H1 by not_in_chars.
  assert ("."%char ∉ chars "train_config") as H2 by not_in_chars.
  assert ("/"%char ∉ chars "c") as H3 by not_in_chars.
  split; [split; [exact H1 | split; [exact H2 | exact H3]]|].
  exact (names_of_config_path "configs" "train_config" "c" H1 H2 H3).
Defined.
